(** * The FFmpeg RTMP bridge: lifecycle, video/audio send paths, teardown

    A shallow embedding of [UnityProject/Plugins/Native/ffmpeg_rtmp_bridge.c]
    (with the declarations of [ffmpeg_rtmp_bridge.h]).

    - The file-scope struct [g_rtmp] is the record [Session]; every C
      function becomes a computation in the monad [M], which threads the
      session and collects, in call order, the FFmpeg library calls made.
    - FFmpeg itself is outside the program.  What the library answers during
      one public call is an explicit argument (the [..Env] records below):
      return codes as [Z], pointers as [option handle] ([None] is NULL).
      An encoder's answers to [avcodec_receive_packet] are a finite list;
      once it is used up the encoder has no packet.
    - C [int] and [int64_t] values are integers in [Z]; the arithmetic the
      program performs on them is wrapped to 32 resp. 64 bits two's
      complement ([int32], [int64]), which is what the supported targets
      compute (formally signed overflow is undefined in C).
    - Writes into library objects that the bridge never reads back (stream
      ids and time bases, the frame's pts and geometry) are left out, as is
      the rendering of the error message by [snprintf].
    - The mutex is left out: the embedding is sequential, one public call
      at a time.

    The stub build, [UnityProject/Plugins/Native/ffmpeg_rtmp_stub.c], is
    embedded in the module [Stub]. *)

From Stdlib Require Import ZArith List String Bool Lia.
Import ListNotations.
Local Open Scope string_scope.
Local Open Scope list_scope.
Local Open Scope Z_scope.

(** ** Machine integers *)

Definition INT_MIN : Z := - 2 ^ 31.
Definition INT_MAX : Z := 2 ^ 31 - 1.
Definition INT64_MIN : Z := - 2 ^ 63.
Definition INT64_MAX : Z := 2 ^ 63 - 1.

Definition wrap (bits : Z) (z : Z) : Z :=
  (z + 2 ^ (bits - 1)) mod 2 ^ bits - 2 ^ (bits - 1).

Definition int32 (z : Z) : Z := wrap 32 z.
Definition int64 (z : Z) : Z := wrap 64 z.

#[global] Arguments wrap : simpl never.
#[global] Arguments int32 : simpl never.
#[global] Arguments int64 : simpl never.

Definition int_range (z : Z) : Prop := INT_MIN <= z <= INT_MAX.
Definition int64_range (z : Z) : Prop := INT64_MIN <= z <= INT64_MAX.

(** ** Declarations of ffmpeg_rtmp_bridge.h *)

Definition RTMP_SUCCESS : Z := 0.
Definition RTMP_ERROR_INIT_FAILED : Z := -1.
Definition RTMP_ERROR_CONNECT_FAILED : Z := -2.
Definition RTMP_ERROR_ENCODE_FAILED : Z := -3.
Definition RTMP_ERROR_SEND_FAILED : Z := -4.
Definition RTMP_ERROR_NOT_CONNECTED : Z := -5.
Definition RTMP_ERROR_INVALID_PARAMS : Z := -6.
Definition RTMP_ERROR_ALLOC_FAILED : Z := -7.

Inductive RTMPState : Type :=
| RTMP_STATE_IDLE
| RTMP_STATE_INITIALIZED
| RTMP_STATE_CONNECTED
| RTMP_STATE_STREAMING
| RTMP_STATE_ERROR.

Definition state_code (s : RTMPState) : Z :=
  match s with
  | RTMP_STATE_IDLE => 0
  | RTMP_STATE_INITIALIZED => 1
  | RTMP_STATE_CONNECTED => 2
  | RTMP_STATE_STREAMING => 3
  | RTMP_STATE_ERROR => -1
  end.

Definition state_eqb (a b : RTMPState) : bool := state_code a =? state_code b.

Record RTMPConfig : Type := mkConfig {
  width : Z;
  height : Z;
  fps : Z;
  bitrate_kbps : Z;
  keyframe_interval : Z;
  audio_sample_rate : Z;
  audio_channels : Z;
  audio_bitrate_kbps : Z
}.

(** ** FFmpeg at its boundary *)

(** Constants of the FFmpeg headers used by the bridge:
    [AVERROR(EAGAIN)] with the POSIX errno 11, [AVERROR_EOF] (the negated tag
    'E','O','F',' '), and two [AVOutputFormat] flag bits. *)
Definition AVERROR_EAGAIN : Z := -11.
Definition AVERROR_EOF : Z := -541478725.
Definition AVFMT_NOFILE : Z := 1.
Definition AVFMT_GLOBALHEADER : Z := 64.

(** Addresses of library objects; a pointer is an [option handle]. *)
Definition handle : Type := positive.

Definition is_null {A : Type} (p : option A) : bool :=
  match p with Some _ => false | None => true end.

(** The output context: of an [AVFormatContext] the bridge reads only
    [oformat->flags]. *)
Record AVFormatContext : Type := mkFormatCtx {
  ctx_addr : handle;
  oformat_flags : Z
}.

Inductive Stream : Type := Video | Audio.

(** The encoder configuration the bridge writes into a codec context before
    opening it. *)
Inductive CodecSettings : Type :=
| H264 (bit_rate c_width c_height time_base_den gop_size max_b_frames : Z)
       (global_header : bool)
| AAC (bit_rate sample_rate channels : Z) (global_header : bool).

(** The library calls of the bridge that allocate, release, encode or write.
    Where the bridge branches on a result, the result is part of the event.
    Pure setters ([av_opt_set], [av_dict_set], the channel-layout helpers),
    [av_rescale_q], [av_err2str] and [fprintf] are not recorded. *)
Inductive Call : Type :=
| av_packet_alloc (p : option handle)
| av_packet_free (p : handle)
| av_packet_unref
| avformat_alloc_output_context2 (url : string) (ret : Z)
| avformat_free_context (ctx : handle)
| avcodec_find_encoder (s : Stream) (found : bool)
| avformat_new_stream (s : Stream) (st : option handle)
| avcodec_alloc_context3 (s : Stream) (c : option handle)
| avcodec_open2 (c : CodecSettings) (ret : Z)
| avcodec_parameters_from_context (s : Stream) (ret : Z)
| avcodec_free_context (s : Stream) (c : handle)
| av_frame_alloc (s : Stream) (f : option handle)
| av_frame_get_buffer (s : Stream) (ret : Z)
| av_frame_free (s : Stream) (f : handle)
| av_frame_make_writable (s : Stream) (ret : Z)
| sws_getContext (w h : Z) (c : option handle)
| sws_scale (src_linesize src_height : Z)
| sws_freeContext (c : handle)
| swr_alloc (c : option handle)
| swr_init (ret : Z)
| swr_convert (num_samples : Z) (ret : Z)
| swr_free (c : handle)
| avio_open2 (url : string) (ret : Z)
| avio_closep
| avformat_write_header (ret : Z)
| av_write_trailer
| av_gettime_relative (t : Z)
| avcodec_send_frame (s : Stream) (pts_ms : option Z) (ret : Z)
| avcodec_receive_packet (s : Stream) (ret : Z)
| av_packet_rescale_ts (s : Stream)
| av_interleaved_write_frame (s : Stream) (size : Z) (ret : Z).

(** One answer of an encoder to [avcodec_receive_packet], together with what
    the muxer does if the bridge writes that packet:
    [recv_ret] is the return code, [pkt_size] the [size] of the packet
    handed out, [write_ret] the return code of [av_interleaved_write_frame],
    and [size_after_write] the [size] field of the packet when that call has
    returned, which is what the bridge adds to [bytes_sent].  (FFmpeg takes
    ownership of the packet in [av_interleaved_write_frame] and documents
    that it hands it back blank; the embedding leaves the value open.) *)
Record Received : Type := mkReceived {
  recv_ret : Z;
  pkt_size : Z;
  write_ret : Z;
  size_after_write : Z
}.

(** ** The session: struct g_rtmp *)

(** [SET_ERROR] formats into [error_msg] with [snprintf]; the message is kept
    as its format string and arguments. *)
Inductive FmtArg : Type :=
| FInt (z : Z)
| FStr (s : string)
| FErr (averror : Z).   (* av_err2str(ret) *)

Record ErrorMsg : Type := mkMsg {
  msg_fmt : string;
  msg_args : list FmtArg
}.

Definition no_error : ErrorMsg := mkMsg EmptyString [].

Record Session : Type := mkSession {
  state : RTMPState;
  config : RTMPConfig;
  error_msg : ErrorMsg;
  format_ctx : option AVFormatContext;
  video_codec_ctx : option handle;
  audio_codec_ctx : option handle;
  video_stream : option handle;
  audio_stream : option handle;
  sws_ctx : option handle;
  swr_ctx : option handle;
  video_frame : option handle;
  audio_frame : option handle;
  packet : option handle;
  bytes_sent : Z;
  frames_sent : Z;
  dropped_frames : Z;
  start_time : Z;
  mutex_initialized : Z
}.

(** [g_rtmp = {0}] *)
Definition g_rtmp0 : Session :=
  mkSession RTMP_STATE_IDLE (mkConfig 0 0 0 0 0 0 0 0) no_error
    None None None None None None None None None None 0 0 0 0 0.

Definition set_state (v : RTMPState) (g : Session) : Session :=
  mkSession v (config g) (error_msg g) (format_ctx g) (video_codec_ctx g)
    (audio_codec_ctx g) (video_stream g) (audio_stream g) (sws_ctx g) (swr_ctx
    g) (video_frame g) (audio_frame g) (packet g) (bytes_sent g) (frames_sent
    g) (dropped_frames g) (start_time g) (mutex_initialized g).

Definition set_config (v : RTMPConfig) (g : Session) : Session :=
  mkSession (state g) v (error_msg g) (format_ctx g) (video_codec_ctx g)
    (audio_codec_ctx g) (video_stream g) (audio_stream g) (sws_ctx g) (swr_ctx
    g) (video_frame g) (audio_frame g) (packet g) (bytes_sent g) (frames_sent
    g) (dropped_frames g) (start_time g) (mutex_initialized g).

Definition set_error_msg (v : ErrorMsg) (g : Session) : Session :=
  mkSession (state g) (config g) v (format_ctx g) (video_codec_ctx g)
    (audio_codec_ctx g) (video_stream g) (audio_stream g) (sws_ctx g) (swr_ctx
    g) (video_frame g) (audio_frame g) (packet g) (bytes_sent g) (frames_sent
    g) (dropped_frames g) (start_time g) (mutex_initialized g).

Definition set_format_ctx (v : option AVFormatContext) (g : Session) : Session :=
  mkSession (state g) (config g) (error_msg g) v (video_codec_ctx g)
    (audio_codec_ctx g) (video_stream g) (audio_stream g) (sws_ctx g) (swr_ctx
    g) (video_frame g) (audio_frame g) (packet g) (bytes_sent g) (frames_sent
    g) (dropped_frames g) (start_time g) (mutex_initialized g).

Definition set_video_codec_ctx (v : option handle) (g : Session) : Session :=
  mkSession (state g) (config g) (error_msg g) (format_ctx g) v
    (audio_codec_ctx g) (video_stream g) (audio_stream g) (sws_ctx g) (swr_ctx
    g) (video_frame g) (audio_frame g) (packet g) (bytes_sent g) (frames_sent
    g) (dropped_frames g) (start_time g) (mutex_initialized g).

Definition set_audio_codec_ctx (v : option handle) (g : Session) : Session :=
  mkSession (state g) (config g) (error_msg g) (format_ctx g) (video_codec_ctx
    g) v (video_stream g) (audio_stream g) (sws_ctx g) (swr_ctx g)
    (video_frame g) (audio_frame g) (packet g) (bytes_sent g) (frames_sent g)
    (dropped_frames g) (start_time g) (mutex_initialized g).

Definition set_video_stream (v : option handle) (g : Session) : Session :=
  mkSession (state g) (config g) (error_msg g) (format_ctx g) (video_codec_ctx
    g) (audio_codec_ctx g) v (audio_stream g) (sws_ctx g) (swr_ctx g)
    (video_frame g) (audio_frame g) (packet g) (bytes_sent g) (frames_sent g)
    (dropped_frames g) (start_time g) (mutex_initialized g).

Definition set_audio_stream (v : option handle) (g : Session) : Session :=
  mkSession (state g) (config g) (error_msg g) (format_ctx g) (video_codec_ctx
    g) (audio_codec_ctx g) (video_stream g) v (sws_ctx g) (swr_ctx g)
    (video_frame g) (audio_frame g) (packet g) (bytes_sent g) (frames_sent g)
    (dropped_frames g) (start_time g) (mutex_initialized g).

Definition set_sws_ctx (v : option handle) (g : Session) : Session :=
  mkSession (state g) (config g) (error_msg g) (format_ctx g) (video_codec_ctx
    g) (audio_codec_ctx g) (video_stream g) (audio_stream g) v (swr_ctx g)
    (video_frame g) (audio_frame g) (packet g) (bytes_sent g) (frames_sent g)
    (dropped_frames g) (start_time g) (mutex_initialized g).

Definition set_swr_ctx (v : option handle) (g : Session) : Session :=
  mkSession (state g) (config g) (error_msg g) (format_ctx g) (video_codec_ctx
    g) (audio_codec_ctx g) (video_stream g) (audio_stream g) (sws_ctx g) v
    (video_frame g) (audio_frame g) (packet g) (bytes_sent g) (frames_sent g)
    (dropped_frames g) (start_time g) (mutex_initialized g).

Definition set_video_frame (v : option handle) (g : Session) : Session :=
  mkSession (state g) (config g) (error_msg g) (format_ctx g) (video_codec_ctx
    g) (audio_codec_ctx g) (video_stream g) (audio_stream g) (sws_ctx g)
    (swr_ctx g) v (audio_frame g) (packet g) (bytes_sent g) (frames_sent g)
    (dropped_frames g) (start_time g) (mutex_initialized g).

Definition set_audio_frame (v : option handle) (g : Session) : Session :=
  mkSession (state g) (config g) (error_msg g) (format_ctx g) (video_codec_ctx
    g) (audio_codec_ctx g) (video_stream g) (audio_stream g) (sws_ctx g)
    (swr_ctx g) (video_frame g) v (packet g) (bytes_sent g) (frames_sent g)
    (dropped_frames g) (start_time g) (mutex_initialized g).

Definition set_packet (v : option handle) (g : Session) : Session :=
  mkSession (state g) (config g) (error_msg g) (format_ctx g) (video_codec_ctx
    g) (audio_codec_ctx g) (video_stream g) (audio_stream g) (sws_ctx g)
    (swr_ctx g) (video_frame g) (audio_frame g) v (bytes_sent g) (frames_sent
    g) (dropped_frames g) (start_time g) (mutex_initialized g).

Definition set_bytes_sent (v : Z) (g : Session) : Session :=
  mkSession (state g) (config g) (error_msg g) (format_ctx g) (video_codec_ctx
    g) (audio_codec_ctx g) (video_stream g) (audio_stream g) (sws_ctx g)
    (swr_ctx g) (video_frame g) (audio_frame g) (packet g) v (frames_sent g)
    (dropped_frames g) (start_time g) (mutex_initialized g).

Definition set_frames_sent (v : Z) (g : Session) : Session :=
  mkSession (state g) (config g) (error_msg g) (format_ctx g) (video_codec_ctx
    g) (audio_codec_ctx g) (video_stream g) (audio_stream g) (sws_ctx g)
    (swr_ctx g) (video_frame g) (audio_frame g) (packet g) (bytes_sent g) v
    (dropped_frames g) (start_time g) (mutex_initialized g).

Definition set_dropped_frames (v : Z) (g : Session) : Session :=
  mkSession (state g) (config g) (error_msg g) (format_ctx g) (video_codec_ctx
    g) (audio_codec_ctx g) (video_stream g) (audio_stream g) (sws_ctx g)
    (swr_ctx g) (video_frame g) (audio_frame g) (packet g) (bytes_sent g)
    (frames_sent g) v (start_time g) (mutex_initialized g).

Definition set_start_time (v : Z) (g : Session) : Session :=
  mkSession (state g) (config g) (error_msg g) (format_ctx g) (video_codec_ctx
    g) (audio_codec_ctx g) (video_stream g) (audio_stream g) (sws_ctx g)
    (swr_ctx g) (video_frame g) (audio_frame g) (packet g) (bytes_sent g)
    (frames_sent g) (dropped_frames g) v (mutex_initialized g).

Definition set_mutex_initialized (v : Z) (g : Session) : Session :=
  mkSession (state g) (config g) (error_msg g) (format_ctx g) (video_codec_ctx
    g) (audio_codec_ctx g) (video_stream g) (audio_stream g) (sws_ctx g)
    (swr_ctx g) (video_frame g) (audio_frame g) (packet g) (bytes_sent g)
    (frames_sent g) (dropped_frames g) (start_time g) v.

(** ** The monad of the bridge: session state and the calls made *)

Definition M (A : Type) : Type := Session -> A * Session * list Call.

Definition ret {A : Type} (a : A) : M A := fun g => (a, g, []).

Definition bind {A B : Type} (m : M A) (k : A -> M B) : M B :=
  fun g =>
    let '(a, g1, l1) := m g in
    let '(b, g2, l2) := k a g1 in
    (b, g2, l1 ++ l2).

Definition get : M Session := fun g => (g, g, []).
Definition modify (f : Session -> Session) : M unit := fun g => (tt, f g, []).
Definition call (c : Call) : M unit := fun g => (tt, g, [c]).

Notation "x <- c1 ;; c2" := (bind c1 (fun x => c2))
  (at level 61, c1 at next level, right associativity).
Notation "c1 ;; c2" := (bind c1 (fun _ => c2))
  (at level 61, right associativity).

Definition result {A : Type} (r : A * Session * list Call) : A := fst (fst r).
Definition after {A : Type} (r : A * Session * list Call) : Session := snd (fst r).
Definition calls {A : Type} (r : A * Session * list Call) : list Call := snd r.

Definition SET_ERROR (fmt : string) (args : list FmtArg) : M unit :=
  modify (set_error_msg (mkMsg fmt args)).

(** FFmpeg's releasing functions take the address of the owning pointer:
    they release the object and store NULL, and do nothing on NULL. *)
Definition free_codec_ctx (s : Stream) : M unit :=
  g <- get ;;
  match s with
  | Video =>
      match video_codec_ctx g with
      | Some c => call (avcodec_free_context Video c) ;;
                  modify (set_video_codec_ctx None)
      | None => ret tt
      end
  | Audio =>
      match audio_codec_ctx g with
      | Some c => call (avcodec_free_context Audio c) ;;
                  modify (set_audio_codec_ctx None)
      | None => ret tt
      end
  end.

Definition free_frame (s : Stream) : M unit :=
  g <- get ;;
  match s with
  | Video =>
      match video_frame g with
      | Some f => call (av_frame_free Video f) ;; modify (set_video_frame None)
      | None => ret tt
      end
  | Audio =>
      match audio_frame g with
      | Some f => call (av_frame_free Audio f) ;; modify (set_audio_frame None)
      | None => ret tt
      end
  end.

Definition free_swr : M unit :=
  g <- get ;;
  match swr_ctx g with
  | Some c => call (swr_free c) ;; modify (set_swr_ctx None)
  | None => ret tt
  end.

Definition free_packet : M unit :=
  g <- get ;;
  match packet g with
  | Some p => call (av_packet_free p) ;; modify (set_packet None)
  | None => ret tt
  end.

(** ** What FFmpeg answers during one public call *)

Record VideoInitEnv : Type := mkVideoInitEnv {
  v_find_encoder : bool;              (* avcodec_find_encoder(AV_CODEC_ID_H264) != NULL *)
  v_new_stream : option handle;
  v_alloc_context3 : option handle;
  v_open2 : Z;
  v_parameters_from_context : Z;
  v_frame_alloc : option handle;
  v_frame_get_buffer : Z;
  v_sws_getContext : option handle
}.

Record AudioInitEnv : Type := mkAudioInitEnv {
  a_find_encoder : bool;              (* avcodec_find_encoder(AV_CODEC_ID_AAC) != NULL *)
  a_new_stream : option handle;
  a_alloc_context3 : option handle;
  a_open2 : Z;
  a_parameters_from_context : Z;
  a_frame_alloc : option handle;
  a_frame_get_buffer : Z;
  a_swr_alloc : option handle;
  a_swr_init : Z
}.

Record ConnectEnv : Type := mkConnectEnv {
  c_output_ret : Z;                         (* avformat_alloc_output_context2 *)
  c_output_ctx : option AVFormatContext;    (* the context it stores on success *)
  c_video : VideoInitEnv;
  c_audio : AudioInitEnv;
  c_avio_open2 : Z;
  c_write_header : Z;
  c_time : Z                                (* av_gettime_relative *)
}.

Record EncodeEnv : Type := mkEncodeEnv {
  e_make_writable : Z;
  e_swr_convert : Z;                        (* audio only *)
  e_send_frame : Z;
  e_received : list Received                (* the encoder's answers, in order;
                                               after the last one it has no
                                               packet: AVERROR(EAGAIN) *)
}.

Record FlushEnv : Type := mkFlushEnv {
  f_send_frame : Z;
  f_received : list Received                (* after the last one: AVERROR_EOF *)
}.

Record InitEnv : Type := mkInitEnv {
  i_flush : FlushEnv;                       (* for the teardown of a live session *)
  i_packet_alloc : option handle
}.

(** [g_rtmp.format_ctx->oformat->flags]; the bridge dereferences [format_ctx]
    only where it is not NULL. *)
Definition oformat_flags_of (g : Session) : Z :=
  match format_ctx g with
  | Some fc => oformat_flags fc
  | None => 0
  end.

Definition flag_set (flags bit : Z) : bool := negb (Z.land flags bit =? 0).

(** ** Teardown: rtmp_disconnect, rtmp_cleanup *)

(** The flush loop of [rtmp_disconnect]:
    [while (avcodec_receive_packet(...) >= 0) { rescale; write; unref }].
    The result of the write is not looked at. *)
Fixpoint disconnect_flush (script : list Received) : M unit :=
  match script with
  | [] => call (avcodec_receive_packet Video AVERROR_EOF)
  | r :: rest =>
      call (avcodec_receive_packet Video (recv_ret r)) ;;
      if recv_ret r >=? 0 then
        call (av_packet_rescale_ts Video) ;;
        call (av_interleaved_write_frame Video (pkt_size r) (write_ret r)) ;;
        call av_packet_unref ;;
        disconnect_flush rest
      else ret tt
  end.

Definition rtmp_disconnect (ff : FlushEnv) : M Z :=
  g <- get ;;
  match format_ctx g with
  | Some fc =>
      (* Flush encoders *)
      (if is_null (video_codec_ctx g) then ret tt
       else
         call (avcodec_send_frame Video None (f_send_frame ff)) ;;
         disconnect_flush (f_received ff)) ;;
      (* Write trailer *)
      call av_write_trailer ;;
      (* Close connection *)
      if negb (flag_set (oformat_flags fc) AVFMT_NOFILE) then call avio_closep
      else ret tt
  | None => ret tt
  end ;;
  (* Clean up resources *)
  g <- get ;;
  match sws_ctx g with
  | Some c => call (sws_freeContext c) ;; modify (set_sws_ctx None)
  | None => ret tt
  end ;;
  g <- get ;;
  (if is_null (swr_ctx g) then ret tt else free_swr) ;;
  g <- get ;;
  (if is_null (video_frame g) then ret tt else free_frame Video) ;;
  g <- get ;;
  (if is_null (audio_frame g) then ret tt else free_frame Audio) ;;
  g <- get ;;
  (if is_null (video_codec_ctx g) then ret tt else free_codec_ctx Video) ;;
  g <- get ;;
  (if is_null (audio_codec_ctx g) then ret tt else free_codec_ctx Audio) ;;
  g <- get ;;
  match format_ctx g with
  | Some fc => call (avformat_free_context (ctx_addr fc)) ;;
               modify (set_format_ctx None)
  | None => ret tt
  end ;;
  modify (set_video_stream None) ;;
  modify (set_audio_stream None) ;;
  modify (set_state RTMP_STATE_INITIALIZED) ;;
  ret RTMP_SUCCESS.

Definition rtmp_cleanup (ff : FlushEnv) : M unit :=
  rtmp_disconnect ff ;;
  g <- get ;;
  (if is_null (packet g) then ret tt else free_packet) ;;
  modify (set_state RTMP_STATE_IDLE).

(** ** rtmp_init, rtmp_init_simple *)

Definition rtmp_init_simple
    (width height fps bitrate_kbps keyframe_interval
     audio_sample_rate audio_channels audio_bitrate_kbps : Z)
    (ff : InitEnv) : M Z :=
  (* Validate parameters *)
  if (width <=? 0) || (height <=? 0) || (fps <=? 0) || (bitrate_kbps <=? 0) then
    SET_ERROR "Invalid video parameters: %dx%d @ %dfps, %dkbps"
      [FInt width; FInt height; FInt fps; FInt bitrate_kbps] ;;
    ret RTMP_ERROR_INVALID_PARAMS
  else
    (* Initialize mutex *)
    g <- get ;;
    (if mutex_initialized g =? 0 then modify (set_mutex_initialized 1)
     else ret tt) ;;
    (* Clean up any existing state *)
    g <- get ;;
    (if negb (state_eqb (state g) RTMP_STATE_IDLE) then rtmp_cleanup (i_flush ff)
     else ret tt) ;;
    (* Store configuration *)
    modify (set_config
      (mkConfig width height fps bitrate_kbps
         (if keyframe_interval >? 0 then keyframe_interval else 2)
         (if audio_sample_rate >? 0 then audio_sample_rate else 44100)
         (if audio_channels >? 0 then audio_channels else 2)
         (if audio_bitrate_kbps >? 0 then audio_bitrate_kbps else 128))) ;;
    (* Reset statistics *)
    modify (set_bytes_sent 0) ;;
    modify (set_frames_sent 0) ;;
    modify (set_dropped_frames 0) ;;
    (* Allocate packet *)
    call (av_packet_alloc (i_packet_alloc ff)) ;;
    modify (set_packet (i_packet_alloc ff)) ;;
    if is_null (i_packet_alloc ff) then
      SET_ERROR "Failed to allocate packet" [] ;;
      ret RTMP_ERROR_ALLOC_FAILED
    else
      modify (set_state RTMP_STATE_INITIALIZED) ;;
      modify (set_error_msg no_error) ;;
      ret RTMP_SUCCESS.

Definition rtmp_init (config : option RTMPConfig) (ff : InitEnv) : M Z :=
  match config with
  | None => SET_ERROR "Config is NULL" [] ;; ret RTMP_ERROR_INVALID_PARAMS
  | Some c =>
      rtmp_init_simple (width c) (height c) (fps c) (bitrate_kbps c)
        (keyframe_interval c) (audio_sample_rate c) (audio_channels c)
        (audio_bitrate_kbps c) ff
  end.

(** ** rtmp_connect and the two encoder set-ups *)

Definition init_video_encoder (ff : VideoInitEnv) : M Z :=
  (* Find H.264 encoder *)
  call (avcodec_find_encoder Video (v_find_encoder ff)) ;;
  if negb (v_find_encoder ff) then
    SET_ERROR "H.264 encoder not found" [] ;;
    ret RTMP_ERROR_INIT_FAILED
  else
  (* Create video stream *)
  call (avformat_new_stream Video (v_new_stream ff)) ;;
  modify (set_video_stream (v_new_stream ff)) ;;
  if is_null (v_new_stream ff) then
    SET_ERROR "Failed to create video stream" [] ;;
    ret RTMP_ERROR_INIT_FAILED
  else
  (* Allocate codec context *)
  call (avcodec_alloc_context3 Video (v_alloc_context3 ff)) ;;
  modify (set_video_codec_ctx (v_alloc_context3 ff)) ;;
  if is_null (v_alloc_context3 ff) then
    SET_ERROR "Failed to allocate video codec context" [] ;;
    ret RTMP_ERROR_ALLOC_FAILED
  else
  (* Configure encoder, open encoder *)
  g <- get ;;
  call (avcodec_open2
          (H264 (int32 (bitrate_kbps (config g) * 1000))
                (width (config g)) (height (config g)) (fps (config g))
                (int32 (fps (config g) * keyframe_interval (config g)))
                0
                (flag_set (oformat_flags_of g) AVFMT_GLOBALHEADER))
          (v_open2 ff)) ;;
  if v_open2 ff <? 0 then
    SET_ERROR "Failed to open video encoder: %s" [FErr (v_open2 ff)] ;;
    free_codec_ctx Video ;;
    ret RTMP_ERROR_INIT_FAILED
  else
  (* Copy codec params to stream *)
  call (avcodec_parameters_from_context Video (v_parameters_from_context ff)) ;;
  if v_parameters_from_context ff <? 0 then
    SET_ERROR "Failed to copy codec params: %s"
      [FErr (v_parameters_from_context ff)] ;;
    free_codec_ctx Video ;;
    ret RTMP_ERROR_INIT_FAILED
  else
  (* Allocate video frame *)
  call (av_frame_alloc Video (v_frame_alloc ff)) ;;
  modify (set_video_frame (v_frame_alloc ff)) ;;
  if is_null (v_frame_alloc ff) then
    SET_ERROR "Failed to allocate video frame" [] ;;
    free_codec_ctx Video ;;
    ret RTMP_ERROR_ALLOC_FAILED
  else
  call (av_frame_get_buffer Video (v_frame_get_buffer ff)) ;;
  if v_frame_get_buffer ff <? 0 then
    SET_ERROR "Failed to allocate video frame buffer: %s"
      [FErr (v_frame_get_buffer ff)] ;;
    free_frame Video ;;
    free_codec_ctx Video ;;
    ret RTMP_ERROR_ALLOC_FAILED
  else
  (* Create scaler for RGBA -> YUV420P conversion *)
  call (sws_getContext (width (config g)) (height (config g))
          (v_sws_getContext ff)) ;;
  modify (set_sws_ctx (v_sws_getContext ff)) ;;
  if is_null (v_sws_getContext ff) then
    SET_ERROR "Failed to create scaler context" [] ;;
    free_frame Video ;;
    free_codec_ctx Video ;;
    ret RTMP_ERROR_INIT_FAILED
  else
    ret RTMP_SUCCESS.

Definition init_audio_encoder (ff : AudioInitEnv) : M Z :=
  (* Find AAC encoder *)
  call (avcodec_find_encoder Audio (a_find_encoder ff)) ;;
  if negb (a_find_encoder ff) then
    SET_ERROR "AAC encoder not found" [] ;;
    ret RTMP_ERROR_INIT_FAILED
  else
  (* Create audio stream *)
  call (avformat_new_stream Audio (a_new_stream ff)) ;;
  modify (set_audio_stream (a_new_stream ff)) ;;
  if is_null (a_new_stream ff) then
    SET_ERROR "Failed to create audio stream" [] ;;
    ret RTMP_ERROR_INIT_FAILED
  else
  (* Allocate codec context *)
  call (avcodec_alloc_context3 Audio (a_alloc_context3 ff)) ;;
  modify (set_audio_codec_ctx (a_alloc_context3 ff)) ;;
  if is_null (a_alloc_context3 ff) then
    SET_ERROR "Failed to allocate audio codec context" [] ;;
    ret RTMP_ERROR_ALLOC_FAILED
  else
  (* Configure encoder, open encoder *)
  g <- get ;;
  call (avcodec_open2
          (AAC (int32 (audio_bitrate_kbps (config g) * 1000))
               (audio_sample_rate (config g)) (audio_channels (config g))
               (flag_set (oformat_flags_of g) AVFMT_GLOBALHEADER))
          (a_open2 ff)) ;;
  if a_open2 ff <? 0 then
    SET_ERROR "Failed to open audio encoder: %s" [FErr (a_open2 ff)] ;;
    free_codec_ctx Audio ;;
    modify (set_audio_codec_ctx None) ;;
    ret RTMP_ERROR_INIT_FAILED
  else
  (* Copy codec params to stream *)
  call (avcodec_parameters_from_context Audio (a_parameters_from_context ff)) ;;
  if a_parameters_from_context ff <? 0 then
    SET_ERROR "Failed to copy audio codec params: %s"
      [FErr (a_parameters_from_context ff)] ;;
    free_codec_ctx Audio ;;
    modify (set_audio_codec_ctx None) ;;
    ret RTMP_ERROR_INIT_FAILED
  else
  (* Allocate audio frame *)
  call (av_frame_alloc Audio (a_frame_alloc ff)) ;;
  modify (set_audio_frame (a_frame_alloc ff)) ;;
  if is_null (a_frame_alloc ff) then
    SET_ERROR "Failed to allocate audio frame" [] ;;
    free_codec_ctx Audio ;;
    modify (set_audio_codec_ctx None) ;;
    ret RTMP_ERROR_ALLOC_FAILED
  else
  call (av_frame_get_buffer Audio (a_frame_get_buffer ff)) ;;
  if a_frame_get_buffer ff <? 0 then
    SET_ERROR "Failed to allocate audio frame buffer: %s"
      [FErr (a_frame_get_buffer ff)] ;;
    free_frame Audio ;;
    free_codec_ctx Audio ;;
    modify (set_audio_codec_ctx None) ;;
    ret RTMP_ERROR_ALLOC_FAILED
  else
  (* Create resampler for interleaved float -> planar float *)
  call (swr_alloc (a_swr_alloc ff)) ;;
  modify (set_swr_ctx (a_swr_alloc ff)) ;;
  if is_null (a_swr_alloc ff) then
    SET_ERROR "Failed to allocate resampler" [] ;;
    free_frame Audio ;;
    free_codec_ctx Audio ;;
    modify (set_audio_codec_ctx None) ;;
    ret RTMP_ERROR_ALLOC_FAILED
  else
  call (swr_init (a_swr_init ff)) ;;
  if a_swr_init ff <? 0 then
    SET_ERROR "Failed to init resampler: %s" [FErr (a_swr_init ff)] ;;
    free_swr ;;
    free_frame Audio ;;
    free_codec_ctx Audio ;;
    modify (set_audio_codec_ctx None) ;;
    ret RTMP_ERROR_INIT_FAILED
  else
    ret RTMP_SUCCESS.

Definition rtmp_connect (url : option string) (ff : ConnectEnv) : M Z :=
  match url with
  | None => SET_ERROR "URL is NULL or empty" [] ;; ret RTMP_ERROR_INVALID_PARAMS
  | Some u =>
  if (String.length u =? 0)%nat then
    SET_ERROR "URL is NULL or empty" [] ;; ret RTMP_ERROR_INVALID_PARAMS
  else
  g <- get ;;
  if negb (state_eqb (state g) RTMP_STATE_INITIALIZED) then
    SET_ERROR "Not initialized. Call rtmp_init first." [] ;;
    ret RTMP_ERROR_NOT_CONNECTED
  else
  (* Create output format context for FLV/RTMP; FFmpeg stores NULL on failure *)
  call (avformat_alloc_output_context2 u (c_output_ret ff)) ;;
  modify (set_format_ctx
            (if c_output_ret ff <? 0 then None else c_output_ctx ff)) ;;
  g <- get ;;
  match format_ctx g with
  | None =>
      SET_ERROR "Failed to create output context: %s" [FErr (c_output_ret ff)] ;;
      ret RTMP_ERROR_INIT_FAILED
  | Some fc =>
  (* Initialize video encoder *)
  r <- init_video_encoder (c_video ff) ;;
  if negb (r =? RTMP_SUCCESS) then
    call (avformat_free_context (ctx_addr fc)) ;;
    modify (set_format_ctx None) ;;
    ret r
  else
  (* Initialize audio encoder: audio is optional, failure is only logged *)
  init_audio_encoder (c_audio ff) ;;
  (* Open network connection *)
  opened <-
    (if negb (flag_set (oformat_flags fc) AVFMT_NOFILE) then
       call (avio_open2 u (c_avio_open2 ff)) ;;
       if c_avio_open2 ff <? 0 then
         SET_ERROR "Failed to open connection to %s: %s"
           [FStr u; FErr (c_avio_open2 ff)] ;;
         free_codec_ctx Video ;;
         call (avformat_free_context (ctx_addr fc)) ;;
         modify (set_format_ctx None) ;;
         ret false
       else ret true
     else ret true) ;;
  if negb opened then ret RTMP_ERROR_CONNECT_FAILED
  else
  (* Write stream header *)
  call (avformat_write_header (c_write_header ff)) ;;
  if c_write_header ff <? 0 then
    SET_ERROR "Failed to write header: %s" [FErr (c_write_header ff)] ;;
    call avio_closep ;;
    free_codec_ctx Video ;;
    call (avformat_free_context (ctx_addr fc)) ;;
    modify (set_format_ctx None) ;;
    ret RTMP_ERROR_CONNECT_FAILED
  else
    call (av_gettime_relative (c_time ff)) ;;
    modify (set_start_time (c_time ff)) ;;
    modify (set_state RTMP_STATE_CONNECTED) ;;
    ret RTMP_SUCCESS
  end
  end.

Definition rtmp_start_streaming (now : Z) : M Z :=
  g <- get ;;
  if negb (state_eqb (state g) RTMP_STATE_CONNECTED) then
    SET_ERROR "Not connected. Call rtmp_connect first." [] ;;
    ret RTMP_ERROR_NOT_CONNECTED
  else
    modify (set_state RTMP_STATE_STREAMING) ;;
    call (av_gettime_relative now) ;;
    modify (set_start_time now) ;;
    ret RTMP_SUCCESS.

Definition rtmp_stop_streaming : M Z :=
  g <- get ;;
  (if state_eqb (state g) RTMP_STATE_STREAMING
   then modify (set_state RTMP_STATE_CONNECTED)
   else ret tt) ;;
  ret RTMP_SUCCESS.

(** ** The video path: rtmp_send_video_frame, encode_and_send_video *)

(** [int expected_size = g_rtmp.config.width * g_rtmp.config.height * 4] *)
Definition expected_size (c : RTMPConfig) : Z :=
  int32 (int32 (width c * height c) * 4).

(** The receive loop of [encode_and_send_video].  [None] is the [break]
    (the function goes on after the loop), [Some code] a [return code] from
    inside the loop.  The loop test [ret >= 0] holds whenever it is
    evaluated: on entry [ret] is the result of a successful
    [avcodec_send_frame], at the end of an iteration that of a successful
    write. *)
Fixpoint encode_and_send_video_loop (script : list Received) : M (option Z) :=
  match script with
  | [] => call (avcodec_receive_packet Video AVERROR_EAGAIN) ;; ret None
  | r :: rest =>
      call (avcodec_receive_packet Video (recv_ret r)) ;;
      if (recv_ret r =? AVERROR_EAGAIN) || (recv_ret r =? AVERROR_EOF) then
        ret None
      else if recv_ret r <? 0 then
        SET_ERROR "Error receiving packet: %s" [FErr (recv_ret r)] ;;
        ret (Some RTMP_ERROR_ENCODE_FAILED)
      else
        (* Rescale timestamps *)
        call (av_packet_rescale_ts Video) ;;
        (* Write packet *)
        call (av_interleaved_write_frame Video (pkt_size r) (write_ret r)) ;;
        if write_ret r <? 0 then
          SET_ERROR "Failed to write video packet: %s" [FErr (write_ret r)] ;;
          call av_packet_unref ;;
          g <- get ;;
          modify (set_dropped_frames (int32 (dropped_frames g + 1))) ;;
          ret (Some RTMP_ERROR_SEND_FAILED)
        else
          g <- get ;;
          modify (set_bytes_sent (int64 (bytes_sent g + size_after_write r))) ;;
          call av_packet_unref ;;
          encode_and_send_video_loop rest
  end.

Definition encode_and_send_video (pts : Z) (ff : EncodeEnv) : M Z :=
  (* Make frame writable *)
  call (av_frame_make_writable Video (e_make_writable ff)) ;;
  if e_make_writable ff <? 0 then
    SET_ERROR "Failed to make frame writable: %s" [FErr (e_make_writable ff)] ;;
    ret RTMP_ERROR_ENCODE_FAILED
  else
  (* Convert RGBA to YUV420P *)
  g <- get ;;
  call (sws_scale (int32 (width (config g) * 4)) (height (config g))) ;;
  (* Set PTS, send frame to encoder *)
  call (avcodec_send_frame Video (Some pts) (e_send_frame ff)) ;;
  if e_send_frame ff <? 0 then
    SET_ERROR "Failed to send frame to encoder: %s" [FErr (e_send_frame ff)] ;;
    ret RTMP_ERROR_ENCODE_FAILED
  else
  (* Receive and write encoded packets *)
  r <- encode_and_send_video_loop (e_received ff) ;;
  match r with
  | Some code => ret code
  | None =>
      g <- get ;;
      modify (set_frames_sent (int32 (frames_sent g + 1))) ;;
      ret RTMP_SUCCESS
  end.

Definition rtmp_send_video_frame
    (rgba_data : option (list Byte.byte)) (data_size : Z) (pts : Z)
    (ff : EncodeEnv) : M Z :=
  if is_null rgba_data then
    SET_ERROR "RGBA data is NULL" [] ;;
    ret RTMP_ERROR_INVALID_PARAMS
  else
  g <- get ;;
  if negb (data_size =? expected_size (config g)) then
    SET_ERROR "Invalid data size: expected %d, got %d"
      [FInt (expected_size (config g)); FInt data_size] ;;
    ret RTMP_ERROR_INVALID_PARAMS
  else
  if negb (state_eqb (state g) RTMP_STATE_STREAMING) then
    SET_ERROR "Not streaming" [] ;;
    ret RTMP_ERROR_NOT_CONNECTED
  else
    encode_and_send_video pts ff.

(** ** The audio path: rtmp_send_audio, encode_and_send_audio *)

Fixpoint encode_and_send_audio_loop (script : list Received) : M (option Z) :=
  match script with
  | [] => call (avcodec_receive_packet Audio AVERROR_EAGAIN) ;; ret None
  | r :: rest =>
      call (avcodec_receive_packet Audio (recv_ret r)) ;;
      if (recv_ret r =? AVERROR_EAGAIN) || (recv_ret r =? AVERROR_EOF) then
        ret None
      else if recv_ret r <? 0 then
        ret (Some RTMP_ERROR_ENCODE_FAILED)
      else
        call (av_packet_rescale_ts Audio) ;;
        call (av_interleaved_write_frame Audio (pkt_size r) (write_ret r)) ;;
        if write_ret r <? 0 then
          call av_packet_unref ;;
          ret (Some RTMP_ERROR_SEND_FAILED)
        else
          g <- get ;;
          modify (set_bytes_sent (int64 (bytes_sent g + size_after_write r))) ;;
          call av_packet_unref ;;
          encode_and_send_audio_loop rest
  end.

Definition encode_and_send_audio (num_samples pts : Z) (ff : EncodeEnv) : M Z :=
  (* Make frame writable *)
  call (av_frame_make_writable Audio (e_make_writable ff)) ;;
  if e_make_writable ff <? 0 then ret RTMP_ERROR_ENCODE_FAILED
  else
  (* Resample audio *)
  call (swr_convert num_samples (e_swr_convert ff)) ;;
  if e_swr_convert ff <? 0 then ret RTMP_ERROR_ENCODE_FAILED
  else
  (* Set PTS, send frame to encoder *)
  call (avcodec_send_frame Audio (Some pts) (e_send_frame ff)) ;;
  if e_send_frame ff <? 0 then ret RTMP_ERROR_ENCODE_FAILED
  else
  (* Receive and write packets *)
  r <- encode_and_send_audio_loop (e_received ff) ;;
  match r with
  | Some code => ret code
  | None => ret RTMP_SUCCESS
  end.

(** A PCM sample is a 32-bit IEEE-754 word; the bridge never looks inside. *)
Definition rtmp_send_audio
    (pcm_data : option (list Z)) (num_samples : Z) (pts : Z)
    (ff : EncodeEnv) : M Z :=
  if is_null pcm_data || (num_samples <=? 0) then
    ret RTMP_ERROR_INVALID_PARAMS
  else
  g <- get ;;
  if negb (state_eqb (state g) RTMP_STATE_STREAMING)
     || is_null (audio_codec_ctx g) then
    ret RTMP_SUCCESS   (* Audio is optional *)
  else
    encode_and_send_audio num_samples pts ff.

(** ** Read-only introspection *)

Definition rtmp_get_state (g : Session) : Z := state_code (state g).
Definition rtmp_get_error (g : Session) : ErrorMsg := error_msg g.
Definition rtmp_get_bytes_sent (g : Session) : Z := bytes_sent g.
Definition rtmp_get_frames_sent (g : Session) : Z := frames_sent g.
Definition rtmp_get_dropped_frames (g : Session) : Z := dropped_frames g.

(** * Vocabulary of the statements *)

(** [m] never changes the observation [f] of the session. *)
Definition keeps {A B : Type} (f : Session -> B) (m : M A) : Prop :=
  forall g, f (after (m g)) = f g.

(** Every call [m] makes satisfies [P]. *)
Definition emits {A : Type} (P : Call -> Prop) (m : M A) : Prop :=
  forall g, Forall P (calls (m g)).

Definition default_to (d v : Z) : Z := if v >? 0 then v else d.

(** No codec, conversion, frame, resample or muxer object is held. *)
Definition no_pipeline (g : Session) : Prop :=
  format_ctx g = None /\ video_codec_ctx g = None /\ audio_codec_ctx g = None /\
  video_stream g = None /\ audio_stream g = None /\
  sws_ctx g = None /\ swr_ctx g = None /\
  video_frame g = None /\ audio_frame g = None.

(** The calls the loops make for one packet they receive and write. *)
Definition packet_calls (s : Stream) (r : Received) : list Call :=
  [avcodec_receive_packet s (recv_ret r);
   av_packet_rescale_ts s;
   av_interleaved_write_frame s (pkt_size r) (write_ret r);
   av_packet_unref].

(** The encoder handed out a packet and the muxer took it. *)
Definition written_ok (r : Received) : Prop :=
  0 <= recv_ret r /\ 0 <= write_ret r.

(** The three statistics counters, and the part of the session on which
    being connected rests. *)
Definition stats (g : Session) : Z * Z * Z :=
  (bytes_sent g, frames_sent g, dropped_frames g).

Definition link (g : Session) : RTMPState * option AVFormatContext * option handle :=
  (state g, format_ctx g, video_codec_ctx g).

(** The public operations of the bridge, each with its arguments and with
    what FFmpeg answers during the call. *)
Inductive Op : Type :=
| Init (config : option RTMPConfig) (ff : InitEnv)
| InitSimple (w h f b k sr ch ab : Z) (ff : InitEnv)
| Connect (url : option string) (ff : ConnectEnv)
| StartStreaming (now : Z)
| SendVideoFrame (rgba : option (list Byte.byte)) (data_size pts : Z)
                 (ff : EncodeEnv)
| SendAudio (pcm : option (list Z)) (num_samples pts : Z) (ff : EncodeEnv)
| StopStreaming
| Disconnect (ff : FlushEnv)
| Cleanup (ff : FlushEnv).

(** The session after one operation. *)
Definition exec (op : Op) (g : Session) : Session :=
  match op with
  | Init c ff => after (rtmp_init c ff g)
  | InitSimple w h f b k sr ch ab ff =>
      after (rtmp_init_simple w h f b k sr ch ab ff g)
  | Connect url ff => after (rtmp_connect url ff g)
  | StartStreaming now => after (rtmp_start_streaming now g)
  | SendVideoFrame rgba n pts ff => after (rtmp_send_video_frame rgba n pts ff g)
  | SendAudio pcm n pts ff => after (rtmp_send_audio pcm n pts ff g)
  | StopStreaming => after (rtmp_stop_streaming g)
  | Disconnect ff => after (rtmp_disconnect ff g)
  | Cleanup ff => after (rtmp_cleanup ff g)
  end.

Definition is_init (op : Op) : bool :=
  match op with
  | Init _ _ | InitSimple _ _ _ _ _ _ _ _ _ => true
  | _ => false
  end.

(** The packets the encoder may hand out during a send. *)
Definition packets_of (op : Op) : list Received :=
  match op with
  | SendVideoFrame _ _ _ ff | SendAudio _ _ _ ff => e_received ff
  | _ => []
  end.

Definition total_size (l : list Received) : Z :=
  fold_right (fun r acc => size_after_write r + acc) 0 l.

Definition sizes_ok (l : list Received) : Prop :=
  Forall (fun r => 0 <= size_after_write r) l.

Definition frame_counters (g : Session) : Z * Z :=
  (frames_sent g, dropped_frames g).

(** Counter by counter, [g'] is not below [g]. *)
Definition stats_le (g g' : Session) : Prop :=
  bytes_sent g <= bytes_sent g' /\
  frames_sent g <= frames_sent g' /\
  dropped_frames g <= dropped_frames g'.

(** The packets the flushing encoder hands out: its answers up to the first
    negative one. *)
Fixpoint flushed (script : list Received) : list Received :=
  match script with
  | [] => []
  | r :: rest => if recv_ret r >=? 0 then r :: flushed rest else []
  end.

(** The answer that ends the flush: the first negative one, [AVERROR_EOF]
    when the encoder has nothing else to say. *)
Fixpoint flush_end (script : list Received) : Z :=
  match script with
  | [] => AVERROR_EOF
  | r :: rest => if recv_ret r >=? 0 then flush_end rest else recv_ret r
  end.

(** Calls that close the transport or release an object. *)
Definition is_release (c : Call) : Prop :=
  match c with
  | avio_closep | sws_freeContext _ | swr_free _ | av_frame_free _ _
  | avcodec_free_context _ _ | avformat_free_context _ => True
  | _ => False
  end.

(** Calls that talk to an encoder or write a packet. *)
Definition is_flush (c : Call) : Prop :=
  match c with
  | avcodec_send_frame Video None _ | avcodec_receive_packet Video _
  | av_packet_rescale_ts Video | av_interleaved_write_frame Video _ _
  | av_packet_unref => True
  | _ => False
  end.

(** The sessions reached from [g_rtmp = {0}] by public operations, whatever
    FFmpeg answers. *)
Inductive reachable : Session -> Prop :=
| reachable_start : reachable g_rtmp0
| reachable_step (op : Op) (g : Session) :
    reachable g -> reachable (exec op g).

(** In states Connected and Streaming the output context and the video
    codec context are there. *)
Definition linked (g : Session) : Prop :=
  state g = RTMP_STATE_CONNECTED \/ state g = RTMP_STATE_STREAMING ->
  format_ctx g <> None /\ video_codec_ctx g <> None.

(** * Example sessions and answers of FFmpeg *)

(** The standard scenario's answers of FFmpeg: everything succeeds. *)
Definition flush_none : FlushEnv := mkFlushEnv 0 [].
Definition init_ok : InitEnv := mkInitEnv flush_none (Some 1%positive).

(** The session used in the examples: a 4x2 picture at 30 fps and
    2000 kbit/s, keyframes every 2 s, stereo audio at 44100 Hz and
    128 kbit/s.  One RGBA frame of it has [4 * 2 * 4 = 32] bytes. *)
Definition g_initialized : Session :=
  Eval vm_compute in
    after (rtmp_init_simple 4 2 30 2000 2 44100 2 128 init_ok g_rtmp0).

Definition rgba_frame : list Byte.byte := List.repeat Byte.x00 32.

Definition encode_none : EncodeEnv := mkEncodeEnv 0 0 0 [].

Definition video_init_ok : VideoInitEnv :=
  mkVideoInitEnv true (Some 3%positive) (Some 4%positive) 0 0
    (Some 5%positive) 0 (Some 6%positive).

Definition audio_init_ok : AudioInitEnv :=
  mkAudioInitEnv true (Some 7%positive) (Some 8%positive) 0 0
    (Some 9%positive) 0 (Some 10%positive) 0.

(** An FLV output context: global headers, and a transport the bridge has
    to open itself ([AVFMT_NOFILE] not set). *)
Definition flv_ctx : AVFormatContext := mkFormatCtx 2%positive AVFMT_GLOBALHEADER.

Definition connect_ok : ConnectEnv :=
  mkConnectEnv 0 (Some flv_ctx) video_init_ok audio_init_ok 0 0 1000.

Definition g_connected : Session :=
  Eval vm_compute in
    after (rtmp_connect (Some "rtmp://host/stream") connect_ok g_initialized).

Definition g_streaming : Session :=
  Eval vm_compute in after (rtmp_start_streaming 2000 g_connected).

(** A configuration [rtmp_init_simple] accepts whose frame size,
    [65536 * 16384 * 4 = 2 ^ 32] bytes, does not fit a C [int]; and the
    session it gives once connected and started. *)
Definition g_huge : Session :=
  Eval vm_compute in
    after (rtmp_init_simple 65536 16384 30 2000 2 44100 2 128 init_ok g_rtmp0).

Definition g_huge_streaming : Session :=
  Eval vm_compute in
    after (rtmp_start_streaming 2000
      (after (rtmp_connect (Some "rtmp://host/stream") connect_ok g_huge))).

(** Audio fails to initialize at connect time (no AAC encoder): connect
    still succeeds. *)
Definition audio_init_absent : AudioInitEnv :=
  mkAudioInitEnv false None None 0 0 None 0 None 0.

Definition connect_video_only : ConnectEnv :=
  mkConnectEnv 0 (Some flv_ctx) video_init_ok audio_init_absent 0 0 1000.

Definition g_streaming_video_only : Session :=
  Eval vm_compute in
    after (rtmp_start_streaming 2000
      (after (rtmp_connect (Some "rtmp://host/stream") connect_video_only
                g_initialized))).

(** The encoder hands out three packets; the muxer refuses the second. *)
Definition encode_second_write_fails : EncodeEnv :=
  mkEncodeEnv 0 0 0
    [mkReceived 0 4096 0 0; mkReceived 0 512 (-32) 0; mkReceived 0 512 0 0].

(** Two packets, both written, by a muxer that leaves the packet's [size]
    in place. *)
Definition encode_two_packets : EncodeEnv :=
  mkEncodeEnv 0 0 0 [mkReceived 0 4096 0 4096; mkReceived 0 512 0 512].

(** At disconnect the encoder still holds two packets, then reports the end
    of the stream. *)
Definition flush_two_packets : FlushEnv :=
  mkFlushEnv 0 [mkReceived 0 100 0 0; mkReceived 0 50 0 0].

(** Everything succeeds up to the container header; writing the header
    fails (here with [AVERROR(EIO)]). *)
Definition connect_header_fails : ConnectEnv :=
  mkConnectEnv 0 (Some flv_ctx) video_init_ok audio_init_ok 0 (-5) 1000.

(** * Vocabulary of the further properties *)

Definition opt_call {A : Type} (f : A -> Call) (p : option A) : list Call :=
  match p with
  | Some h => [f h]
  | None => []
  end.

(** The release calls [rtmp_disconnect] owes a session: one for each object
    the session holds, in the order of the code. *)
Definition releases (g : Session) : list Call :=
  opt_call sws_freeContext (sws_ctx g)
  ++ opt_call swr_free (swr_ctx g)
  ++ opt_call (av_frame_free Video) (video_frame g)
  ++ opt_call (av_frame_free Audio) (audio_frame g)
  ++ opt_call (avcodec_free_context Video) (video_codec_ctx g)
  ++ opt_call (avcodec_free_context Audio) (audio_codec_ctx g)
  ++ opt_call (fun fc => avformat_free_context (ctx_addr fc)) (format_ctx g).

(** What [rtmp_disconnect] says to the encoder and the muxer before it
    releases anything: nothing without an output context; with one, the
    flush of the video encoder (if there is a video codec context), the
    trailer, and the closing of the transport the bridge opened. *)
Definition farewell (ff : FlushEnv) (g : Session) : list Call :=
  match format_ctx g with
  | None => []
  | Some fc =>
      (if is_null (video_codec_ctx g) then []
       else avcodec_send_frame Video None (f_send_frame ff)
            :: flat_map (packet_calls Video) (flushed (f_received ff))
            ++ [avcodec_receive_packet Video (flush_end (f_received ff))])
      ++ [av_write_trailer]
      ++ (if flag_set (oformat_flags fc) AVFMT_NOFILE then [] else [avio_closep])
  end.

(** The session with every pipeline pointer NULL and state Initialized;
    configuration, error message, packet buffer, statistics, start time and
    mutex flag as in [g]. *)
Definition torn_down (g : Session) : Session :=
  mkSession RTMP_STATE_INITIALIZED (config g) (error_msg g)
    None None None None None None None None None
    (packet g) (bytes_sent g) (frames_sent g) (dropped_frames g)
    (start_time g) (mutex_initialized g).

(** The session after the Idle step of [rtmp_cleanup]: torn down, packet
    buffer released, state Idle. *)
Definition cleaned_up (g : Session) : Session :=
  set_state RTMP_STATE_IDLE (set_packet None (torn_down g)).

(** What an encoder set-up leaves alone: everything but its own objects and
    the error message. *)
Definition beside_video (g : Session) :=
  (state g, config g, format_ctx g, packet g, stats g, start_time g,
   mutex_initialized g,
   (audio_codec_ctx g, audio_stream g, audio_frame g, swr_ctx g)).

Definition beside_audio (g : Session) :=
  (state g, config g, format_ctx g, packet g, stats g, start_time g,
   mutex_initialized g,
   (video_codec_ctx g, video_stream g, video_frame g, sws_ctx g)).

(** The session [rtmp_connect] works on once the output context [fc] is
    stored and both encoder set-ups have run. *)
Definition after_encoders (fc : AVFormatContext) (ff : ConnectEnv) (g : Session)
  : Session :=
  after (init_audio_encoder (c_audio ff)
           (after (init_video_encoder (c_video ff)
                     (set_format_ctx (Some fc) g)))).

(** The unwinding of the two late failure branches of [rtmp_connect]. *)
Definition unwound (m : ErrorMsg) (g : Session) : Session :=
  set_format_ctx None (set_video_codec_ctx None (set_error_msg m g)).

(** [rtmp_connect] on an Initialized session with a non-empty URL, as a
    decision list over FFmpeg's answers: no output context; video set-up
    failed; transport not opened; header not written; connected. *)
Definition connect_outcome (u : string) (ff : ConnectEnv) (g : Session)
  : Z * Session :=
  match (if c_output_ret ff <? 0 then None else c_output_ctx ff) with
  | None =>
      (RTMP_ERROR_INIT_FAILED,
       set_error_msg
         (mkMsg "Failed to create output context: %s" [FErr (c_output_ret ff)])
         (set_format_ctx None g))
  | Some fc =>
      let rv := init_video_encoder (c_video ff) (set_format_ctx (Some fc) g) in
      if negb (result rv =? RTMP_SUCCESS) then
        (result rv, set_format_ctx None (after rv))
      else if negb (flag_set (oformat_flags fc) AVFMT_NOFILE)
              && (c_avio_open2 ff <? 0) then
        (RTMP_ERROR_CONNECT_FAILED,
         unwound (mkMsg "Failed to open connection to %s: %s"
                    [FStr u; FErr (c_avio_open2 ff)])
           (after_encoders fc ff g))
      else if c_write_header ff <? 0 then
        (RTMP_ERROR_CONNECT_FAILED,
         unwound (mkMsg "Failed to write header: %s" [FErr (c_write_header ff)])
           (after_encoders fc ff g))
      else
        (RTMP_SUCCESS,
         set_state RTMP_STATE_CONNECTED
           (set_start_time (c_time ff) (after_encoders fc ff g)))
  end.

(** What no operation but initialize and cleanup may touch, besides the
    statistics: the configuration, the packet buffer and the mutex flag. *)
Definition settings (g : Session) :=
  (config g, packet g, mutex_initialized g).

(** The audio objects: all there, or none of codec context, frame and
    resampler. *)
Definition audio_complete (g : Session) : Prop :=
  audio_codec_ctx g <> None /\ audio_stream g <> None /\
  audio_frame g <> None /\ swr_ctx g <> None.

Definition audio_absent (g : Session) : Prop :=
  audio_codec_ctx g = None /\ audio_frame g = None /\ swr_ctx g = None.

(** The audio stream [init_audio_encoder] leaves in the session: the one
    [avformat_new_stream] answered, whether or not the set-up then
    succeeds; the old one when there is no AAC encoder. *)
Definition audio_stream_left (a : AudioInitEnv) (g : Session) : option handle :=
  if a_find_encoder a then a_new_stream a else audio_stream g.

(** The same answers of FFmpeg with another course of the audio set-up. *)
Definition with_audio (a : AudioInitEnv) (ff : ConnectEnv) : ConnectEnv :=
  mkConnectEnv (c_output_ret ff) (c_output_ctx ff) (c_video ff) a
    (c_avio_open2 ff) (c_write_header ff) (c_time ff).

(** [rtmp_init_simple] past its validation: the mutex flag raised, and what
    the store of the configuration, the reset of the statistics and the
    allocation of the packet buffer leave behind. *)
Definition armed (g : Session) : Session :=
  if mutex_initialized g =? 0 then set_mutex_initialized 1 g else g.

Definition stored_config (w h f b k sr ch ab : Z) : RTMPConfig :=
  mkConfig w h f b (default_to 2 k) (default_to 44100 sr) (default_to 2 ch)
    (default_to 128 ab).

Definition init_code (p : option handle) : Z :=
  if is_null p then RTMP_ERROR_ALLOC_FAILED else RTMP_SUCCESS.

Definition init_session (c : RTMPConfig) (p : option handle) (g : Session)
  : Session :=
  let g' :=
    set_packet p
      (set_dropped_frames 0 (set_frames_sent 0 (set_bytes_sent 0
         (set_config c g)))) in
  if is_null p then set_error_msg (mkMsg "Failed to allocate packet" []) g'
  else set_error_msg no_error (set_state RTMP_STATE_INITIALIZED g').

(** The nine pipeline pointers, and everything of a session but its
    statistics and its error message. *)
Definition pipeline (g : Session) :=
  (format_ctx g, video_codec_ctx g, audio_codec_ctx g,
   video_stream g, audio_stream g,
   (sws_ctx g, swr_ctx g, video_frame g, audio_frame g)).

Definition beside_stats (g : Session) :=
  (state g, settings g, pipeline g, start_time g).

(** The messages of the failing returns of the video path. *)
Definition video_send_errors : list string :=
  ["RGBA data is NULL";
   "Invalid data size: expected %d, got %d";
   "Not streaming";
   "Failed to make frame writable: %s";
   "Failed to send frame to encoder: %s";
   "Error receiving packet: %s";
   "Failed to write video packet: %s"].

(** Packets handed to the muxer, and packets unreferenced. *)
Definition is_write (c : Call) : bool :=
  match c with
  | av_interleaved_write_frame _ _ _ => true
  | _ => false
  end.

Definition is_unref (c : Call) : bool :=
  match c with
  | av_packet_unref => true
  | _ => false
  end.

Definition count (p : Call -> bool) (l : list Call) : nat :=
  List.length (filter p l).

(** Packets the encoder handed out. *)
Definition is_received (c : Call) : bool :=
  match c with
  | avcodec_receive_packet _ ret => 0 <=? ret
  | _ => false
  end.

(** The states the header numbers 0 to 3. *)
Definition is_error_state (s : RTMPState) : bool :=
  match s with
  | RTMP_STATE_ERROR => true
  | _ => false
  end.

(** The state after an operation, as far as the state before decides it. *)
Definition transition (op : Op) (s s' : RTMPState) : Prop :=
  match op with
  | Init _ _ | InitSimple _ _ _ _ _ _ _ _ _ =>
      s' = s \/ s' = RTMP_STATE_INITIALIZED \/ s' = RTMP_STATE_IDLE
  | Connect _ _ =>
      s' = s \/ (s = RTMP_STATE_INITIALIZED /\ s' = RTMP_STATE_CONNECTED)
  | StartStreaming _ =>
      s' = if state_eqb s RTMP_STATE_CONNECTED then RTMP_STATE_STREAMING else s
  | StopStreaming =>
      s' = if state_eqb s RTMP_STATE_STREAMING then RTMP_STATE_CONNECTED else s
  | SendVideoFrame _ _ _ _ | SendAudio _ _ _ _ => s' = s
  | Disconnect _ => s' = RTMP_STATE_INITIALIZED
  | Cleanup _ => s' = RTMP_STATE_IDLE
  end.

(** In states Connected and Streaming every object the video path
    dereferences is there, but for the packet buffer. *)
Definition video_ready (g : Session) : Prop :=
  state g = RTMP_STATE_CONNECTED \/ state g = RTMP_STATE_STREAMING ->
  format_ctx g <> None /\ video_codec_ctx g <> None /\
  video_stream g <> None /\ video_frame g <> None /\ sws_ctx g <> None.

(** An Idle session holds nothing. *)
Definition idle_clean (g : Session) : Prop :=
  state g = RTMP_STATE_IDLE -> no_pipeline g /\ packet g = None.

(** Every packet the encoder hands out is written once and unreferenced
    once. *)
Definition balanced (l : list Call) : Prop :=
  count is_received l = count is_write l /\
  count is_write l = count is_unref l.

(** The objects a call allocates, and the objects a call releases. *)
Inductive Obj : Type :=
| CodecContext (s : Stream)
| FrameBuffer (s : Stream)
| Scaler
| Resampler.

Definition allocated (c : Call) : list (Obj * handle) :=
  match c with
  | avcodec_alloc_context3 s (Some h) => [(CodecContext s, h)]
  | av_frame_alloc s (Some h) => [(FrameBuffer s, h)]
  | sws_getContext _ _ (Some h) => [(Scaler, h)]
  | swr_alloc (Some h) => [(Resampler, h)]
  | _ => []
  end.

Definition freed (c : Call) : list (Obj * handle) :=
  match c with
  | avcodec_free_context s h => [(CodecContext s, h)]
  | av_frame_free s h => [(FrameBuffer s, h)]
  | sws_freeContext h => [(Scaler, h)]
  | swr_free h => [(Resampler, h)]
  | _ => []
  end.

(** A video set-up whose scaler cannot be created, after the codec context
    and the frame were allocated. *)
Definition video_init_no_scaler : VideoInitEnv :=
  mkVideoInitEnv true (Some 3%positive) (Some 4%positive) 0 0
    (Some 5%positive) 0 None.

(** The encoder refuses the frame. *)
Definition encode_refused : EncodeEnv := mkEncodeEnv 0 0 (-22) [].

(** The packets a send loop writes: those up to the first one the encoder
    does not hand out or the muxer does not take. *)
Fixpoint accepted (script : list Received) : list Received :=
  match script with
  | [] => []
  | r :: rest =>
      if (recv_ret r <? 0) || (write_ret r <? 0) then []
      else r :: accepted rest
  end.

(** The AAC encoder is found, its stream and codec context are created, and
    it cannot be opened: connect still succeeds. *)
Definition audio_init_open_fails : AudioInitEnv :=
  mkAudioInitEnv true (Some 7%positive) (Some 8%positive) (-1) 0
    (Some 9%positive) 0 (Some 10%positive) 0.

Definition connect_audio_open_fails : ConnectEnv :=
  mkConnectEnv 0 (Some flv_ctx) video_init_ok audio_init_open_fails 0 0 1000.

(** * The stub: ffmpeg_rtmp_stub.c

    The build for platforms without FFmpeg.  Its file-scope variables are
    the record [Stub.State]; every function returns its result, the new
    state and the lines it prints.  The stub defines neither [rtmp_init],
    [rtmp_is_stub] nor [rtmp_get_build_info].  The width of C [long] is the
    platform's ([long_bits]: 64 on the LP64 targets, 32 on Windows). *)

Module Stub.

Record State : Type := mkState {
  g_state : Z;              (* 0 = idle, 1 = init, 2 = connected, -1 = error *)
  g_error : string;
  g_frames_sent : Z;
  g_dropped_frames : Z;
  g_bytes_sent : Z
}.

(** The initialisers of the five variables. *)
Definition initial : State := mkState 0 EmptyString 0 0 0.

(** The lines of [printf], by their format, with the values printed. *)
Inductive Line : Type :=
| line_init (width height fps bitrate_kbps : Z)
| line_connect (url_head : string)
| line_warning
| line_start_streaming
| line_simulated (frames bytes : Z)
| line_stop_streaming
| line_disconnect
| line_cleanup (frames : Z).

Definition code {A : Type} (r : A * State * list Line) : A := fst (fst r).
Definition next {A : Type} (r : A * State * list Line) : State := snd (fst r).
Definition printed {A : Type} (r : A * State * list Line) : list Line := snd r.

(** [strncpy(g_error, msg, sizeof(g_error) - 1)] and the closing NUL. *)
Definition set_error (msg : string) (s : State) : State :=
  mkState (g_state s) (substring 0 255 msg) (g_frames_sent s)
    (g_dropped_frames s) (g_bytes_sent s).

Definition set_g_state (v : Z) (s : State) : State :=
  mkState v (g_error s) (g_frames_sent s) (g_dropped_frames s) (g_bytes_sent s).

Definition stub_message : string :=
  "Stub implementation - FFmpeg not available on this platform".

Definition rtmp_init_simple
    (width height fps bitrate_kbps keyframe_interval
     audio_sample_rate audio_channels audio_bitrate_kbps : Z)
    (s : State) : Z * State * list Line :=
  (RTMP_SUCCESS,
   set_g_state 1 (set_error stub_message s),
   [line_init width height fps bitrate_kbps]).

(** [url] is printed with [%.50s]: at most its first 50 characters. *)
Definition rtmp_connect (url : string) (s : State) : Z * State * list Line :=
  (RTMP_SUCCESS, set_g_state 2 s,
   [line_connect (substring 0 50 url); line_warning]).

Definition rtmp_start_streaming (s : State) : Z * State * list Line :=
  (RTMP_SUCCESS, s, [line_start_streaming]).

(** [rgba_data] is never read. *)
Definition rtmp_send_video_frame (long_bits : Z)
    (rgba_data : option (list Byte.byte)) (data_size pts : Z) (s : State)
  : Z * State * list Line :=
  let frames := int32 (g_frames_sent s + 1) in
  let bytes := wrap long_bits (g_bytes_sent s + data_size) in
  (RTMP_SUCCESS,
   mkState (g_state s) (g_error s) frames (g_dropped_frames s) bytes,
   (* Log occasionally *)
   if Z.rem frames 300 =? 0 then [line_simulated frames bytes] else []).

Definition rtmp_send_audio
    (pcm_data : option (list Z)) (num_samples pts : Z) (s : State)
  : Z * State * list Line :=
  (RTMP_SUCCESS, s, []).

Definition rtmp_stop_streaming (s : State) : Z * State * list Line :=
  (RTMP_SUCCESS, s, [line_stop_streaming]).

Definition rtmp_disconnect (s : State) : Z * State * list Line :=
  (RTMP_SUCCESS, set_g_state 0 s, [line_disconnect]).

Definition rtmp_cleanup (s : State) : unit * State * list Line :=
  (tt,
   mkState 0 (g_error s) 0 (g_dropped_frames s) 0,
   [line_cleanup (g_frames_sent s)]).

Definition rtmp_get_state (s : State) : Z := g_state s.
Definition rtmp_get_error (s : State) : string := g_error s.
Definition rtmp_get_bytes_sent (s : State) : Z := g_bytes_sent s.
Definition rtmp_get_frames_sent (s : State) : Z := g_frames_sent s.
Definition rtmp_get_dropped_frames (s : State) : Z := g_dropped_frames s.

(** One call of the stub's API, and the state after it. *)
Inductive Op : Type :=
| InitSimple (w h f b k sr ch ab : Z)
| Connect (url : string)
| StartStreaming
| SendVideoFrame (rgba : option (list Byte.byte)) (data_size pts : Z)
| SendAudio (pcm : option (list Z)) (num_samples pts : Z)
| StopStreaming
| Disconnect
| Cleanup.

Definition exec (long_bits : Z) (op : Op) (s : State) : State :=
  match op with
  | InitSimple w h f b k sr ch ab =>
      next (rtmp_init_simple w h f b k sr ch ab s)
  | Connect url => next (rtmp_connect url s)
  | StartStreaming => next (rtmp_start_streaming s)
  | SendVideoFrame rgba n pts =>
      next (rtmp_send_video_frame long_bits rgba n pts s)
  | SendAudio pcm n pts => next (rtmp_send_audio pcm n pts s)
  | StopStreaming => next (rtmp_stop_streaming s)
  | Disconnect => next (rtmp_disconnect s)
  | Cleanup => next (rtmp_cleanup s)
  end.

(** The result an operation returns; [rtmp_cleanup] returns nothing. *)
Definition returned (long_bits : Z) (op : Op) (s : State) : option Z :=
  match op with
  | InitSimple w h f b k sr ch ab =>
      Some (code (rtmp_init_simple w h f b k sr ch ab s))
  | Connect url => Some (code (rtmp_connect url s))
  | StartStreaming => Some (code (rtmp_start_streaming s))
  | SendVideoFrame rgba n pts =>
      Some (code (rtmp_send_video_frame long_bits rgba n pts s))
  | SendAudio pcm n pts => Some (code (rtmp_send_audio pcm n pts s))
  | StopStreaming => Some (code (rtmp_stop_streaming s))
  | Disconnect => Some (code (rtmp_disconnect s))
  | Cleanup => None
  end.

Inductive reachable (long_bits : Z) : State -> Prop :=
| reachable_initial : reachable long_bits initial
| reachable_exec (op : Op) (s : State) :
    reachable long_bits s -> reachable long_bits (exec long_bits op s).

(** Video frames of the given sizes sent one after the other. *)
Fixpoint send_frames (long_bits : Z) (sizes : list Z) (s : State) : State :=
  match sizes with
  | [] => s
  | n :: rest =>
      send_frames long_bits rest
        (next (rtmp_send_video_frame long_bits None n 0 s))
  end.

Definition sum_sizes (sizes : list Z) : Z := fold_right Z.add 0 sizes.

End Stub.

(** * Verification *)

(** ** Running the monad *)

Lemma run_bind {A B : Type} (m : M A) (k : A -> M B) (g : Session) :
  bind m k g =
  (result (k (result (m g)) (after (m g))),
   after (k (result (m g)) (after (m g))),
   calls (m g) ++ calls (k (result (m g)) (after (m g)))).
Proof.
  unfold bind, result, after, calls.
  destruct (m g) as [[a g1] l1]; cbn.
  destruct (k a g1) as [[b g2] l2]; reflexivity.
Qed.

Lemma result_bind {A B : Type} (m : M A) (k : A -> M B) (g : Session) :
  result (bind m k g) = result (k (result (m g)) (after (m g))).
Proof. rewrite run_bind; reflexivity. Qed.

Lemma after_bind {A B : Type} (m : M A) (k : A -> M B) (g : Session) :
  after (bind m k g) = after (k (result (m g)) (after (m g))).
Proof. rewrite run_bind; reflexivity. Qed.

Lemma calls_bind {A B : Type} (m : M A) (k : A -> M B) (g : Session) :
  calls (bind m k g) = calls (m g) ++ calls (k (result (m g)) (after (m g))).
Proof. rewrite run_bind; reflexivity. Qed.

(** ** C1: initialize *)

(** C1 (as amended): [rtmp_init_simple] validates only [width], [height],
    [fps] and [bitrate_kbps].  If these four are strictly positive and the
    packet allocation succeeds, it returns [RTMP_SUCCESS], the state is
    Initialized, the statistics are zero and the stored configuration has
    every non-positive keyframe/audio field replaced by its default
    (2, 44100, 2, 128).  If one of the four is [<= 0], it returns
    [RTMP_ERROR_INVALID_PARAMS], calls nothing, and changes nothing of the
    session but the error message: in particular the state is unchanged. *)
Theorem C1_initialize_validation :
  forall (w h f b k sr ch ab : Z) (ff : InitEnv) (g : Session),
    (0 < w -> 0 < h -> 0 < f -> 0 < b -> i_packet_alloc ff <> None ->
       let r := rtmp_init_simple w h f b k sr ch ab ff g in
       result r = RTMP_SUCCESS /\
       state (after r) = RTMP_STATE_INITIALIZED /\
       rtmp_get_state (after r) = 1 /\
       config (after r) =
         mkConfig w h f b (default_to 2 k) (default_to 44100 sr)
                  (default_to 2 ch) (default_to 128 ab) /\
       bytes_sent (after r) = 0 /\ frames_sent (after r) = 0 /\
       dropped_frames (after r) = 0)
    /\
    (w <= 0 \/ h <= 0 \/ f <= 0 \/ b <= 0 ->
       rtmp_init_simple w h f b k sr ch ab ff g =
         (RTMP_ERROR_INVALID_PARAMS,
          set_error_msg
            (mkMsg "Invalid video parameters: %dx%d @ %dfps, %dkbps"
                   [FInt w; FInt h; FInt f; FInt b]) g,
          [])).
Proof.
  intros w h f b k sr ch ab ff g; split.
  - intros Hw Hh Hf Hb Hp r; subst r; unfold rtmp_init_simple.
    assert (Hv : (w <=? 0) || (h <=? 0) || (f <=? 0) || (b <=? 0) = false).
    { repeat (apply orb_false_intro); apply Z.leb_gt; assumption. }
    rewrite Hv.
    destruct (i_packet_alloc ff) as [p|] eqn:Ep; [|congruence].
    repeat rewrite ?result_bind, ?after_bind; cbn.
    repeat split; reflexivity.
  - intros Hbad; unfold rtmp_init_simple.
    assert (Hv : (w <=? 0) || (h <=? 0) || (f <=? 0) || (b <=? 0) = true).
    { repeat rewrite orb_true_iff; repeat rewrite Z.leb_le; tauto. }
    rewrite Hv; reflexivity.
Qed.

Lemma C1_initialize_validation_witness :
  (0 < 640 /\ 0 < 480 /\ 0 < 30 /\ 0 < 2000 /\
   i_packet_alloc init_ok <> None /\
   result (rtmp_init_simple 640 480 30 2000 0 0 0 0 init_ok g_rtmp0)
     = RTMP_SUCCESS /\
   state (after (rtmp_init_simple 640 480 30 2000 0 0 0 0 init_ok g_rtmp0))
     = RTMP_STATE_INITIALIZED /\
   config (after (rtmp_init_simple 640 480 30 2000 0 0 0 0 init_ok g_rtmp0))
     = mkConfig 640 480 30 2000 2 44100 2 128)
  /\
  ((0 <= 0 \/ 480 <= 0 \/ 30 <= 0 \/ 2000 <= 0) /\
   state (after (rtmp_init_simple 0 480 30 2000 2 44100 2 128 init_ok g_rtmp0))
     = state g_rtmp0).
Proof.
  destruct (C1_initialize_validation 640 480 30 2000 0 0 0 0 init_ok g_rtmp0)
    as [Hok _].
  destruct (C1_initialize_validation 0 480 30 2000 2 44100 2 128 init_ok g_rtmp0)
    as [_ Hbad].
  assert (Hp : i_packet_alloc init_ok <> None) by discriminate.
  split.
  - destruct (Hok ltac:(lia) ltac:(lia) ltac:(lia) ltac:(lia) Hp)
      as (H1 & H2 & _ & H3 & _).
    split; [lia|]. split; [lia|]. split; [lia|]. split; [lia|].
    split; [exact Hp|]. split; [exact H1|]. split; [exact H2 | exact H3].
  - split; [lia|]. rewrite Hbad by lia. reflexivity.
Defined.

(** C1, as the spec states it, fails: a configuration whose
    [keyframeIntervalSec] is 0 (so one of the eight fields is [<= 0]) is not
    rejected; initialize succeeds, the state changes from Idle to
    Initialized, and the stored interval is the default 2. *)
Lemma C1_counterexample :
  result (rtmp_init_simple 640 480 30 2000 0 44100 2 128 init_ok g_rtmp0)
    = RTMP_SUCCESS /\
  result (rtmp_init_simple 640 480 30 2000 0 44100 2 128 init_ok g_rtmp0)
    <> RTMP_ERROR_INVALID_PARAMS /\
  state g_rtmp0 = RTMP_STATE_IDLE /\
  state (after (rtmp_init_simple 640 480 30 2000 0 44100 2 128 init_ok g_rtmp0))
    = RTMP_STATE_INITIALIZED /\
  keyframe_interval
    (config (after (rtmp_init_simple 640 480 30 2000 0 44100 2 128 init_ok
                      g_rtmp0))) = 2.
Proof. vm_compute. repeat split; discriminate. Qed.

(** [rtmp_init] with a non-NULL configuration is [rtmp_init_simple] on its
    fields. *)
Lemma rtmp_init_fields (c : RTMPConfig) (ff : InitEnv) :
  rtmp_init (Some c) ff =
  rtmp_init_simple (width c) (height c) (fps c) (bitrate_kbps c)
    (keyframe_interval c) (audio_sample_rate c) (audio_channels c)
    (audio_bitrate_kbps c) ff.
Proof. reflexivity. Qed.

(** ** C2: calls in a state that does not meet the precondition *)

Lemma state_eqb_eq (a b : RTMPState) : state_eqb a b = true <-> a = b.
Proof. destruct a, b; cbn; split; intros H; try reflexivity; discriminate. Qed.

Lemma state_eqb_neq (a b : RTMPState) : state_eqb a b = false <-> a <> b.
Proof.
  rewrite <- state_eqb_eq. destruct (state_eqb a b); split; congruence.
Qed.

Lemma rtmp_disconnect_result (ff : FlushEnv) (g : Session) :
  result (rtmp_disconnect ff g) = RTMP_SUCCESS.
Proof. unfold rtmp_disconnect. repeat rewrite result_bind. reflexivity. Qed.

Lemma rtmp_connect_wrong_state (u : string) (ff : ConnectEnv) (g : Session) :
  u <> EmptyString -> state g <> RTMP_STATE_INITIALIZED ->
  rtmp_connect (Some u) ff g =
    (RTMP_ERROR_NOT_CONNECTED,
     set_error_msg (mkMsg "Not initialized. Call rtmp_init first." []) g, []).
Proof.
  intros Hu Hs. unfold rtmp_connect.
  destruct u as [|c u]; [congruence|]. cbn [String.length Nat.eqb].
  apply state_eqb_neq in Hs. unfold bind, get. rewrite Hs. reflexivity.
Qed.

Lemma rtmp_start_streaming_wrong_state (now : Z) (g : Session) :
  state g <> RTMP_STATE_CONNECTED ->
  rtmp_start_streaming now g =
    (RTMP_ERROR_NOT_CONNECTED,
     set_error_msg (mkMsg "Not connected. Call rtmp_connect first." []) g, []).
Proof.
  intros Hs. unfold rtmp_start_streaming.
  apply state_eqb_neq in Hs. unfold bind, get. rewrite Hs. reflexivity.
Qed.

Lemma rtmp_send_video_frame_wrong_state
    (buf : list Byte.byte) (pts : Z) (ff : EncodeEnv) (g : Session) :
  state g <> RTMP_STATE_STREAMING ->
  rtmp_send_video_frame (Some buf) (expected_size (config g)) pts ff g =
    (RTMP_ERROR_NOT_CONNECTED, set_error_msg (mkMsg "Not streaming" []) g, []).
Proof.
  intros Hs. unfold rtmp_send_video_frame.
  apply state_eqb_neq in Hs. cbn [is_null]. unfold bind, get.
  rewrite Z.eqb_refl, Hs. reflexivity.
Qed.

Lemma rtmp_stop_streaming_wrong_state (g : Session) :
  state g <> RTMP_STATE_STREAMING ->
  rtmp_stop_streaming g = (RTMP_SUCCESS, g, []).
Proof.
  intros Hs. unfold rtmp_stop_streaming.
  apply state_eqb_neq in Hs. unfold bind, get. rewrite Hs. reflexivity.
Qed.

Lemma rtmp_send_audio_wrong_state
    (pcm : list Z) (n pts : Z) (ff : EncodeEnv) (g : Session) :
  0 < n -> state g <> RTMP_STATE_STREAMING ->
  rtmp_send_audio (Some pcm) n pts ff g = (RTMP_SUCCESS, g, []).
Proof.
  intros Hn Hs. unfold rtmp_send_audio.
  apply state_eqb_neq in Hs. cbn [is_null orb].
  assert (Hn' : (n <=? 0) = false) by (apply Z.leb_gt; exact Hn).
  rewrite Hn'. unfold bind, get. rewrite Hs. reflexivity.
Qed.

Lemma rtmp_disconnect_nothing_held (ff : FlushEnv) (g : Session) :
  state g = RTMP_STATE_INITIALIZED -> no_pipeline g ->
  rtmp_disconnect ff g = (RTMP_SUCCESS, g, []).
Proof.
  intros Hs (H1 & H2 & H3 & H4 & H5 & H6 & H7 & H8 & H9).
  destruct g; cbn in *; subst. reflexivity.
Qed.

(** C2 (as amended): [rtmp_connect], [rtmp_start_streaming] and
    [rtmp_send_video_frame], called in a state that does not meet their
    precondition, return [RTMP_ERROR_NOT_CONNECTED], call nothing and change
    nothing of the session but the error message.  [rtmp_stop_streaming]
    outside Streaming and [rtmp_send_audio] outside Streaming return
    [RTMP_SUCCESS] and leave the session as it is.  [rtmp_disconnect] has no
    state precondition: it returns [RTMP_SUCCESS] in every state, and on an
    Initialized session that holds no pipeline object it changes nothing. *)
Theorem C2_precondition_mismatch :
  forall g : Session,
    (forall u ff, u <> EmptyString -> state g <> RTMP_STATE_INITIALIZED ->
       rtmp_connect (Some u) ff g =
         (RTMP_ERROR_NOT_CONNECTED,
          set_error_msg (mkMsg "Not initialized. Call rtmp_init first." []) g,
          []))
    /\
    (forall now, state g <> RTMP_STATE_CONNECTED ->
       rtmp_start_streaming now g =
         (RTMP_ERROR_NOT_CONNECTED,
          set_error_msg (mkMsg "Not connected. Call rtmp_connect first." []) g,
          []))
    /\
    (forall buf pts ff, state g <> RTMP_STATE_STREAMING ->
       rtmp_send_video_frame (Some buf) (expected_size (config g)) pts ff g =
         (RTMP_ERROR_NOT_CONNECTED,
          set_error_msg (mkMsg "Not streaming" []) g, []))
    /\
    (state g <> RTMP_STATE_STREAMING ->
       rtmp_stop_streaming g = (RTMP_SUCCESS, g, []))
    /\
    (forall pcm n pts ff, 0 < n -> state g <> RTMP_STATE_STREAMING ->
       rtmp_send_audio (Some pcm) n pts ff g = (RTMP_SUCCESS, g, []))
    /\
    (forall ff, result (rtmp_disconnect ff g) = RTMP_SUCCESS)
    /\
    (forall ff, state g = RTMP_STATE_INITIALIZED -> no_pipeline g ->
       rtmp_disconnect ff g = (RTMP_SUCCESS, g, [])).
Proof.
  intros g. repeat apply conj.
  - intros u ff. apply rtmp_connect_wrong_state.
  - intros now. apply rtmp_start_streaming_wrong_state.
  - intros buf pts ff. apply rtmp_send_video_frame_wrong_state.
  - apply rtmp_stop_streaming_wrong_state.
  - intros pcm n pts ff. apply rtmp_send_audio_wrong_state.
  - intros ff. apply rtmp_disconnect_result.
  - intros ff. apply rtmp_disconnect_nothing_held.
Qed.

Lemma C2_precondition_mismatch_witness :
  ("rtmp://host/stream" <> EmptyString /\
   state g_rtmp0 <> RTMP_STATE_INITIALIZED /\
   result (rtmp_connect (Some "rtmp://host/stream") connect_ok g_rtmp0)
     = RTMP_ERROR_NOT_CONNECTED)
  /\
  (state g_rtmp0 <> RTMP_STATE_CONNECTED /\
   result (rtmp_start_streaming 0 g_rtmp0) = RTMP_ERROR_NOT_CONNECTED)
  /\
  (state g_connected <> RTMP_STATE_STREAMING /\
   result (rtmp_send_video_frame (Some rgba_frame)
             (expected_size (config g_connected)) 0 encode_none g_connected)
     = RTMP_ERROR_NOT_CONNECTED)
  /\
  (state g_initialized <> RTMP_STATE_STREAMING /\
   rtmp_stop_streaming g_initialized = (RTMP_SUCCESS, g_initialized, []))
  /\
  (0 < 1024 /\
   state g_connected <> RTMP_STATE_STREAMING /\
   rtmp_send_audio (Some [0; 0]) 1024 0 encode_none g_connected
     = (RTMP_SUCCESS, g_connected, []))
  /\
  (state g_initialized = RTMP_STATE_INITIALIZED /\
   no_pipeline g_initialized /\
   rtmp_disconnect flush_none g_initialized
     = (RTMP_SUCCESS, g_initialized, [])).
Proof.
  destruct (C2_precondition_mismatch g_rtmp0) as (Hconn & Hstart & _).
  destruct (C2_precondition_mismatch g_connected)
    as (_ & _ & Hvideo & _ & Haudio & _).
  destruct (C2_precondition_mismatch g_initialized)
    as (_ & _ & _ & Hstop & _ & _ & Hdisc).
  assert (Hu : "rtmp://host/stream" <> EmptyString) by discriminate.
  assert (Hidle1 : state g_rtmp0 <> RTMP_STATE_INITIALIZED) by discriminate.
  assert (Hidle2 : state g_rtmp0 <> RTMP_STATE_CONNECTED) by discriminate.
  assert (Hconn' : state g_connected <> RTMP_STATE_STREAMING) by discriminate.
  assert (Hinit : state g_initialized <> RTMP_STATE_STREAMING) by discriminate.
  assert (Hnp : no_pipeline g_initialized) by (repeat split).
  assert (Hn : 0 < 1024) by reflexivity.
  split; [|split; [|split; [|split; [|split]]]].
  - split; [exact Hu|]. split; [exact Hidle1|].
    rewrite (Hconn "rtmp://host/stream" connect_ok Hu Hidle1). reflexivity.
  - split; [exact Hidle2|]. rewrite (Hstart 0 Hidle2). reflexivity.
  - split; [exact Hconn'|].
    rewrite (Hvideo rgba_frame 0 encode_none Hconn'). reflexivity.
  - split; [exact Hinit | exact (Hstop Hinit)].
  - split; [exact Hn|]. split; [exact Hconn'|].
    exact (Haudio [0; 0] 1024 0 encode_none Hn Hconn').
  - split; [reflexivity|].
    split; [exact Hnp | exact (Hdisc flush_none eq_refl Hnp)].
Defined.

(** C2, as the spec states it, fails: [stopStreaming] on an Initialized
    session (not Streaming) returns Success, not NotConnected; so does
    [disconnect]. *)
Lemma C2_counterexample :
  state g_initialized = RTMP_STATE_INITIALIZED /\
  result (rtmp_stop_streaming g_initialized) = RTMP_SUCCESS /\
  result (rtmp_stop_streaming g_initialized) <> RTMP_ERROR_NOT_CONNECTED /\
  result (rtmp_disconnect flush_none g_initialized) = RTMP_SUCCESS /\
  result (rtmp_disconnect flush_none g_initialized) <> RTMP_ERROR_NOT_CONNECTED.
Proof. vm_compute. repeat split; discriminate. Qed.

(** [rtmp_disconnect] on the never-initialized session: the session ends
    Initialized, with no packet buffer and the all-zero configuration. *)
Lemma rtmp_disconnect_from_idle (ff : FlushEnv) :
  rtmp_disconnect ff g_rtmp0 =
    (RTMP_SUCCESS, set_state RTMP_STATE_INITIALIZED g_rtmp0, []).
Proof. reflexivity. Qed.

(** ** C6, C7, C10: the argument checks of sendVideoFrame *)

Lemma int32_small (z : Z) : int_range z -> int32 z = z.
Proof.
  unfold int_range, INT_MIN, INT_MAX, int32, wrap. intros H.
  change (2 ^ (32 - 1)) with 2147483648. change (2 ^ 32) with 4294967296.
  change (2 ^ 31) with 2147483648 in H.
  rewrite Z.mod_small by lia. lia.
Qed.

Lemma int64_small (z : Z) : int64_range z -> int64 z = z.
Proof.
  unfold int64_range, INT64_MIN, INT64_MAX, int64, wrap. intros H.
  change (2 ^ (64 - 1)) with 9223372036854775808.
  change (2 ^ 64) with 18446744073709551616.
  change (2 ^ 63) with 9223372036854775808 in H.
  rewrite Z.mod_small by lia. lia.
Qed.

(** As long as the product fits an [int], [expected_size] is the
    mathematical [width * height * 4]. *)
Lemma expected_size_exact (c : RTMPConfig) :
  0 <= width c -> 0 <= height c -> width c * height c * 4 <= INT_MAX ->
  expected_size c = width c * height c * 4.
Proof.
  intros Hw Hh Hm. unfold expected_size.
  assert (0 <= width c * height c) by nia.
  unfold INT_MAX in Hm. change (2 ^ 31) with 2147483648 in Hm.
  rewrite (int32_small (width c * height c)).
  - apply int32_small. unfold int_range, INT_MIN, INT_MAX.
    change (2 ^ 31) with 2147483648. lia.
  - unfold int_range, INT_MIN, INT_MAX. change (2 ^ 31) with 2147483648. lia.
Qed.

(** A [data_size] other than the [int] the code computes is turned down
    before anything else happens. *)
Lemma rtmp_send_video_frame_wrong_size
    (g : Session) (rgba : option (list Byte.byte)) (data_size pts : Z)
    (ff : EncodeEnv) :
  data_size <> expected_size (config g) ->
  let r := rtmp_send_video_frame rgba data_size pts ff g in
  result r = RTMP_ERROR_INVALID_PARAMS /\
  calls r = [] /\
  (exists m, after r = set_error_msg m g) /\
  bytes_sent (after r) = bytes_sent g /\
  frames_sent (after r) = frames_sent g /\
  dropped_frames (after r) = dropped_frames g /\
  state (after r) = state g.
Proof.
  intros Hsz r; subst r.
  unfold rtmp_send_video_frame.
  destruct rgba as [buf|]; cbn [is_null].
  - unfold bind, get. apply Z.eqb_neq in Hsz. rewrite Hsz. cbn.
    repeat split; try reflexivity. eexists; reflexivity.
  - cbn. repeat split; try reflexivity. eexists; reflexivity.
Qed.

(** C6 holds where [width * height * 4] fits a C [int] and fails on the code
    where it does not.  First part: for a stored configuration whose
    product [width * height * 4] is at most [INT_MAX], a call whose
    [data_size] differs from that product returns
    [RTMP_ERROR_INVALID_PARAMS] in every state, for a NULL and for a
    non-NULL buffer; no library function is called and of the session only
    the error message changes, so no statistics counter moves.  Second
    part: [rtmp_init_simple] accepts 65536 x 16384, whose product [2 ^ 32]
    the [int] expression of the code wraps to 0; there a call with
    [data_size = 0], which differs from the product, passes the size check:
    in state Initialized it returns [RTMP_ERROR_NOT_CONNECTED], and in
    state Streaming it runs the conversion and the encoder on the empty
    buffer, returns [RTMP_SUCCESS] and counts a frame. *)
Theorem C6_wrong_size_passes_when_product_overflows :
  (forall (g : Session) (rgba : option (list Byte.byte)) (data_size pts : Z)
          (ff : EncodeEnv),
     0 <= width (config g) -> 0 <= height (config g) ->
     width (config g) * height (config g) * 4 <= INT_MAX ->
     data_size <> width (config g) * height (config g) * 4 ->
     let r := rtmp_send_video_frame rgba data_size pts ff g in
     result r = RTMP_ERROR_INVALID_PARAMS /\
     calls r = [] /\
     (exists m, after r = set_error_msg m g) /\
     bytes_sent (after r) = bytes_sent g /\
     frames_sent (after r) = frames_sent g /\
     dropped_frames (after r) = dropped_frames g /\
     state (after r) = state g)
  /\
  (width (config g_huge) * height (config g_huge) * 4 = 4294967296 /\
   0 <> width (config g_huge) * height (config g_huge) * 4 /\
   expected_size (config g_huge) = 0 /\
   state g_huge = RTMP_STATE_INITIALIZED /\
   result (rtmp_send_video_frame (Some []) 0 0 encode_none g_huge)
     = RTMP_ERROR_NOT_CONNECTED /\
   state g_huge_streaming = RTMP_STATE_STREAMING /\
   config g_huge_streaming = config g_huge /\
   rtmp_send_video_frame (Some []) 0 0 encode_none g_huge_streaming =
     (RTMP_SUCCESS,
      set_frames_sent (frames_sent g_huge_streaming + 1) g_huge_streaming,
      [av_frame_make_writable Video 0;
       sws_scale 262144 16384;
       avcodec_send_frame Video (Some 0) 0;
       avcodec_receive_packet Video AVERROR_EAGAIN])).
Proof.
  split.
  - intros g rgba data_size pts ff Hw Hh Hm Hsz.
    apply rtmp_send_video_frame_wrong_size.
    rewrite (expected_size_exact (config g) Hw Hh Hm). exact Hsz.
  - split; [vm_compute; reflexivity|]. split; [vm_compute; discriminate|].
    split; [vm_compute; reflexivity|]. split; [reflexivity|].
    split; [vm_compute; reflexivity|]. split; [reflexivity|].
    split; [reflexivity|]. vm_compute. reflexivity.
Qed.

Lemma C6_wrong_size_passes_when_product_overflows_witness :
  (0 <= width (config g_streaming) /\ 0 <= height (config g_streaming) /\
   width (config g_streaming) * height (config g_streaming) * 4 <= INT_MAX /\
   100 <> width (config g_streaming) * height (config g_streaming) * 4)
  /\
  (result (rtmp_send_video_frame (Some rgba_frame) 100 0 encode_none
             g_streaming) = RTMP_ERROR_INVALID_PARAMS /\
   calls (rtmp_send_video_frame (Some rgba_frame) 100 0 encode_none
            g_streaming) = []).
Proof.
  assert (Hw : 0 <= width (config g_streaming)) by (vm_compute; discriminate).
  assert (Hh : 0 <= height (config g_streaming)) by (vm_compute; discriminate).
  assert (Hm : width (config g_streaming) * height (config g_streaming) * 4
               <= INT_MAX) by (vm_compute; discriminate).
  assert (Hsz : 100 <> width (config g_streaming) * height (config g_streaming)
                       * 4)
    by (vm_compute; discriminate).
  destruct C6_wrong_size_passes_when_product_overflows as [Hbad _].
  destruct (Hbad g_streaming (Some rgba_frame) 100 0 encode_none Hw Hh Hm Hsz)
    as (H1 & H2 & _).
  split.
  - split; [exact Hw|]. split; [exact Hh|]. split; [exact Hm | exact Hsz].
  - split; [exact H1 | exact H2].
Defined.

(** C7: before [startStreaming] (state not Streaming), a call with a non-NULL
    buffer of the right size returns [RTMP_ERROR_NOT_CONNECTED] and leaves
    [frames_sent] and [bytes_sent] (and every field but the error message)
    unchanged; nothing is called. *)
Theorem C7_send_before_start :
  forall (g : Session) (buf : list Byte.byte) (data_size pts : Z)
         (ff : EncodeEnv),
    state g <> RTMP_STATE_STREAMING ->
    data_size = expected_size (config g) ->
    let r := rtmp_send_video_frame (Some buf) data_size pts ff g in
    result r = RTMP_ERROR_NOT_CONNECTED /\
    frames_sent (after r) = frames_sent g /\
    bytes_sent (after r) = bytes_sent g /\
    dropped_frames (after r) = dropped_frames g /\
    state (after r) = state g /\
    calls r = [].
Proof.
  intros g buf data_size pts ff Hs Hsz r; subst r data_size.
  rewrite (rtmp_send_video_frame_wrong_state buf pts ff g Hs).
  cbn. repeat split; reflexivity.
Qed.

Lemma C7_send_before_start_witness :
  state g_connected <> RTMP_STATE_STREAMING /\
  32 = expected_size (config g_connected) /\
  result (rtmp_send_video_frame (Some rgba_frame) 32 0 encode_none g_connected)
    = RTMP_ERROR_NOT_CONNECTED /\
  frames_sent (after (rtmp_send_video_frame (Some rgba_frame) 32 0 encode_none
                        g_connected)) = frames_sent g_connected.
Proof.
  assert (Hs : state g_connected <> RTMP_STATE_STREAMING) by discriminate.
  assert (Hsz : 32 = expected_size (config g_connected)) by reflexivity.
  destruct (C7_send_before_start g_connected rgba_frame 32 0 encode_none Hs Hsz)
    as (H1 & H2 & _).
  split; [exact Hs|]. split; [exact Hsz|]. split; [exact H1 | exact H2].
Defined.

(** C10 holds where [width * height * 4] fits a C [int] and fails on the
    code where it does not.  First part: the size check of
    [rtmp_send_video_frame] comes before the state check; for a stored
    configuration whose product [width * height * 4] is at most [INT_MAX],
    in every state a call with a non-NULL buffer whose [data_size] differs
    from that product returns [RTMP_ERROR_INVALID_PARAMS], not
    [RTMP_ERROR_NOT_CONNECTED].  Second part: on the never-initialized
    session the stored width and height are zero and every call with a
    nonzero [data_size] returns [RTMP_ERROR_INVALID_PARAMS].  Third part:
    with the stored configuration 65536 x 16384 the product is [2 ^ 32],
    the [int] the code compares with is 0, and a call with [data_size = 0]
    returns [RTMP_ERROR_NOT_CONNECTED] in state Initialized and, after
    [rtmp_cleanup] (which keeps the configuration), in state Idle. *)
Theorem C10_size_check_wraps_before_state_check :
  (forall (g : Session) (buf : list Byte.byte) (data_size pts : Z)
          (ff : EncodeEnv),
     0 <= width (config g) -> 0 <= height (config g) ->
     width (config g) * height (config g) * 4 <= INT_MAX ->
     data_size <> width (config g) * height (config g) * 4 ->
     result (rtmp_send_video_frame (Some buf) data_size pts ff g)
       = RTMP_ERROR_INVALID_PARAMS /\
     result (rtmp_send_video_frame (Some buf) data_size pts ff g)
       <> RTMP_ERROR_NOT_CONNECTED)
  /\
  (width (config g_rtmp0) = 0 /\ height (config g_rtmp0) = 0 /\
   forall (buf : list Byte.byte) (data_size pts : Z) (ff : EncodeEnv),
     data_size <> 0 ->
     result (rtmp_send_video_frame (Some buf) data_size pts ff g_rtmp0)
       = RTMP_ERROR_INVALID_PARAMS)
  /\
  (state g_huge = RTMP_STATE_INITIALIZED /\
   0 <> width (config g_huge) * height (config g_huge) * 4 /\
   result (rtmp_send_video_frame (Some []) 0 0 encode_none g_huge)
     = RTMP_ERROR_NOT_CONNECTED /\
   RTMP_ERROR_NOT_CONNECTED <> RTMP_ERROR_INVALID_PARAMS /\
   state (after (rtmp_cleanup flush_none g_huge)) = RTMP_STATE_IDLE /\
   config (after (rtmp_cleanup flush_none g_huge)) = config g_huge /\
   result (rtmp_send_video_frame (Some []) 0 0 encode_none
             (after (rtmp_cleanup flush_none g_huge)))
     = RTMP_ERROR_NOT_CONNECTED).
Proof.
  assert (H : forall g buf data_size pts ff,
             data_size <> expected_size (config g) ->
             result (rtmp_send_video_frame (Some buf) data_size pts ff g)
               = RTMP_ERROR_INVALID_PARAMS).
  { intros g buf data_size pts ff Hsz.
    exact (proj1 (rtmp_send_video_frame_wrong_size g (Some buf) data_size pts
                    ff Hsz)). }
  split; [|split].
  - intros g buf data_size pts ff Hw Hh Hm Hsz.
    rewrite <- (expected_size_exact (config g) Hw Hh Hm) in Hsz.
    rewrite (H g buf data_size pts ff Hsz).
    split; [reflexivity | discriminate].
  - split; [reflexivity|]. split; [reflexivity|].
    intros buf data_size pts ff Hnz. apply H. exact Hnz.
  - split; [reflexivity|]. split; [vm_compute; discriminate|].
    split; [vm_compute; reflexivity|]. split; [discriminate|].
    split; [reflexivity|]. split; [reflexivity|]. vm_compute. reflexivity.
Qed.

Lemma C10_size_check_wraps_before_state_check_witness :
  (0 <= width (config g_initialized) /\ 0 <= height (config g_initialized) /\
   width (config g_initialized) * height (config g_initialized) * 4
     <= INT_MAX /\
   4 <> width (config g_initialized) * height (config g_initialized) * 4 /\
   state g_initialized = RTMP_STATE_INITIALIZED /\
   result (rtmp_send_video_frame (Some rgba_frame) 4 0 encode_none g_initialized)
     = RTMP_ERROR_INVALID_PARAMS)
  /\
  (4 <> 0 /\
   state g_rtmp0 = RTMP_STATE_IDLE /\
   result (rtmp_send_video_frame (Some rgba_frame) 4 0 encode_none g_rtmp0)
     = RTMP_ERROR_INVALID_PARAMS).
Proof.
  destruct C10_size_check_wraps_before_state_check
    as (Hall & (_ & _ & Hidle) & _).
  assert (Hw : 0 <= width (config g_initialized)) by (vm_compute; discriminate).
  assert (Hh : 0 <= height (config g_initialized))
    by (vm_compute; discriminate).
  assert (Hm : width (config g_initialized) * height (config g_initialized) * 4
               <= INT_MAX) by (vm_compute; discriminate).
  assert (Hsz : 4 <> width (config g_initialized) * height (config g_initialized)
                     * 4)
    by (vm_compute; discriminate).
  assert (Hnz : 4 <> 0) by discriminate.
  split.
  - split; [exact Hw|]. split; [exact Hh|]. split; [exact Hm|].
    split; [exact Hsz|]. split; [reflexivity|].
    exact (proj1 (Hall g_initialized rgba_frame 4 0 encode_none Hw Hh Hm Hsz)).
  - split; [exact Hnz|]. split; [reflexivity|].
    exact (Hidle rgba_frame 4 0 encode_none Hnz).
Defined.

(** ** C5: sendAudio without an audio pipeline *)

(** C5 (as amended): when the audio codec context is absent,
    [rtmp_send_audio] never changes the session and calls nothing; with a
    non-NULL block and a positive sample count it returns [RTMP_SUCCESS];
    with a NULL block or a sample count [<= 0] it returns
    [RTMP_ERROR_INVALID_PARAMS], because the argument check comes first. *)
Theorem C5_send_audio_without_audio_pipeline :
  forall (g : Session) (pcm : option (list Z)) (n pts : Z) (ff : EncodeEnv),
    audio_codec_ctx g = None ->
    let r := rtmp_send_audio pcm n pts ff g in
    after r = g /\
    calls r = [] /\
    (pcm <> None -> 0 < n -> result r = RTMP_SUCCESS) /\
    (pcm = None \/ n <= 0 -> result r = RTMP_ERROR_INVALID_PARAMS).
Proof.
  intros g pcm n pts ff Ha r; subst r. unfold rtmp_send_audio.
  destruct (is_null pcm || (n <=? 0)) eqn:Hargs.
  - cbn. repeat split; try reflexivity.
    intros Hp Hn. apply orb_true_iff in Hargs. destruct Hargs as [H|H].
    + destruct pcm; [discriminate | congruence].
    + apply Z.leb_le in H. lia.
  - unfold bind, get. rewrite Ha. cbn [is_null]. rewrite orb_true_r. cbn.
    repeat split; try reflexivity.
    intros Hbad. apply orb_false_iff in Hargs. destruct Hargs as [H1 H2].
    apply Z.leb_gt in H2. destruct Hbad as [Hp|Hn]; [|lia].
    subst pcm. discriminate.
Qed.

Lemma C5_send_audio_without_audio_pipeline_witness :
  audio_codec_ctx g_streaming_video_only = None /\
  state g_streaming_video_only = RTMP_STATE_STREAMING /\
  (Some [0; 0] <> None /\ 0 < 1 /\
   after (rtmp_send_audio (Some [0; 0]) 1 0 encode_none g_streaming_video_only)
     = g_streaming_video_only /\
   result (rtmp_send_audio (Some [0; 0]) 1 0 encode_none g_streaming_video_only)
     = RTMP_SUCCESS)
  /\
  ((Some [0; 0] = None \/ 0 <= 0) /\
   after (rtmp_send_audio (Some [0; 0]) 0 0 encode_none g_streaming_video_only)
     = g_streaming_video_only /\
   result (rtmp_send_audio (Some [0; 0]) 0 0 encode_none g_streaming_video_only)
     = RTMP_ERROR_INVALID_PARAMS).
Proof.
  assert (Ha : audio_codec_ctx g_streaming_video_only = None) by reflexivity.
  destruct (C5_send_audio_without_audio_pipeline
              g_streaming_video_only (Some [0; 0]) 1 0 encode_none Ha)
    as (H1 & _ & H3 & _).
  destruct (C5_send_audio_without_audio_pipeline
              g_streaming_video_only (Some [0; 0]) 0 0 encode_none Ha)
    as (K1 & _ & _ & K4).
  assert (Hp : Some [0; 0] <> @None (list Z)) by discriminate.
  assert (Hn : 0 < 1) by reflexivity.
  assert (Hz : Some [0; 0] = @None (list Z) \/ 0 <= 0)
    by (right; discriminate).
  split; [exact Ha|]. split; [reflexivity|]. split.
  - split; [exact Hp|]. split; [exact Hn|]. split; [exact H1|].
    exact (H3 Hp Hn).
  - split; [exact Hz|]. split; [exact K1 | exact (K4 Hz)].
Defined.

(** C5, as the spec states it, fails: with the audio pipeline absent, a call
    of [sendAudio] with a zero sample count, or with a NULL block, returns
    InvalidParams, not Success. *)
Lemma C5_counterexample :
  audio_codec_ctx g_streaming_video_only = None /\
  state g_streaming_video_only = RTMP_STATE_STREAMING /\
  result (rtmp_send_audio (Some []) 0 0 encode_none g_streaming_video_only)
    = RTMP_ERROR_INVALID_PARAMS /\
  result (rtmp_send_audio None 1024 0 encode_none g_streaming_video_only)
    = RTMP_ERROR_INVALID_PARAMS /\
  RTMP_ERROR_INVALID_PARAMS <> RTMP_SUCCESS.
Proof. vm_compute. repeat split; discriminate. Qed.

(** ** C4: the counters of sendVideoFrame *)

Lemma received_tests (x : Z) :
  0 <= x ->
  (x =? AVERROR_EAGAIN) || (x =? AVERROR_EOF) = false /\ (x <? 0) = false.
Proof.
  intros Hx. unfold AVERROR_EAGAIN, AVERROR_EOF. split.
  - apply orb_false_intro; apply Z.eqb_neq; lia.
  - apply Z.ltb_ge; exact Hx.
Qed.

Lemma video_loop_cons_ok (r : Received) (rest : list Received) (g : Session) :
  written_ok r ->
  encode_and_send_video_loop (r :: rest) g =
    (result (encode_and_send_video_loop rest
               (set_bytes_sent (int64 (bytes_sent g + size_after_write r)) g)),
     after (encode_and_send_video_loop rest
              (set_bytes_sent (int64 (bytes_sent g + size_after_write r)) g)),
     packet_calls Video r ++
     calls (encode_and_send_video_loop rest
              (set_bytes_sent (int64 (bytes_sent g + size_after_write r)) g))).
Proof.
  intros [Hr Hw]. cbn [encode_and_send_video_loop].
  destruct (received_tests _ Hr) as [E1 E2].
  assert (E3 : (write_ret r <? 0) = false) by (apply Z.ltb_ge; exact Hw).
  unfold bind at 1. cbn [call]. rewrite E1, E2.
  unfold bind at 1. cbn [call]. unfold bind at 1. cbn [call]. rewrite E3.
  unfold bind at 1. cbn [get]. unfold bind at 1. cbn [modify].
  unfold bind at 1. cbn [call].
  unfold result, after, calls.
  destruct (encode_and_send_video_loop rest _) as [[a g1] l1]. reflexivity.
Qed.

Lemma video_loop_write_failure_here
    (p : Received) (rest : list Received) (g : Session) :
  0 <= recv_ret p -> write_ret p < 0 ->
  encode_and_send_video_loop (p :: rest) g =
    (Some RTMP_ERROR_SEND_FAILED,
     set_dropped_frames (int32 (dropped_frames g + 1))
       (set_error_msg
          (mkMsg "Failed to write video packet: %s" [FErr (write_ret p)]) g),
     packet_calls Video p).
Proof.
  intros Hr Hw. cbn [encode_and_send_video_loop].
  destruct (received_tests _ Hr) as [E1 E2].
  assert (E3 : (write_ret p <? 0) = true) by (apply Z.ltb_lt; exact Hw).
  unfold bind at 1. cbn [call]. rewrite E1, E2.
  unfold bind at 1. cbn [call]. unfold bind at 1. cbn [call]. rewrite E3.
  reflexivity.
Qed.

(** The loop never touches [frames_sent]; [dropped_frames] moves only on the
    return with [RTMP_ERROR_SEND_FAILED]. *)
Lemma video_loop_counters (script : list Received) (g : Session) :
  let r := encode_and_send_video_loop script g in
  frames_sent (after r) = frames_sent g /\
  (result r <> Some RTMP_ERROR_SEND_FAILED ->
   dropped_frames (after r) = dropped_frames g) /\
  (result r = None \/ result r = Some RTMP_ERROR_ENCODE_FAILED \/
   result r = Some RTMP_ERROR_SEND_FAILED).
Proof.
  revert g. induction script as [|p rest IH]; intros g; cbn zeta.
  - cbn. repeat split; try reflexivity. left; reflexivity.
  - cbn [encode_and_send_video_loop]. rewrite run_bind. cbn [call result after calls fst snd].
    destruct ((recv_ret p =? AVERROR_EAGAIN) || (recv_ret p =? AVERROR_EOF)).
    { cbn. repeat split; try reflexivity. left; reflexivity. }
    destruct (recv_ret p <? 0).
    { cbn. repeat split; try reflexivity. right; left; reflexivity. }
    rewrite !run_bind. cbn [call result after calls fst snd].
    destruct (write_ret p <? 0).
    { cbn. split; [reflexivity|]. split.
      - intros H; exfalso; apply H; reflexivity.
      - right; right; reflexivity. }
    rewrite !run_bind. cbn [call get modify result after calls fst snd].
    specialize (IH (set_bytes_sent (int64 (bytes_sent g + size_after_write p)) g)).
    cbn zeta in IH. exact IH.
Qed.

Lemma video_loop_write_failure
    (pre : list Received) (p : Received) (rest : list Received) (g : Session) :
  Forall written_ok pre -> 0 <= recv_ret p -> write_ret p < 0 ->
  let r := encode_and_send_video_loop (pre ++ p :: rest) g in
  result r = Some RTMP_ERROR_SEND_FAILED /\
  dropped_frames (after r) = int32 (dropped_frames g + 1) /\
  calls r = flat_map (packet_calls Video) pre ++ packet_calls Video p.
Proof.
  intros Hpre Hr Hw. revert g.
  induction Hpre as [|q pre Hq Hpre IH]; intros g; cbn zeta.
  - cbn [app flat_map]. rewrite (video_loop_write_failure_here p rest g Hr Hw).
    cbn. repeat split; reflexivity.
  - cbn [app flat_map]. rewrite (video_loop_cons_ok q (pre ++ p :: rest) g Hq).
    cbn [result after calls fst snd].
    specialize (IH (set_bytes_sent (int64 (bytes_sent g + size_after_write q)) g)).
    cbn zeta in IH. destruct IH as (I1 & I2 & I3).
    split; [exact I1|]. split; [exact I2|].
    rewrite I3, <- app_assoc. reflexivity.
Qed.

(** When the muxer takes every packet, the loop ends on the encoder's
    [AVERROR(EAGAIN)] after one receive/rescale/write/unref per packet. *)
Lemma video_loop_all_written (script : list Received) (g : Session) :
  Forall written_ok script ->
  let r := encode_and_send_video_loop script g in
  result r = None /\
  calls r = flat_map (packet_calls Video) script
            ++ [avcodec_receive_packet Video AVERROR_EAGAIN].
Proof.
  intros Hs. revert g. induction Hs as [|q rest Hq Hrest IH]; intros g; cbn zeta.
  - split; reflexivity.
  - rewrite (video_loop_cons_ok q rest g Hq). cbn [result after calls fst snd].
    specialize (IH (set_bytes_sent (int64 (bytes_sent g + size_after_write q)) g)).
    cbn zeta in IH. destruct IH as [I1 I2].
    split; [exact I1|]. rewrite I2. cbn [flat_map]. rewrite <- app_assoc.
    reflexivity.
Qed.

Lemma incr_int32 (z : Z) : INT_MIN <= z < INT_MAX -> int32 (z + 1) = z + 1.
Proof. intros H. apply int32_small. unfold int_range. lia. Qed.

(** What [encode_and_send_video] does once the frame is writable and the
    encoder has accepted it. *)
Lemma encode_and_send_video_run (pts : Z) (ff : EncodeEnv) (g : Session) :
  0 <= e_make_writable ff -> 0 <= e_send_frame ff ->
  let l := encode_and_send_video_loop (e_received ff) g in
  let r := encode_and_send_video pts ff g in
  calls r =
    [av_frame_make_writable Video (e_make_writable ff);
     sws_scale (int32 (width (config g) * 4)) (height (config g));
     avcodec_send_frame Video (Some pts) (e_send_frame ff)] ++ calls l /\
  match result l with
  | Some code => result r = code /\ after r = after l
  | None =>
      result r = RTMP_SUCCESS /\
      after r = set_frames_sent (int32 (frames_sent (after l) + 1)) (after l)
  end.
Proof.
  intros Hm Hs. cbn zeta. unfold encode_and_send_video.
  assert (E1 : (e_make_writable ff <? 0) = false) by (apply Z.ltb_ge; exact Hm).
  assert (E2 : (e_send_frame ff <? 0) = false) by (apply Z.ltb_ge; exact Hs).
  rewrite run_bind. cbn [call result after calls fst snd]. rewrite E1.
  rewrite run_bind. cbn [get result after calls fst snd].
  rewrite run_bind. cbn [call result after calls fst snd].
  rewrite run_bind. cbn [call result after calls fst snd]. rewrite E2.
  rewrite run_bind. cbn [result after calls fst snd app].
  destruct (encode_and_send_video_loop (e_received ff) g) as [[[code|] g1] l1];
    cbn; rewrite ?app_nil_r; repeat split; reflexivity.
Qed.

Lemma encode_and_send_video_early (pts : Z) (ff : EncodeEnv) (g : Session) :
  e_make_writable ff < 0 \/ e_send_frame ff < 0 ->
  result (encode_and_send_video pts ff g) = RTMP_ERROR_ENCODE_FAILED.
Proof.
  intros H. unfold encode_and_send_video.
  rewrite result_bind. cbn [call result after fst snd].
  destruct (Z.ltb_spec (e_make_writable ff) 0) as [Hm|Hm]; [reflexivity|].
  destruct H as [H|H]; [lia|].
  rewrite result_bind. cbn [get result after fst snd].
  rewrite result_bind. cbn [call result after fst snd].
  rewrite result_bind. cbn [call result after fst snd].
  apply Z.ltb_lt in H. rewrite H. reflexivity.
Qed.

(** C4: in state Streaming, with a buffer of the right size.  If the call
    returns [RTMP_SUCCESS], [frames_sent] has grown by exactly 1 and
    [dropped_frames] has not moved, whatever the encoder handed out (the
    answers [e_received ff] are arbitrary).  With [n] packets handed out and
    all of them written, for every [n] and for [n = 0], the call does
    return [RTMP_SUCCESS], after exactly [n] writes.  If the muxer refuses a
    packet (after any number of packets written), the call returns
    [RTMP_ERROR_SEND_FAILED], [dropped_frames] has grown by exactly 1,
    [frames_sent] has not moved, and the calls end with that write and the
    packet's unref: the encoder is not asked for another packet.  The
    counters are C [int]s: "grown by 1" is stated below [INT_MAX]. *)
Theorem C4_video_counters :
  forall (g : Session) (buf : list Byte.byte) (data_size pts : Z)
         (ff : EncodeEnv),
    state g = RTMP_STATE_STREAMING ->
    data_size = expected_size (config g) ->
    INT_MIN <= frames_sent g < INT_MAX ->
    INT_MIN <= dropped_frames g < INT_MAX ->
    let r := rtmp_send_video_frame (Some buf) data_size pts ff g in
    (result r = RTMP_SUCCESS ->
       frames_sent (after r) = frames_sent g + 1 /\
       dropped_frames (after r) = dropped_frames g)
    /\
    (0 <= e_make_writable ff -> 0 <= e_send_frame ff ->
     Forall written_ok (e_received ff) ->
       result r = RTMP_SUCCESS /\
       frames_sent (after r) = frames_sent g + 1 /\
       calls r =
         [av_frame_make_writable Video (e_make_writable ff);
          sws_scale (int32 (width (config g) * 4)) (height (config g));
          avcodec_send_frame Video (Some pts) (e_send_frame ff)]
         ++ flat_map (packet_calls Video) (e_received ff)
         ++ [avcodec_receive_packet Video AVERROR_EAGAIN])
    /\
    (forall (pre : list Received) (p : Received) (rest : list Received),
       0 <= e_make_writable ff -> 0 <= e_send_frame ff ->
       e_received ff = pre ++ p :: rest ->
       Forall written_ok pre -> 0 <= recv_ret p -> write_ret p < 0 ->
       result r = RTMP_ERROR_SEND_FAILED /\
       dropped_frames (after r) = dropped_frames g + 1 /\
       frames_sent (after r) = frames_sent g /\
       calls r =
         [av_frame_make_writable Video (e_make_writable ff);
          sws_scale (int32 (width (config g) * 4)) (height (config g));
          avcodec_send_frame Video (Some pts) (e_send_frame ff)]
         ++ flat_map (packet_calls Video) pre ++ packet_calls Video p).
Proof.
  intros g buf data_size pts ff Hst Hsz Hf Hd r.
  assert (Hr : r = encode_and_send_video pts ff g).
  { subst r data_size. unfold rtmp_send_video_frame. cbn [is_null].
    unfold bind at 1. cbn [get]. rewrite Z.eqb_refl. cbn [negb].
    apply state_eqb_eq in Hst. rewrite Hst. cbn [negb].
    destruct (encode_and_send_video pts ff g) as [[a g1] l1].
    cbn. reflexivity. }
  rewrite Hr. clear r Hr. split; [|split].
  - destruct (Z.ltb_spec (e_make_writable ff) 0) as [Hm|Hm].
    { rewrite (encode_and_send_video_early pts ff g) by (left; exact Hm).
      discriminate. }
    destruct (Z.ltb_spec (e_send_frame ff) 0) as [Hs|Hs].
    { rewrite (encode_and_send_video_early pts ff g) by (right; exact Hs).
      discriminate. }
    destruct (encode_and_send_video_run pts ff g Hm Hs) as [_ Hres].
    cbn zeta in Hres.
    destruct (video_loop_counters (e_received ff) g) as (L1 & L2 & L3).
    cbn zeta in L1, L2, L3.
    destruct (result (encode_and_send_video_loop (e_received ff) g))
      as [code|] eqn:El.
    + destruct Hres as [R1 _]. intros Hc. rewrite R1 in Hc. rewrite Hc in L3.
      clear - L3.
      destruct L3 as [L3|[L3|L3]]; try discriminate L3;
        injection L3 as L3; vm_compute in L3; discriminate L3.
    + destruct Hres as [_ R2]. intros _. rewrite R2. cbn. rewrite L1. split.
      * apply incr_int32; exact Hf.
      * apply L2. discriminate.
  - intros Hm Hs Hall.
    destruct (encode_and_send_video_run pts ff g Hm Hs) as [Hcalls Hres].
    cbn zeta in Hcalls, Hres.
    destruct (video_loop_all_written (e_received ff) g Hall) as [A1 A2].
    cbn zeta in A1, A2. rewrite A1 in Hres. destruct Hres as [R1 R2].
    destruct (video_loop_counters (e_received ff) g) as (L1 & _).
    cbn zeta in L1.
    split; [exact R1|]. split.
    + rewrite R2. cbn. rewrite L1. apply incr_int32; exact Hf.
    + rewrite Hcalls, A2. reflexivity.
  - intros pre p rest Hm Hs Hrecv Hpre Hp Hw.
    destruct (encode_and_send_video_run pts ff g Hm Hs) as [Hcalls Hres].
    cbn zeta in Hcalls, Hres. rewrite Hrecv in Hcalls, Hres.
    destruct (video_loop_write_failure pre p rest g Hpre Hp Hw)
      as (W1 & W2 & W3).
    cbn zeta in W1, W2, W3. rewrite W1 in Hres. destruct Hres as [R1 R2].
    destruct (video_loop_counters (pre ++ p :: rest) g) as (L1 & _).
    cbn zeta in L1.
    split; [exact R1|]. split.
    + rewrite R2, W2. apply incr_int32; exact Hd.
    + split; [rewrite R2; exact L1|]. rewrite Hcalls, W3. reflexivity.
Qed.

Lemma C4_video_counters_witness :
  (state g_streaming = RTMP_STATE_STREAMING /\
   32 = expected_size (config g_streaming) /\
   INT_MIN <= frames_sent g_streaming < INT_MAX /\
   INT_MIN <= dropped_frames g_streaming < INT_MAX)
  /\
  (result (rtmp_send_video_frame (Some rgba_frame) 32 0 encode_none
             g_streaming) = RTMP_SUCCESS /\
   frames_sent (after (rtmp_send_video_frame (Some rgba_frame) 32 0
                         encode_none g_streaming))
     = frames_sent g_streaming + 1)
  /\
  (0 <= e_make_writable encode_two_packets /\
   0 <= e_send_frame encode_two_packets /\
   Forall written_ok (e_received encode_two_packets) /\
   result (rtmp_send_video_frame (Some rgba_frame) 32 0 encode_two_packets
             g_streaming) = RTMP_SUCCESS /\
   frames_sent (after (rtmp_send_video_frame (Some rgba_frame) 32 0
                         encode_two_packets g_streaming))
     = frames_sent g_streaming + 1)
  /\
  (e_received encode_second_write_fails
     = [mkReceived 0 4096 0 0]
       ++ mkReceived 0 512 (-32) 0 :: [mkReceived 0 512 0 0] /\
   Forall written_ok [mkReceived 0 4096 0 0] /\
   0 <= recv_ret (mkReceived 0 512 (-32) 0) /\
   write_ret (mkReceived 0 512 (-32) 0) < 0 /\
   result (rtmp_send_video_frame (Some rgba_frame) 32 0
             encode_second_write_fails g_streaming) = RTMP_ERROR_SEND_FAILED /\
   dropped_frames (after (rtmp_send_video_frame (Some rgba_frame) 32 0
                            encode_second_write_fails g_streaming))
     = dropped_frames g_streaming + 1).
Proof.
  assert (Hst : state g_streaming = RTMP_STATE_STREAMING) by reflexivity.
  assert (Hsz : 32 = expected_size (config g_streaming)) by reflexivity.
  assert (Hf : INT_MIN <= frames_sent g_streaming < INT_MAX)
    by (vm_compute; split; [discriminate | reflexivity]).
  assert (Hd : INT_MIN <= dropped_frames g_streaming < INT_MAX)
    by (vm_compute; split; [discriminate | reflexivity]).
  assert (Hpre : Forall written_ok [mkReceived 0 4096 0 0]).
  { constructor; [|constructor]. split; vm_compute; discriminate. }
  assert (Hall : Forall written_ok (e_received encode_two_packets)).
  { apply Forall_cons; [split; vm_compute; discriminate|].
    apply Forall_cons; [split; vm_compute; discriminate|]. apply Forall_nil. }
  assert (Hm2 : 0 <= e_make_writable encode_two_packets)
    by (vm_compute; discriminate).
  assert (Hs2 : 0 <= e_send_frame encode_two_packets)
    by (vm_compute; discriminate).
  assert (Hm : 0 <= e_make_writable encode_second_write_fails)
    by (vm_compute; discriminate).
  assert (Hs : 0 <= e_send_frame encode_second_write_fails)
    by (vm_compute; discriminate).
  assert (Hp : 0 <= recv_ret (mkReceived 0 512 (-32) 0))
    by (vm_compute; discriminate).
  assert (Hw : write_ret (mkReceived 0 512 (-32) 0) < 0) by reflexivity.
  destruct (C4_video_counters g_streaming rgba_frame 32 0 encode_none
              Hst Hsz Hf Hd) as [Hok _].
  destruct (C4_video_counters g_streaming rgba_frame 32 0 encode_two_packets
              Hst Hsz Hf Hd) as (_ & Htwo & _).
  destruct (C4_video_counters g_streaming rgba_frame 32 0
              encode_second_write_fails Hst Hsz Hf Hd) as (_ & _ & Hfail).
  destruct (Htwo Hm2 Hs2 Hall) as (T1 & T2 & _).
  destruct (Hfail [mkReceived 0 4096 0 0] (mkReceived 0 512 (-32) 0)
              [mkReceived 0 512 0 0] Hm Hs eq_refl Hpre Hp Hw) as (F1 & F2 & _).
  split; [exact (conj Hst (conj Hsz (conj Hf Hd)))|]. split; [|split].
  - split; [reflexivity|]. exact (proj1 (Hok eq_refl)).
  - exact (conj Hm2 (conj Hs2 (conj Hall (conj T1 T2)))).
  - split; [reflexivity|].
    exact (conj Hpre (conj Hp (conj Hw (conj F1 F2)))).
Defined.

(** ** Frame rules: what a computation leaves alone *)

Section Frame.
Context {B : Type} (f : Session -> B).

Lemma keeps_ret {A : Type} (a : A) : keeps f (ret a).
Proof. intros g; reflexivity. Qed.

Lemma keeps_get : keeps f get.
Proof. intros g; reflexivity. Qed.

Lemma keeps_call (c : Call) : keeps f (call c).
Proof. intros g; reflexivity. Qed.

Lemma keeps_modify (h : Session -> Session) :
  (forall g, f (h g) = f g) -> keeps f (modify h).
Proof. intros H g; apply H. Qed.

Lemma keeps_bind {A C : Type} (m : M A) (k : A -> M C) :
  keeps f m -> (forall a, keeps f (k a)) -> keeps f (bind m k).
Proof.
  intros Hm Hk g. rewrite after_bind, Hk. apply Hm.
Qed.

End Frame.

(** Decompose a computation along its binds and branches down to its
    primitive steps. *)
Ltac frame :=
  repeat first
    [ assumption
    | apply keeps_ret
    | apply keeps_get
    | apply keeps_call
    | apply keeps_modify; intros ?; reflexivity
    | apply keeps_bind; [|intros ?]
    | match goal with
      | |- keeps _ (if ?b then _ else _) => destruct b
      | |- keeps _ (match ?x with _ => _ end) => destruct x
      end ].

Lemma disconnect_flush_keeps {B : Type} (f : Session -> B) (script : list Received) :
  keeps f (disconnect_flush script).
Proof.
  induction script as [|r rest IH]; cbn [disconnect_flush]; frame.
Qed.

Lemma rtmp_disconnect_keeps_stats (ff : FlushEnv) :
  keeps stats (rtmp_disconnect ff).
Proof.
  pose proof (disconnect_flush_keeps stats (f_received ff)).
  unfold rtmp_disconnect, free_swr, free_frame, free_codec_ctx. frame.
Qed.

Lemma rtmp_cleanup_keeps_stats (ff : FlushEnv) :
  keeps stats (rtmp_cleanup ff).
Proof.
  pose proof (rtmp_disconnect_keeps_stats ff).
  unfold rtmp_cleanup, free_packet. frame.
Qed.

Lemma init_video_encoder_keeps_stats (ff : VideoInitEnv) :
  keeps stats (init_video_encoder ff).
Proof.
  unfold init_video_encoder, SET_ERROR, free_frame, free_codec_ctx. frame.
Qed.

Lemma init_audio_encoder_keeps_stats (ff : AudioInitEnv) :
  keeps stats (init_audio_encoder ff).
Proof.
  unfold init_audio_encoder, SET_ERROR, free_swr, free_frame, free_codec_ctx.
  frame.
Qed.

Lemma init_audio_encoder_keeps_link (ff : AudioInitEnv) :
  keeps link (init_audio_encoder ff).
Proof.
  unfold init_audio_encoder, SET_ERROR, free_swr, free_frame, free_codec_ctx.
  frame.
Qed.

Lemma rtmp_connect_keeps_stats (url : option string) (ff : ConnectEnv) :
  keeps stats (rtmp_connect url ff).
Proof.
  pose proof (init_video_encoder_keeps_stats (c_video ff)).
  pose proof (init_audio_encoder_keeps_stats (c_audio ff)).
  unfold rtmp_connect, SET_ERROR, free_codec_ctx. frame.
Qed.

Lemma rtmp_start_streaming_keeps_stats (now : Z) :
  keeps stats (rtmp_start_streaming now).
Proof. unfold rtmp_start_streaming, SET_ERROR. frame. Qed.

Lemma rtmp_stop_streaming_keeps_stats : keeps stats rtmp_stop_streaming.
Proof. unfold rtmp_stop_streaming. frame. Qed.

(** ** C9: the statistics counters over the public operations *)

Lemma total_size_nonneg (l : list Received) : sizes_ok l -> 0 <= total_size l.
Proof.
  induction 1 as [|r l Hr Hl IH]; cbn [total_size fold_right]; [lia|].
  fold (total_size l). lia.
Qed.

Lemma add_int64 (a x y : Z) :
  INT64_MIN <= a -> 0 <= x -> 0 <= y -> a + (x + y) <= INT64_MAX ->
  int64 (a + x) = a + x.
Proof.
  intros Ha Hx Hy Hm. apply int64_small. unfold int64_range. lia.
Qed.

Lemma video_loop_bytes (script : list Received) (g : Session) :
  sizes_ok script ->
  INT64_MIN <= bytes_sent g ->
  bytes_sent g + total_size script <= INT64_MAX ->
  bytes_sent g <= bytes_sent (after (encode_and_send_video_loop script g)).
Proof.
  intros Hs. revert g. induction Hs as [|p rest Hp Hrest IH]; intros g Hlo Hhi.
  - cbn. lia.
  - cbn [total_size fold_right] in Hhi. fold (total_size rest) in Hhi.
    pose proof (total_size_nonneg rest Hrest) as Ht.
    cbn [encode_and_send_video_loop].
    rewrite after_bind. cbn [call result after fst snd].
    destruct ((recv_ret p =? AVERROR_EAGAIN) || (recv_ret p =? AVERROR_EOF));
      [cbn; lia|].
    destruct (recv_ret p <? 0); [cbn; lia|].
    rewrite !after_bind. cbn [call result after fst snd].
    destruct (write_ret p <? 0); [cbn; lia|].
    rewrite !after_bind. cbn [call get modify result after fst snd].
    specialize (IH (set_bytes_sent (int64 (bytes_sent g + size_after_write p)) g)).
    cbn [bytes_sent set_bytes_sent] in IH.
    rewrite (add_int64 _ _ (total_size rest)) in IH by lia.
    rewrite (add_int64 _ _ (total_size rest)) by lia.
    specialize (IH ltac:(lia) ltac:(lia)). lia.
Qed.

Lemma audio_loop_bytes (script : list Received) (g : Session) :
  sizes_ok script ->
  INT64_MIN <= bytes_sent g ->
  bytes_sent g + total_size script <= INT64_MAX ->
  bytes_sent g <= bytes_sent (after (encode_and_send_audio_loop script g)).
Proof.
  intros Hs. revert g. induction Hs as [|p rest Hp Hrest IH]; intros g Hlo Hhi.
  - cbn. lia.
  - cbn [total_size fold_right] in Hhi. fold (total_size rest) in Hhi.
    pose proof (total_size_nonneg rest Hrest) as Ht.
    cbn [encode_and_send_audio_loop].
    rewrite after_bind. cbn [call result after fst snd].
    destruct ((recv_ret p =? AVERROR_EAGAIN) || (recv_ret p =? AVERROR_EOF));
      [cbn; lia|].
    destruct (recv_ret p <? 0); [cbn; lia|].
    rewrite !after_bind. cbn [call result after fst snd].
    destruct (write_ret p <? 0); [cbn; lia|].
    rewrite !after_bind. cbn [call get modify result after fst snd].
    specialize (IH (set_bytes_sent (int64 (bytes_sent g + size_after_write p)) g)).
    cbn [bytes_sent set_bytes_sent] in IH.
    rewrite (add_int64 _ _ (total_size rest)) in IH by lia.
    rewrite (add_int64 _ _ (total_size rest)) by lia.
    specialize (IH ltac:(lia) ltac:(lia)). lia.
Qed.

Lemma audio_loop_keeps_frame_counters (script : list Received) :
  keeps frame_counters (encode_and_send_audio_loop script).
Proof.
  induction script as [|p rest IH]; cbn [encode_and_send_audio_loop]; frame.
Qed.

(** [dropped_frames] after the video loop: untouched, or incremented once. *)
Lemma video_loop_dropped (script : list Received) (g : Session) :
  let r := encode_and_send_video_loop script g in
  dropped_frames (after r) = dropped_frames g \/
  dropped_frames (after r) = int32 (dropped_frames g + 1).
Proof.
  cbn zeta. revert g. induction script as [|p rest IH]; intros g.
  - left; reflexivity.
  - cbn [encode_and_send_video_loop].
    rewrite after_bind. cbn [call result after fst snd].
    destruct ((recv_ret p =? AVERROR_EAGAIN) || (recv_ret p =? AVERROR_EOF));
      [left; reflexivity|].
    destruct (recv_ret p <? 0); [left; reflexivity|].
    rewrite !after_bind. cbn [call result after fst snd].
    destruct (write_ret p <? 0); [right; reflexivity|].
    rewrite !after_bind. cbn [call get modify result after fst snd].
    apply (IH (set_bytes_sent (int64 (bytes_sent g + size_after_write p)) g)).
Qed.

Lemma keeps_stats_le {A : Type} (m : M A) (g : Session) :
  keeps stats m -> stats_le g (after (m g)).
Proof.
  intros H. specialize (H g). unfold stats in H. injection H as H1 H2 H3.
  unfold stats_le. rewrite H1, H2, H3. lia.
Qed.

Lemma stats_le_set_error_msg (m : ErrorMsg) (g : Session) :
  stats_le g (set_error_msg m g).
Proof. unfold stats_le; cbn; lia. Qed.

Lemma encode_and_send_video_stats (pts : Z) (ff : EncodeEnv) (g : Session) :
  sizes_ok (e_received ff) ->
  INT64_MIN <= bytes_sent g ->
  bytes_sent g + total_size (e_received ff) <= INT64_MAX ->
  INT_MIN <= frames_sent g < INT_MAX ->
  INT_MIN <= dropped_frames g < INT_MAX ->
  stats_le g (after (encode_and_send_video pts ff g)).
Proof.
  intros Hsz Hlo Hhi Hf Hd. unfold encode_and_send_video.
  rewrite after_bind. cbn [call result after fst snd].
  destruct (e_make_writable ff <? 0); [apply stats_le_set_error_msg|].
  rewrite !after_bind. cbn [call get result after fst snd].
  destruct (e_send_frame ff <? 0); [apply stats_le_set_error_msg|].
  rewrite after_bind.
  pose proof (video_loop_bytes (e_received ff) g Hsz Hlo Hhi) as Lb.
  destruct (video_loop_counters (e_received ff) g) as (Lf & _ & _).
  pose proof (video_loop_dropped (e_received ff) g) as Ld.
  cbn zeta in Lf, Ld.
  assert (Hdrop : dropped_frames g <=
            dropped_frames (after (encode_and_send_video_loop (e_received ff) g))).
  { destruct Ld as [Ld|Ld]; rewrite Ld; [lia|].
    rewrite incr_int32 by exact Hd. lia. }
  destruct (result (encode_and_send_video_loop (e_received ff) g)) as [code|].
  - cbn. unfold stats_le. rewrite Lf. lia.
  - rewrite after_bind. cbn. unfold stats_le. cbn. rewrite Lf.
    rewrite incr_int32 by exact Hf. lia.
Qed.

Lemma encode_and_send_audio_stats (n pts : Z) (ff : EncodeEnv) (g : Session) :
  sizes_ok (e_received ff) ->
  INT64_MIN <= bytes_sent g ->
  bytes_sent g + total_size (e_received ff) <= INT64_MAX ->
  stats_le g (after (encode_and_send_audio n pts ff g)).
Proof.
  intros Hsz Hlo Hhi.
  assert (Hk : keeps frame_counters (encode_and_send_audio n pts ff)).
  { pose proof (audio_loop_keeps_frame_counters (e_received ff)).
    unfold encode_and_send_audio. frame. }
  specialize (Hk g). unfold frame_counters in Hk. injection Hk as Hf Hd.
  unfold stats_le. rewrite Hf, Hd. split; [|lia].
  unfold encode_and_send_audio.
  rewrite after_bind. cbn [call result after fst snd].
  destruct (e_make_writable ff <? 0); [cbn; lia|].
  rewrite !after_bind. cbn [call result after fst snd].
  destruct (e_swr_convert ff <? 0); [cbn; lia|].
  rewrite !after_bind. cbn [call result after fst snd].
  destruct (e_send_frame ff <? 0); [cbn; lia|].
  rewrite after_bind.
  pose proof (audio_loop_bytes (e_received ff) g Hsz Hlo Hhi) as Lb.
  destruct (result (encode_and_send_audio_loop (e_received ff) g)); cbn; exact Lb.
Qed.

Lemma rtmp_init_simple_stats
    (w h f b k sr ch ab : Z) (ff : InitEnv) (g : Session) :
  let g' := after (rtmp_init_simple w h f b k sr ch ab ff g) in
  stats g' = (0, 0, 0) \/ stats g' = stats g.
Proof.
  cbn zeta. unfold rtmp_init_simple.
  destruct ((w <=? 0) || (h <=? 0) || (f <=? 0) || (b <=? 0)).
  - right. reflexivity.
  - left. rewrite !after_bind. cbn [call modify result after fst snd].
    destruct (is_null (i_packet_alloc ff)); rewrite ?after_bind; reflexivity.
Qed.

(** C9: over the public operations.  Every operation other than
    initialize leaves each of [bytes_sent], [frames_sent] and
    [dropped_frames] where it was or higher ([rtmp_cleanup] included: it
    does not touch them); initialize either sets all three to zero (when the
    arguments pass validation) or leaves them as they were (when they do
    not).  The counters are a C [int64_t] and two [int]s, and the [size] of
    a packet is an [int] that FFmpeg never makes negative: the statement is
    for sizes [>= 0] and for counters that the call does not push past
    [INT64_MAX] resp. [INT_MAX]. *)
Theorem C9_counters_monotone :
  forall (op : Op) (g : Session),
    sizes_ok (packets_of op) ->
    INT64_MIN <= bytes_sent g ->
    bytes_sent g + total_size (packets_of op) <= INT64_MAX ->
    INT_MIN <= frames_sent g < INT_MAX ->
    INT_MIN <= dropped_frames g < INT_MAX ->
    if is_init op
    then stats (exec op g) = (0, 0, 0) \/ stats (exec op g) = stats g
    else stats_le g (exec op g).
Proof.
  intros op g Hsz Hlo Hhi Hf Hd.
  destruct op as [c ff|w h f b k sr ch ab ff|url ff|now|rgba n pts ff
                 |pcm n pts ff| |ff|ff]; cbn [is_init exec packets_of] in *.
  - destruct c as [c|]; cbn [rtmp_init].
    + apply rtmp_init_simple_stats.
    + right; reflexivity.
  - apply rtmp_init_simple_stats.
  - apply keeps_stats_le, rtmp_connect_keeps_stats.
  - apply keeps_stats_le, rtmp_start_streaming_keeps_stats.
  - unfold rtmp_send_video_frame.
    destruct (is_null rgba); [apply stats_le_set_error_msg|].
    rewrite after_bind. cbn [get result after fst snd].
    destruct (negb (n =? expected_size (config g)));
      [apply stats_le_set_error_msg|].
    destruct (negb (state_eqb (state g) RTMP_STATE_STREAMING));
      [apply stats_le_set_error_msg|].
    apply encode_and_send_video_stats; assumption.
  - unfold rtmp_send_audio.
    destruct (is_null pcm || (n <=? 0)); [unfold stats_le; cbn; lia|].
    rewrite after_bind. cbn [get result after fst snd].
    destruct (negb (state_eqb (state g) RTMP_STATE_STREAMING)
              || is_null (audio_codec_ctx g)); [unfold stats_le; cbn; lia|].
    apply encode_and_send_audio_stats; assumption.
  - apply keeps_stats_le, rtmp_stop_streaming_keeps_stats.
  - apply keeps_stats_le, rtmp_disconnect_keeps_stats.
  - apply keeps_stats_le, rtmp_cleanup_keeps_stats.
Qed.

Lemma C9_counters_monotone_witness :
  (sizes_ok (e_received encode_two_packets) /\
   INT64_MIN <= bytes_sent g_streaming /\
   bytes_sent g_streaming + total_size (e_received encode_two_packets)
     <= INT64_MAX /\
   INT_MIN <= frames_sent g_streaming < INT_MAX /\
   INT_MIN <= dropped_frames g_streaming < INT_MAX)
  /\
  stats_le g_streaming
    (exec (SendVideoFrame (Some rgba_frame) 32 0 encode_two_packets)
       g_streaming)
  /\
  stats_le g_streaming (exec (Cleanup flush_none) g_streaming).
Proof.
  assert (Hsz : sizes_ok (e_received encode_two_packets)).
  { apply Forall_cons; [vm_compute; discriminate|].
    apply Forall_cons; [vm_compute; discriminate|]. apply Forall_nil. }
  assert (Hlo : INT64_MIN <= bytes_sent g_streaming)
    by (vm_compute; discriminate).
  assert (Hhi : bytes_sent g_streaming
                + total_size (e_received encode_two_packets) <= INT64_MAX)
    by (vm_compute; discriminate).
  assert (Hhi0 : bytes_sent g_streaming + total_size [] <= INT64_MAX)
    by (vm_compute; discriminate).
  assert (Hf : INT_MIN <= frames_sent g_streaming < INT_MAX)
    by (vm_compute; split; [discriminate | reflexivity]).
  assert (Hd : INT_MIN <= dropped_frames g_streaming < INT_MAX)
    by (vm_compute; split; [discriminate | reflexivity]).
  split; [exact (conj Hsz (conj Hlo (conj Hhi (conj Hf Hd))))|]. split.
  - exact (C9_counters_monotone
             (SendVideoFrame (Some rgba_frame) 32 0 encode_two_packets)
             g_streaming Hsz Hlo Hhi Hf Hd).
  - exact (C9_counters_monotone (Cleanup flush_none) g_streaming
             (Forall_nil _) Hlo Hhi0 Hf Hd).
Defined.

(** ** C8: disconnect flushes the video encoder before the trailer *)

Lemma flush_end_negative (script : list Received) : flush_end script < 0.
Proof.
  induction script as [|r rest IH]; cbn [flush_end].
  - reflexivity.
  - destruct (Z.geb_spec (recv_ret r) 0); [exact IH | lia].
Qed.

Lemma disconnect_flush_calls (script : list Received) (g : Session) :
  calls (disconnect_flush script g) =
    flat_map (packet_calls Video) (flushed script)
    ++ [avcodec_receive_packet Video (flush_end script)].
Proof.
  revert g. induction script as [|r rest IH]; intros g.
  - reflexivity.
  - cbn [disconnect_flush flushed flush_end].
    rewrite calls_bind. cbn [call result after calls fst snd].
    destruct (recv_ret r >=? 0).
    + rewrite !calls_bind. cbn [call result after calls fst snd].
      rewrite IH. reflexivity.
    + reflexivity.
Qed.

Section Emits.
Context (P : Call -> Prop).

Lemma emits_ret {A : Type} (a : A) : emits P (ret a).
Proof. intros g; constructor. Qed.

Lemma emits_get : emits P get.
Proof. intros g; constructor. Qed.

Lemma emits_modify (h : Session -> Session) : emits P (modify h).
Proof. intros g; constructor. Qed.

Lemma emits_call (c : Call) : P c -> emits P (call c).
Proof. intros H g; repeat constructor; exact H. Qed.

Lemma emits_bind {A C : Type} (m : M A) (k : A -> M C) :
  emits P m -> (forall a, emits P (k a)) -> emits P (bind m k).
Proof.
  intros Hm Hk g. rewrite calls_bind. apply Forall_app. split.
  - apply Hm.
  - apply Hk.
Qed.

End Emits.

Ltac emit :=
  repeat first
    [ assumption
    | apply emits_ret
    | apply emits_get
    | apply emits_modify
    | apply emits_call; exact I
    | apply emits_bind; [|intros ?]
    | match goal with
      | |- emits _ (if ?b then _ else _) => destruct b
      | |- emits _ (match ?x with _ => _ end) => destruct x
      end ].

Lemma flush_calls_are_flush (script : list Received) :
  Forall is_flush
    (flat_map (packet_calls Video) (flushed script)
     ++ [avcodec_receive_packet Video (flush_end script)]).
Proof.
  apply Forall_app. split.
  - apply Forall_flat_map. apply Forall_forall. intros r _.
    repeat constructor.
  - repeat constructor.
Qed.

(** *** Sessions the bridge can be in *)

Lemma linked_of_link (g g' : Session) : link g' = link g -> linked g -> linked g'.
Proof.
  unfold link, linked. intros H. injection H as H1 H2 H3.
  rewrite H1, H2, H3. exact (fun x => x).
Qed.

Lemma linked_off (g : Session) :
  state g = RTMP_STATE_IDLE \/ state g = RTMP_STATE_INITIALIZED -> linked g.
Proof.
  intros [H|H] [H'|H']; rewrite H in H'; discriminate.
Qed.

Lemma rtmp_disconnect_state (ff : FlushEnv) (g : Session) :
  state (after (rtmp_disconnect ff g)) = RTMP_STATE_INITIALIZED.
Proof. unfold rtmp_disconnect. rewrite !after_bind. reflexivity. Qed.

Lemma rtmp_cleanup_state (ff : FlushEnv) (g : Session) :
  state (after (rtmp_cleanup ff g)) = RTMP_STATE_IDLE.
Proof. unfold rtmp_cleanup. rewrite !after_bind. reflexivity. Qed.

Lemma rtmp_init_simple_linked
    (w h f b k sr ch ab : Z) (ff : InitEnv) (g : Session) :
  linked g -> linked (after (rtmp_init_simple w h f b k sr ch ab ff g)).
Proof.
  intros Hg. unfold rtmp_init_simple.
  destruct ((w <=? 0) || (h <=? 0) || (f <=? 0) || (b <=? 0)).
  - apply (linked_of_link g); [reflexivity | exact Hg].
  - apply linked_off.
    rewrite !after_bind. cbn [call modify get result after fst snd].
    destruct (is_null (i_packet_alloc ff)).
    + left. rewrite !after_bind. cbn [modify ret result after fst snd].
      cbn [state set_error_msg set_packet set_dropped_frames set_frames_sent
           set_bytes_sent set_config].
      destruct (mutex_initialized g =? 0);
        cbn [modify ret result after fst snd state set_mutex_initialized];
        (destruct (state_eqb (state g) RTMP_STATE_IDLE) eqn:E; cbn [negb];
         [apply state_eqb_eq in E; exact E | apply rtmp_cleanup_state]).
    + right. rewrite !after_bind. reflexivity.
Qed.

Lemma init_video_encoder_link (ff : VideoInitEnv) (g : Session) :
  let r := init_video_encoder ff g in
  state (after r) = state g /\
  format_ctx (after r) = format_ctx g /\
  (result r = RTMP_SUCCESS -> video_codec_ctx (after r) <> None).
Proof.
  cbn zeta. unfold init_video_encoder.
  destruct ff as [found st cx op pa fr gb sw]; cbn [v_find_encoder v_new_stream
    v_alloc_context3 v_open2 v_parameters_from_context v_frame_alloc
    v_frame_get_buffer v_sws_getContext].
  destruct found; [|cbn; repeat split; discriminate].
  destruct st as [st|]; [|cbn; repeat split; discriminate].
  destruct cx as [cx|]; [|cbn; repeat split; discriminate].
  destruct (op <? 0);
    [rewrite !result_bind, !after_bind; cbn; repeat split; discriminate|].
  destruct (pa <? 0);
    [rewrite !result_bind, !after_bind; cbn; repeat split; discriminate|].
  destruct fr as [fr|];
    [|rewrite !result_bind, !after_bind; cbn; repeat split; discriminate].
  destruct (gb <? 0);
    [rewrite !result_bind, !after_bind; cbn; repeat split; discriminate|].
  destruct sw as [sw|];
    rewrite !result_bind, !after_bind; cbn; repeat split; discriminate.
Qed.

Lemma free_codec_ctx_video_state (g : Session) :
  state (after (free_codec_ctx Video g)) = state g.
Proof. unfold free_codec_ctx. cbn. destruct (video_codec_ctx g); reflexivity. Qed.

Lemma rtmp_connect_linked (url : option string) (ff : ConnectEnv) (g : Session) :
  linked g -> linked (after (rtmp_connect url ff g)).
Proof.
  intros Hg. unfold rtmp_connect.
  destruct url as [u|]; [|apply (linked_of_link g); [reflexivity | exact Hg]].
  destruct (String.length u =? 0)%nat;
    [apply (linked_of_link g); [reflexivity | exact Hg]|].
  rewrite after_bind. cbn [get result after fst snd].
  destruct (state_eqb (state g) RTMP_STATE_INITIALIZED) eqn:Es; cbn [negb];
    [|apply (linked_of_link g); [reflexivity | exact Hg]].
  apply state_eqb_eq in Es.
  rewrite !after_bind. cbn [call modify get result after fst snd].
  cbn [format_ctx set_format_ctx].
  destruct (if c_output_ret ff <? 0 then None else c_output_ctx ff) as [fc|].
  2:{ apply linked_off. right. rewrite !after_bind. cbn. exact Es. }
  remember (set_format_ctx (Some fc) g) as g1 eqn:Hg1.
  assert (G1 : state g1 = state g /\ format_ctx g1 = Some fc)
    by (subst g1; split; reflexivity).
  destruct G1 as [G1 G2]. clear Hg1.
  destruct (init_video_encoder_link (c_video ff) g1) as (V1 & V2 & V3).
  cbn zeta in V1, V2, V3. rewrite after_bind.
  remember (init_video_encoder (c_video ff) g1) as rv eqn:Hrv. clear Hrv.
  destruct (result rv =? RTMP_SUCCESS) eqn:Er; cbn [negb].
  2:{ apply linked_off. right. rewrite !after_bind. cbn. rewrite V1, G1. exact Es. }
  apply Z.eqb_eq in Er. specialize (V3 Er).
  rewrite after_bind.
  pose proof (init_audio_encoder_keeps_link (c_audio ff) (after rv)) as A.
  remember (after (init_audio_encoder (c_audio ff) (after rv))) as g2 eqn:Hg2.
  clear Hg2.
  unfold link in A. injection A as A1 A2 A3.
  rewrite after_bind.
  destruct (flag_set (oformat_flags fc) AVFMT_NOFILE); cbn [negb].
  - cbn [ret result after fst snd negb].
    rewrite !after_bind. cbn [call result after fst snd].
    destruct (c_write_header ff <? 0).
    + apply linked_off. right. rewrite !after_bind.
      cbn [SET_ERROR call modify ret result after fst snd].
      cbn [state set_format_ctx]. rewrite free_codec_ctx_video_state.
      cbn. rewrite A1, V1, G1. exact Es.
    + rewrite !after_bind. unfold linked. cbn. intros _.
        rewrite A2, A3, V2, G2. split.
      * discriminate.
      * exact V3.
  - rewrite !result_bind, !after_bind. cbn [call result after fst snd].
    destruct (c_avio_open2 ff <? 0).
    + rewrite !result_bind, !after_bind.
      cbn [SET_ERROR call modify ret result after fst snd negb].
      apply linked_off. right. rewrite ?after_bind.
      cbn [SET_ERROR call modify ret result after fst snd negb].
      cbn [state set_format_ctx].
      rewrite free_codec_ctx_video_state. cbn. rewrite A1, V1, G1. exact Es.
    + cbn [ret result after fst snd negb].
      rewrite !after_bind. cbn [call result after fst snd].
      destruct (c_write_header ff <? 0).
      * apply linked_off. right. rewrite !after_bind.
        cbn [SET_ERROR call modify ret result after fst snd].
        cbn [state set_format_ctx]. rewrite free_codec_ctx_video_state.
        cbn. rewrite A1, V1, G1. exact Es.
      * rewrite !after_bind. unfold linked. cbn. intros _.
        rewrite A2, A3, V2, G2. split.
        -- discriminate.
        -- exact V3.
Qed.

Lemma video_loop_keeps_link (script : list Received) :
  keeps link (encode_and_send_video_loop script).
Proof.
  induction script as [|p rest IH]; cbn [encode_and_send_video_loop];
    unfold SET_ERROR; frame.
Qed.

Lemma audio_loop_keeps_link (script : list Received) :
  keeps link (encode_and_send_audio_loop script).
Proof.
  induction script as [|p rest IH]; cbn [encode_and_send_audio_loop]; frame.
Qed.

Lemma rtmp_send_video_frame_keeps_link
    (rgba : option (list Byte.byte)) (n pts : Z) (ff : EncodeEnv) :
  keeps link (rtmp_send_video_frame rgba n pts ff).
Proof.
  pose proof (video_loop_keeps_link (e_received ff)).
  unfold rtmp_send_video_frame, encode_and_send_video, SET_ERROR. frame.
Qed.

Lemma rtmp_send_audio_keeps_link
    (pcm : option (list Z)) (n pts : Z) (ff : EncodeEnv) :
  keeps link (rtmp_send_audio pcm n pts ff).
Proof.
  pose proof (audio_loop_keeps_link (e_received ff)).
  unfold rtmp_send_audio, encode_and_send_audio. frame.
Qed.

Lemma exec_linked (op : Op) (g : Session) : linked g -> linked (exec op g).
Proof.
  intros Hg.
  destruct op as [c ff|w h f b k sr ch ab ff|url ff|now|rgba n pts ff
                 |pcm n pts ff| |ff|ff]; cbn [exec].
  - destruct c as [c|]; cbn [rtmp_init].
    + apply rtmp_init_simple_linked; exact Hg.
    + apply (linked_of_link g); [reflexivity | exact Hg].
  - apply rtmp_init_simple_linked; exact Hg.
  - apply rtmp_connect_linked; exact Hg.
  - unfold rtmp_start_streaming. rewrite after_bind.
    cbn [get result after fst snd].
    destruct (state_eqb (state g) RTMP_STATE_CONNECTED) eqn:Es; cbn [negb].
    + apply state_eqb_eq in Es. rewrite !after_bind. unfold linked. cbn.
      intros _. apply Hg. left; exact Es.
    + apply (linked_of_link g); [reflexivity | exact Hg].
  - apply (linked_of_link g);
      [apply rtmp_send_video_frame_keeps_link | exact Hg].
  - apply (linked_of_link g); [apply rtmp_send_audio_keeps_link | exact Hg].
  - unfold rtmp_stop_streaming. rewrite !after_bind.
    cbn [get ret result after fst snd].
    destruct (state_eqb (state g) RTMP_STATE_STREAMING) eqn:Es.
    + apply state_eqb_eq in Es. unfold linked. cbn.
      intros _. apply Hg. right; exact Es.
    + exact Hg.
  - apply linked_off. right. apply rtmp_disconnect_state.
  - apply linked_off. left. apply rtmp_cleanup_state.
Qed.

Lemma reachable_linked (g : Session) : reachable g -> linked g.
Proof.
  induction 1 as [|op g Hr IH].
  - apply linked_off. left; reflexivity.
  - apply exec_linked; exact IH.
Qed.

(** C8: [rtmp_disconnect] on a connected session (state Connected or
    Streaming, reached by public operations).  The calls it makes begin with
    the end-of-stream signal [avcodec_send_frame(video, NULL)]; then, for
    each packet the encoder hands out, receive, rescale, write to the muxer
    and unref, up to the encoder's first negative answer; then
    [av_write_trailer]; and after the trailer only calls that close the
    transport or release an object.  So the trailer is written once, after
    the whole flush, never before or inside it. *)
Theorem C8_flush_before_trailer :
  forall (g : Session) (ff : FlushEnv),
    reachable g ->
    state g = RTMP_STATE_CONNECTED \/ state g = RTMP_STATE_STREAMING ->
    exists tail : list Call,
      calls (rtmp_disconnect ff g) =
        avcodec_send_frame Video None (f_send_frame ff)
        :: (flat_map (packet_calls Video) (flushed (f_received ff))
            ++ [avcodec_receive_packet Video (flush_end (f_received ff))])
        ++ av_write_trailer :: tail
      /\ flush_end (f_received ff) < 0
      /\ Forall is_flush
           (flat_map (packet_calls Video) (flushed (f_received ff))
            ++ [avcodec_receive_packet Video (flush_end (f_received ff))])
      /\ Forall is_release tail.
Proof.
  intros g ff Hr Hs.
  destruct (reachable_linked g Hr Hs) as [Hfc Hvc].
  destruct (format_ctx g) as [fc|] eqn:Efc; [clear Hfc|congruence].
  destruct (video_codec_ctx g) as [vc|] eqn:Evc; [clear Hvc|congruence].
  unfold rtmp_disconnect.
  rewrite calls_bind. cbn [get result after calls fst snd app].
  rewrite Efc. rewrite calls_bind.
  rewrite (calls_bind (if is_null _ then _ else _)).
  rewrite Evc. cbn [is_null].
  rewrite (calls_bind (call _)). cbn [call result after calls fst snd app].
  rewrite disconnect_flush_calls.
  rewrite (calls_bind (call av_write_trailer)).
  cbn [call result after calls fst snd].
  eexists. split; [|split; [apply flush_end_negative
                           |split; [apply flush_calls_are_flush|]]].
  - rewrite <- !app_assoc. cbn [app]. reflexivity.
  - apply Forall_app. split.
    + destruct (negb (flag_set (oformat_flags fc) AVFMT_NOFILE)); cbn;
        repeat constructor.
    + match goal with
      | |- Forall _ (calls (?m ?g0)) => generalize g0; change (emits is_release m)
      end.
      unfold free_swr, free_frame, free_codec_ctx. emit.
Qed.

Lemma g_streaming_reachable : reachable g_streaming.
Proof.
  assert (E : exec (StartStreaming 2000)
                (exec (Connect (Some "rtmp://host/stream") connect_ok)
                   (exec (InitSimple 4 2 30 2000 2 44100 2 128 init_ok) g_rtmp0))
              = g_streaming) by (vm_compute; reflexivity).
  rewrite <- E. repeat apply reachable_step. apply reachable_start.
Qed.

Lemma C8_flush_before_trailer_witness :
  reachable g_streaming /\
  (state g_streaming = RTMP_STATE_CONNECTED \/
   state g_streaming = RTMP_STATE_STREAMING) /\
  exists tail : list Call,
    calls (rtmp_disconnect flush_two_packets g_streaming) =
      avcodec_send_frame Video None 0
      :: (flat_map (packet_calls Video) (flushed (f_received flush_two_packets))
          ++ [avcodec_receive_packet Video
                (flush_end (f_received flush_two_packets))])
      ++ av_write_trailer :: tail
    /\ Forall is_release tail.
Proof.
  assert (Hs : state g_streaming = RTMP_STATE_CONNECTED \/
               state g_streaming = RTMP_STATE_STREAMING) by (right; reflexivity).
  destruct (C8_flush_before_trailer g_streaming flush_two_packets
              g_streaming_reachable Hs) as (tail & H1 & _ & _ & H4).
  split; [exact g_streaming_reachable|]. split; [exact Hs|].
  exists tail. split; [exact H1 | exact H4].
Defined.

(** ** C3: a connect that fails *)

(** C3 fails on the code.  On an Initialized session that holds no pipeline
    object, a connect whose header write fails returns
    [RTMP_ERROR_CONNECT_FAILED] in state Initialized, having released the
    output context and the video codec context only: the scaler, the video
    frame, and the audio codec context, audio frame and resampler allocated
    by this call are neither released nor dropped from the session. *)
Theorem C3_header_failure_keeps_allocations :
  no_pipeline g_initialized /\
  rtmp_connect (Some "rtmp://host/stream") connect_header_fails g_initialized =
    (RTMP_ERROR_CONNECT_FAILED,
     mkSession RTMP_STATE_INITIALIZED (config g_initialized)
       (mkMsg "Failed to write header: %s" [FErr (-5)])
       None None (Some 8%positive)
       (Some 3%positive) (Some 7%positive)
       (Some 6%positive) (Some 10%positive)
       (Some 5%positive) (Some 9%positive) (Some 1%positive)
       0 0 0 0 1,
     [avformat_alloc_output_context2 "rtmp://host/stream" 0;
      avcodec_find_encoder Video true;
      avformat_new_stream Video (Some 3%positive);
      avcodec_alloc_context3 Video (Some 4%positive);
      avcodec_open2 (H264 2000000 4 2 30 60 0 true) 0;
      avcodec_parameters_from_context Video 0;
      av_frame_alloc Video (Some 5%positive);
      av_frame_get_buffer Video 0;
      sws_getContext 4 2 (Some 6%positive);
      avcodec_find_encoder Audio true;
      avformat_new_stream Audio (Some 7%positive);
      avcodec_alloc_context3 Audio (Some 8%positive);
      avcodec_open2 (AAC 128000 44100 2 true) 0;
      avcodec_parameters_from_context Audio 0;
      av_frame_alloc Audio (Some 9%positive);
      av_frame_get_buffer Audio 0;
      swr_alloc (Some 10%positive);
      swr_init 0;
      avio_open2 "rtmp://host/stream" 0;
      avformat_write_header (-5);
      avio_closep;
      avcodec_free_context Video 4%positive;
      avformat_free_context 2%positive])
  /\
  ~ no_pipeline
      (after (rtmp_connect (Some "rtmp://host/stream") connect_header_fails
                g_initialized)).
Proof.
  split; [repeat split|]. split; [vm_compute; reflexivity|].
  intros (_ & _ & H & _). vm_compute in H. discriminate H.
Qed.

(** What does hold.  A connect that fails to create the output context
    calls nothing else and changes only the error message. *)
Lemma rtmp_connect_no_output_context
    (u : string) (ff : ConnectEnv) (g : Session) :
  u <> EmptyString -> state g = RTMP_STATE_INITIALIZED ->
  format_ctx g = None -> c_output_ret ff < 0 ->
  rtmp_connect (Some u) ff g =
    (RTMP_ERROR_INIT_FAILED,
     set_error_msg
       (mkMsg "Failed to create output context: %s" [FErr (c_output_ret ff)]) g,
     [avformat_alloc_output_context2 u (c_output_ret ff)]).
Proof.
  intros Hu Hs Hf Hr. unfold rtmp_connect.
  destruct u as [|c u]; [congruence|]. cbn [String.length Nat.eqb].
  apply state_eqb_eq in Hs. apply Z.ltb_lt in Hr.
  unfold bind at 1. cbn [get]. rewrite Hs. cbn [negb].
  unfold bind at 1. cbn [call]. unfold bind at 1. cbn [modify].
  unfold bind at 1. cbn [get]. rewrite Hr. cbn [format_ctx set_format_ctx].
  destruct g; cbn in *; subst. reflexivity.
Qed.

(** A video encoder set-up that fails leaves no codec context, frame or
    scaler behind. *)
Lemma init_video_encoder_unwinds (ff : VideoInitEnv) (g : Session) :
  video_codec_ctx g = None -> video_frame g = None -> sws_ctx g = None ->
  let r := init_video_encoder ff g in
  result r <> RTMP_SUCCESS ->
  video_codec_ctx (after r) = None /\ video_frame (after r) = None /\
  sws_ctx (after r) = None.
Proof.
  intros H1 H2 H3. cbn zeta. unfold init_video_encoder.
  destruct ff as [found st cx op pa fr gb sw]; cbn [v_find_encoder v_new_stream
    v_alloc_context3 v_open2 v_parameters_from_context v_frame_alloc
    v_frame_get_buffer v_sws_getContext].
  destruct found; [|cbn; intros _; repeat split; assumption].
  destruct st as [st|]; [|cbn; intros _; repeat split; assumption].
  destruct cx as [cx|]; [|cbn; intros _; repeat split; assumption].
  destruct (op <? 0);
    [rewrite !result_bind, !after_bind; cbn; intros _; repeat split; assumption|].
  destruct (pa <? 0);
    [rewrite !result_bind, !after_bind; cbn; intros _; repeat split; assumption|].
  destruct fr as [fr|];
    [|rewrite !result_bind, !after_bind; cbn; intros _; repeat split; assumption].
  destruct (gb <? 0);
    [rewrite !result_bind, !after_bind; cbn; intros _; repeat split; assumption|].
  destruct sw as [sw|]; rewrite !result_bind, !after_bind; cbn; intros H.
  - exfalso; apply H; reflexivity.
  - repeat split; assumption.
Qed.

(** * Further properties of the bridge *)

(** Lists of calls up to the association of [++]. *)
Ltac norm_app :=
  repeat first
    [ rewrite app_nil_r | rewrite <- app_assoc | progress cbn [app] ].

(** ** Teardown *)

Lemma disconnect_flush_run (script : list Received) (g : Session) :
  disconnect_flush script g =
    (tt, g,
     flat_map (packet_calls Video) (flushed script)
     ++ [avcodec_receive_packet Video (flush_end script)]).
Proof.
  revert g. induction script as [|r rest IH]; intros g.
  - reflexivity.
  - cbn [disconnect_flush flushed flush_end].
    unfold bind at 1. cbn [call].
    destruct (recv_ret r >=? 0); [|reflexivity].
    unfold bind at 1. cbn [call]. unfold bind at 1. cbn [call].
    unfold bind at 1. cbn [call]. rewrite IH. reflexivity.
Qed.

(** [rtmp_disconnect] in closed form. *)
Lemma rtmp_disconnect_run (ff : FlushEnv) (g : Session) :
  rtmp_disconnect ff g =
    (RTMP_SUCCESS, torn_down g, farewell ff g ++ releases g).
Proof.
  unfold rtmp_disconnect, farewell, releases, torn_down.
  destruct g as [st cf em fc vc ac vs as_ sw sr vf af pk bs fs df stt mi].
  cbn [format_ctx video_codec_ctx audio_codec_ctx video_stream audio_stream
       sws_ctx swr_ctx video_frame audio_frame packet state config error_msg
       bytes_sent frames_sent dropped_frames start_time mutex_initialized].
  destruct fc as [fc|], vc as [vc|], ac as [ac|], sw as [sw|], sr as [sr|],
           vf as [vf|], af as [af|];
    try (destruct (flag_set (oformat_flags fc) AVFMT_NOFILE) eqn:E);
    repeat (cbv -[flat_map flushed flush_end disconnect_flush flag_set
                  packet_calls app oformat_flags AVFMT_NOFILE ctx_addr];
            rewrite ?disconnect_flush_run, ?E);
    norm_app; reflexivity.
Qed.

(** X1: [rtmp_disconnect], in every state and whatever the session holds,
    returns [RTMP_SUCCESS], makes exactly one release call for each object
    the session holds (and none for an object it does not hold), and leaves
    a session with no pipeline object, in state Initialized, whose
    configuration, error message, packet buffer, statistics and start time
    are as before. *)
Theorem X1_disconnect_releases_what_is_held :
  forall (ff : FlushEnv) (g : Session),
    rtmp_disconnect ff g =
      (RTMP_SUCCESS, torn_down g, farewell ff g ++ releases g)
    /\ no_pipeline (after (rtmp_disconnect ff g))
    /\ Forall is_release (releases g).
Proof.
  intros ff g. rewrite rtmp_disconnect_run. split; [reflexivity|]. split.
  - repeat split.
  - unfold releases, opt_call.
    destruct (sws_ctx g), (swr_ctx g), (video_frame g), (audio_frame g),
      (video_codec_ctx g), (audio_codec_ctx g), (format_ctx g);
      cbn [app]; repeat constructor.
Qed.

(** X2: a second [rtmp_disconnect] does nothing: it makes no library call
    (no second trailer, no second release of anything) and leaves the
    session as the first one left it. *)
Theorem X2_disconnect_twice :
  forall (ff1 ff2 : FlushEnv) (g : Session),
    rtmp_disconnect ff2 (after (rtmp_disconnect ff1 g)) =
      (RTMP_SUCCESS, after (rtmp_disconnect ff1 g), []).
Proof.
  intros ff1 ff2 g. rewrite (rtmp_disconnect_run ff1 g).
  cbn [after fst snd]. rewrite rtmp_disconnect_run. reflexivity.
Qed.

Lemma rtmp_cleanup_run (ff : FlushEnv) (g : Session) :
  rtmp_cleanup ff g =
    (tt, cleaned_up g,
     farewell ff g ++ releases g ++ opt_call av_packet_free (packet g)).
Proof.
  unfold rtmp_cleanup. unfold bind at 1. rewrite rtmp_disconnect_run.
  unfold cleaned_up, free_packet, opt_call.
  destruct g as [st cf em fc vc ac vs as_ sw sr vf af pk bs fs df stt mi].
  destruct pk as [pk|]; cbv [bind get modify call ret is_null torn_down packet
    set_packet set_state state config error_msg format_ctx video_codec_ctx
    audio_codec_ctx video_stream audio_stream sws_ctx swr_ctx video_frame
    audio_frame bytes_sent frames_sent dropped_frames start_time
    mutex_initialized];
    norm_app; reflexivity.
Qed.

(** X3: [rtmp_cleanup], in every state, releases every object held and the
    packet buffer, each exactly once, and ends in state Idle with no
    pipeline object and no packet buffer; the configuration and the three
    statistics counters survive it. *)
Theorem X3_cleanup_releases_everything :
  forall (ff : FlushEnv) (g : Session),
    calls (rtmp_cleanup ff g) =
      farewell ff g ++ releases g ++ opt_call av_packet_free (packet g)
    /\ state (after (rtmp_cleanup ff g)) = RTMP_STATE_IDLE
    /\ no_pipeline (after (rtmp_cleanup ff g))
    /\ packet (after (rtmp_cleanup ff g)) = None
    /\ config (after (rtmp_cleanup ff g)) = config g
    /\ stats (after (rtmp_cleanup ff g)) = stats g.
Proof.
  intros ff g. rewrite rtmp_cleanup_run. cbn. repeat split.
Qed.

(** ** The encoder set-ups *)

Lemma init_video_encoder_keeps (ff : VideoInitEnv) :
  keeps beside_video (init_video_encoder ff).
Proof.
  unfold init_video_encoder, SET_ERROR, free_frame, free_codec_ctx. frame.
Qed.

Lemma init_audio_encoder_keeps (ff : AudioInitEnv) :
  keeps beside_audio (init_audio_encoder ff).
Proof.
  unfold init_audio_encoder, SET_ERROR, free_swr, free_frame, free_codec_ctx.
  frame.
Qed.

Ltac encoder_case :=
  rewrite ?result_bind, ?after_bind; cbn;
  repeat split; intros; try assumption; try discriminate;
  try (exfalso; congruence).

Lemma init_video_encoder_facts (ff : VideoInitEnv) (g : Session) :
  let r := init_video_encoder ff g in
  (result r = RTMP_SUCCESS ->
     video_codec_ctx (after r) <> None /\ video_stream (after r) <> None /\
     video_frame (after r) <> None /\ sws_ctx (after r) <> None)
  /\
  (result r <> RTMP_SUCCESS ->
     (video_codec_ctx g = None -> video_codec_ctx (after r) = None) /\
     (video_frame g = None -> video_frame (after r) = None) /\
     (sws_ctx g = None -> sws_ctx (after r) = None)).
Proof.
  cbn zeta. unfold init_video_encoder.
  destruct ff as [found st cx op pa fr gb sw]; cbn [v_find_encoder v_new_stream
    v_alloc_context3 v_open2 v_parameters_from_context v_frame_alloc
    v_frame_get_buffer v_sws_getContext].
  destruct found; [|encoder_case].
  destruct st as [st|]; [|encoder_case].
  destruct cx as [cx|]; [|encoder_case].
  destruct (op <? 0); [encoder_case|].
  destruct (pa <? 0); [encoder_case|].
  destruct fr as [fr|]; [|encoder_case].
  destruct (gb <? 0); [encoder_case|].
  destruct sw as [sw|]; encoder_case.
Qed.

Lemma init_audio_encoder_facts (ff : AudioInitEnv) (g : Session) :
  let r := init_audio_encoder ff g in
  (result r = RTMP_SUCCESS ->
     audio_codec_ctx (after r) <> None /\ audio_stream (after r) <> None /\
     audio_frame (after r) <> None /\ swr_ctx (after r) <> None)
  /\
  (result r <> RTMP_SUCCESS ->
     (audio_codec_ctx g = None -> audio_codec_ctx (after r) = None) /\
     (audio_frame g = None -> audio_frame (after r) = None) /\
     (swr_ctx g = None -> swr_ctx (after r) = None)).
Proof.
  cbn zeta. unfold init_audio_encoder.
  destruct ff as [found st cx op pa fr gb sa si]; cbn [a_find_encoder
    a_new_stream a_alloc_context3 a_open2 a_parameters_from_context
    a_frame_alloc a_frame_get_buffer a_swr_alloc a_swr_init].
  destruct found; [|encoder_case].
  destruct st as [st|]; [|encoder_case].
  destruct cx as [cx|]; [|encoder_case].
  destruct (op <? 0); [encoder_case|].
  destruct (pa <? 0); [encoder_case|].
  destruct fr as [fr|]; [|encoder_case].
  destruct (gb <? 0); [encoder_case|].
  destruct sa as [sa|]; [|encoder_case].
  destruct (si <? 0); encoder_case.
Qed.

(** ** rtmp_connect *)

Lemma free_codec_ctx_video_after (g : Session) :
  after (free_codec_ctx Video g) = set_video_codec_ctx None g.
Proof.
  destruct g as [st cf em fc vc ac vs as_ sw sr vf af pk bs fs df stt mi].
  destruct vc; reflexivity.
Qed.

Lemma rtmp_connect_run (u : string) (ff : ConnectEnv) (g : Session) :
  u <> EmptyString -> state g = RTMP_STATE_INITIALIZED ->
  (result (rtmp_connect (Some u) ff g), after (rtmp_connect (Some u) ff g))
  = connect_outcome u ff g.
Proof.
  intros Hu Hs. unfold rtmp_connect, connect_outcome, after_encoders, unwound.
  destruct u as [|c u]; [congruence|]. cbn [String.length Nat.eqb].
  set (url := String c u).
  apply state_eqb_eq in Hs.
  rewrite result_bind, after_bind. cbn [get result after fst snd].
  rewrite Hs. cbn [negb].
  rewrite !result_bind, !after_bind.
  cbn [call modify get result after fst snd format_ctx set_format_ctx].
  destruct (if c_output_ret ff <? 0 then None else c_output_ctx ff) as [fc|];
    [|rewrite !result_bind, !after_bind; reflexivity].
  rewrite !result_bind, !after_bind.
  remember (init_video_encoder (c_video ff) (set_format_ctx (Some fc) g))
    as rv eqn:Hrv. clear Hrv.
  destruct (negb (result rv =? RTMP_SUCCESS));
    [rewrite !result_bind, !after_bind; reflexivity|].
  rewrite !result_bind, !after_bind.
  remember (after (init_audio_encoder (c_audio ff) (after rv))) as g2 eqn:Hg2.
  clear Hg2.
  destruct (flag_set (oformat_flags fc) AVFMT_NOFILE); cbn [negb andb].
  - cbn [ret result after fst snd negb].
    rewrite !result_bind, !after_bind. cbn [call result after fst snd].
    destruct (c_write_header ff <? 0).
    + rewrite !result_bind, !after_bind.
      cbn [SET_ERROR call modify ret result after fst snd].
      rewrite free_codec_ctx_video_after. reflexivity.
    + rewrite !result_bind, !after_bind. reflexivity.
  - rewrite !result_bind, !after_bind. cbn [call result after fst snd].
    destruct (c_avio_open2 ff <? 0).
    + rewrite !result_bind, !after_bind.
      cbn [SET_ERROR call modify ret result after fst snd negb].
      rewrite ?result_bind, ?after_bind.
      cbn [SET_ERROR call modify ret result after fst snd negb].
      rewrite free_codec_ctx_video_after. reflexivity.
    + cbn [ret result after fst snd negb].
      rewrite !result_bind, !after_bind. cbn [call result after fst snd].
      destruct (c_write_header ff <? 0).
      * rewrite !result_bind, !after_bind.
        cbn [SET_ERROR call modify ret result after fst snd].
        rewrite free_codec_ctx_video_after. reflexivity.
      * rewrite !result_bind, !after_bind. reflexivity.
Qed.

Lemma rtmp_connect_keeps_settings (url : option string) (ff : ConnectEnv) :
  keeps (fun g => (settings g, stats g)) (rtmp_connect url ff).
Proof.
  assert (keeps (fun g => (settings g, stats g))
            (init_video_encoder (c_video ff))).
  { unfold init_video_encoder, SET_ERROR, free_frame, free_codec_ctx. frame. }
  assert (keeps (fun g => (settings g, stats g))
            (init_audio_encoder (c_audio ff))).
  { unfold init_audio_encoder, SET_ERROR, free_swr, free_frame, free_codec_ctx.
    frame. }
  unfold rtmp_connect, SET_ERROR, free_codec_ctx. frame.
Qed.

(** [rtmp_connect] with an unusable URL or in the wrong state: only the
    error message changes. *)
Lemma rtmp_connect_rejected (url : option string) (ff : ConnectEnv) (g : Session) :
  url = None \/ url = Some EmptyString \/ state g <> RTMP_STATE_INITIALIZED ->
  exists code m,
    rtmp_connect url ff g = (code, set_error_msg m g, []) /\
    (code = RTMP_ERROR_INVALID_PARAMS \/ code = RTMP_ERROR_NOT_CONNECTED).
Proof.
  intros H. destruct url as [u|].
  - destruct u as [|c u].
    + do 2 eexists. split; [reflexivity|]. left; reflexivity.
    + destruct H as [H|[H|H]]; try discriminate.
      do 2 eexists. split.
      * apply rtmp_connect_wrong_state; [discriminate | exact H].
      * right; reflexivity.
  - do 2 eexists. split; [reflexivity|]. left; reflexivity.
Qed.

Lemma rtmp_connect_cases (url : option string) (ff : ConnectEnv) (g : Session) :
  let r := rtmp_connect url ff g in
  (result r = RTMP_SUCCESS /\
   state g = RTMP_STATE_INITIALIZED /\
   state (after r) = RTMP_STATE_CONNECTED /\
   start_time (after r) = c_time ff /\
   format_ctx (after r) <> None /\
   video_codec_ctx (after r) <> None /\ video_stream (after r) <> None /\
   video_frame (after r) <> None /\ sws_ctx (after r) <> None /\
   (audio_absent g -> audio_absent (after r) \/ audio_complete (after r)))
  \/
  (result r <> RTMP_SUCCESS /\
   state (after r) = state g /\
   start_time (after r) = start_time g /\
   (format_ctx g = None -> format_ctx (after r) = None) /\
   (video_codec_ctx g = None -> video_codec_ctx (after r) = None)).
Proof.
  cbn zeta.
  assert (Hrej : url = None \/ url = Some EmptyString \/
                 state g <> RTMP_STATE_INITIALIZED ->
                 result (rtmp_connect url ff g) <> RTMP_SUCCESS /\
                 state (after (rtmp_connect url ff g)) = state g /\
                 start_time (after (rtmp_connect url ff g)) = start_time g /\
                 (format_ctx g = None ->
                  format_ctx (after (rtmp_connect url ff g)) = None) /\
                 (video_codec_ctx g = None ->
                  video_codec_ctx (after (rtmp_connect url ff g)) = None)).
  { intros H. destruct (rtmp_connect_rejected url ff g H) as (code & m & E & Hc).
    rewrite E. cbn. split; [|repeat split; intros; assumption].
    destruct Hc as [Hc|Hc]; rewrite Hc; discriminate. }
  destruct url as [u|]; [|right; apply Hrej; left; reflexivity].
  destruct u as [|c u]; [right; apply Hrej; right; left; reflexivity|].
  destruct (state_eqb (state g) RTMP_STATE_INITIALIZED) eqn:Es;
    [|right; apply Hrej; right; right; apply state_eqb_neq; exact Es].
  apply state_eqb_eq in Es. clear Hrej.
  pose proof (rtmp_connect_run (String c u) ff g ltac:(discriminate) Es) as Hrun.
  set (r := rtmp_connect (Some (String c u)) ff g) in *.
  pose proof (f_equal fst Hrun) as Hres. pose proof (f_equal snd Hrun) as Haft.
  cbn [fst snd] in Hres, Haft. clear Hrun. revert Hres Haft.
  unfold connect_outcome, after_encoders, unwound.
  destruct (if c_output_ret ff <? 0 then None else c_output_ctx ff) as [fc|].
  2:{ intros Hres Haft. right. rewrite Hres, Haft. cbn.
      split; [discriminate|]. repeat split; intros; try assumption; reflexivity. }
  pose proof (init_video_encoder_keeps (c_video ff) (set_format_ctx (Some fc) g))
    as Kv.
  destruct (init_video_encoder_facts (c_video ff) (set_format_ctx (Some fc) g))
    as [Vok Vbad]. cbn zeta in Vok, Vbad.
  remember (init_video_encoder (c_video ff) (set_format_ctx (Some fc) g))
    as rv eqn:Hrv. clear Hrv.
  unfold beside_video in Kv. cbn in Kv.
  injection Kv as K1 K2 K3 K4 K5 K6 K7 K8 K9 K10 K11.
  destruct (result rv =? RTMP_SUCCESS) eqn:Er; cbn [negb].
  2:{ intros Hres Haft. right. rewrite Hres, Haft. cbn.
      apply Z.eqb_neq in Er. destruct (Vbad Er) as (B1 & _ & _).
      split; [exact Er|]. split; [congruence|]. split; [congruence|].
      split; [reflexivity|]. intros Hv. apply B1. exact Hv. }
  apply Z.eqb_eq in Er. destruct (Vok Er) as (V1 & V2 & V3 & V4).
  pose proof (init_audio_encoder_keeps (c_audio ff) (after rv)) as Ka.
  destruct (init_audio_encoder_facts (c_audio ff) (after rv)) as [Aok Abad].
  cbn zeta in Aok, Abad.
  remember (init_audio_encoder (c_audio ff) (after rv)) as ra eqn:Hra.
  clear Hra.
  unfold beside_audio in Ka.
  injection Ka as A1 A2 A3 A4 A5 A6 A7 A8 A9 A10 A11.
  assert (Haudio : audio_absent g ->
                   audio_absent (after ra) \/ audio_complete (after ra)).
  { intros (G1 & G2 & G3).
    destruct (Z.eq_dec (result ra) RTMP_SUCCESS) as [Ea|Ea].
    - right. exact (Aok Ea).
    - left. destruct (Abad Ea) as (B1 & B2 & B3).
      split; [apply B1; congruence|]. split; [apply B2|apply B3]; congruence. }
  assert (Hfail : forall m,
            state (set_format_ctx None
                     (set_video_codec_ctx None (set_error_msg m (after ra))))
              = state g /\
            start_time (set_format_ctx None
                     (set_video_codec_ctx None (set_error_msg m (after ra))))
              = start_time g).
  { intros m. cbn. split; congruence. }
  destruct (negb (flag_set (oformat_flags fc) AVFMT_NOFILE)
            && (c_avio_open2 ff <? 0)).
  { intros Hres Haft. right. rewrite Hres, Haft.
    split; [discriminate|]. destruct (Hfail (mkMsg "Failed to open connection to %s: %s"
                  [FStr (String c u); FErr (c_avio_open2 ff)])) as [F1 F2].
    split; [exact F1|]. split; [exact F2|]. split; intros; reflexivity. }
  destruct (c_write_header ff <? 0).
  { intros Hres Haft. right. rewrite Hres, Haft.
    split; [discriminate|]. destruct (Hfail (mkMsg "Failed to write header: %s"
                  [FErr (c_write_header ff)])) as [F1 F2].
    split; [exact F1|]. split; [exact F2|]. split; intros; reflexivity. }
  intros Hres Haft. left. rewrite Hres, Haft. cbn.
  split; [reflexivity|]. split; [exact Es|]. split; [reflexivity|].
  split; [reflexivity|].
  split; [rewrite A3, K3; discriminate|].
  split; [congruence|]. split; [congruence|]. split; [congruence|].
  split; [congruence|].
  intros Hg. destruct (Haudio Hg) as [Ha|Ha]; [left|right]; exact Ha.
Qed.

(** X4: a [rtmp_connect] that returns [RTMP_SUCCESS] was called in state
    Initialized and leaves state Connected with the output context, the
    video codec context, the video stream, the video frame and the scaler
    all present and the start time taken from the clock; the configuration,
    the packet buffer and the statistics are not touched. *)
Theorem X4_connect_success :
  forall (url : option string) (ff : ConnectEnv) (g : Session),
    result (rtmp_connect url ff g) = RTMP_SUCCESS ->
    state g = RTMP_STATE_INITIALIZED /\
    state (after (rtmp_connect url ff g)) = RTMP_STATE_CONNECTED /\
    start_time (after (rtmp_connect url ff g)) = c_time ff /\
    format_ctx (after (rtmp_connect url ff g)) <> None /\
    video_codec_ctx (after (rtmp_connect url ff g)) <> None /\
    video_stream (after (rtmp_connect url ff g)) <> None /\
    video_frame (after (rtmp_connect url ff g)) <> None /\
    sws_ctx (after (rtmp_connect url ff g)) <> None /\
    settings (after (rtmp_connect url ff g)) = settings g /\
    stats (after (rtmp_connect url ff g)) = stats g.
Proof.
  intros url ff g Hok.
  pose proof (rtmp_connect_keeps_settings url ff g) as K. cbn beta in K.
  pose proof (f_equal fst K) as K1. pose proof (f_equal snd K) as K2.
  cbn [fst snd] in K1, K2. clear K.
  destruct (rtmp_connect_cases url ff g) as [H|H]; cbn zeta in H.
  - destruct H as (_ & H1 & H2 & H3 & H4 & H5 & H6 & H7 & H8 & _).
    repeat (split; [assumption|]). assumption.
  - destruct H as (Hbad & _). contradiction.
Qed.

Lemma X4_connect_success_witness :
  result (rtmp_connect (Some "rtmp://host/stream") connect_ok g_initialized)
    = RTMP_SUCCESS /\
  state (after (rtmp_connect (Some "rtmp://host/stream") connect_ok
                  g_initialized)) = RTMP_STATE_CONNECTED /\
  sws_ctx (after (rtmp_connect (Some "rtmp://host/stream") connect_ok
                    g_initialized)) <> None.
Proof.
  assert (H : result (rtmp_connect (Some "rtmp://host/stream") connect_ok
                        g_initialized) = RTMP_SUCCESS)
    by (vm_compute; reflexivity).
  destruct (X4_connect_success (Some "rtmp://host/stream") connect_ok
              g_initialized H) as (_ & H2 & _ & _ & _ & _ & _ & H8 & _).
  split; [exact H|]. split; [exact H2 | exact H8].
Defined.

(** X5: a [rtmp_connect] that does not return [RTMP_SUCCESS] leaves the
    state, the start time, the configuration, the packet buffer and the
    statistics as they were, whatever the state and the argument; and if
    the session had no output context (no video codec context) before, it
    has none after. *)
Theorem X5_connect_failure :
  forall (url : option string) (ff : ConnectEnv) (g : Session),
    result (rtmp_connect url ff g) <> RTMP_SUCCESS ->
    state (after (rtmp_connect url ff g)) = state g /\
    start_time (after (rtmp_connect url ff g)) = start_time g /\
    settings (after (rtmp_connect url ff g)) = settings g /\
    stats (after (rtmp_connect url ff g)) = stats g /\
    (format_ctx g = None ->
     format_ctx (after (rtmp_connect url ff g)) = None) /\
    (video_codec_ctx g = None ->
     video_codec_ctx (after (rtmp_connect url ff g)) = None).
Proof.
  intros url ff g Hbad.
  pose proof (rtmp_connect_keeps_settings url ff g) as K. cbn beta in K.
  pose proof (f_equal fst K) as K1. pose proof (f_equal snd K) as K2.
  cbn [fst snd] in K1, K2. clear K.
  destruct (rtmp_connect_cases url ff g) as [H|H]; cbn zeta in H.
  - destruct H as (Hok & _). contradiction.
  - destruct H as (_ & H1 & H2 & H3 & H4).
    repeat (split; [assumption|]). assumption.
Qed.

Lemma X5_connect_failure_witness :
  result (rtmp_connect (Some "rtmp://host/stream") connect_header_fails
            g_initialized) <> RTMP_SUCCESS /\
  state (after (rtmp_connect (Some "rtmp://host/stream") connect_header_fails
                  g_initialized)) = state g_initialized /\
  format_ctx g_initialized = None /\
  format_ctx (after (rtmp_connect (Some "rtmp://host/stream")
                       connect_header_fails g_initialized)) = None.
Proof.
  assert (H : result (rtmp_connect (Some "rtmp://host/stream")
                        connect_header_fails g_initialized) <> RTMP_SUCCESS)
    by (vm_compute; discriminate).
  destruct (X5_connect_failure (Some "rtmp://host/stream") connect_header_fails
              g_initialized H) as (H1 & _ & _ & _ & H5 & _).
  split; [exact H|]. split; [exact H1|]. split; [reflexivity|].
  exact (H5 eq_refl).
Defined.

Lemma beside_audio_unwound (m : ErrorMsg) (g g' : Session) :
  beside_audio g = beside_audio g' ->
  beside_audio (unwound m g) = beside_audio (unwound m g').
Proof.
  unfold beside_audio, unwound, stats. intros H. destruct g, g'. cbn in *.
  injection H; intros; subst; reflexivity.
Qed.

Lemma beside_audio_connected (t : Z) (g g' : Session) :
  beside_audio g = beside_audio g' ->
  beside_audio (set_state RTMP_STATE_CONNECTED (set_start_time t g))
  = beside_audio (set_state RTMP_STATE_CONNECTED (set_start_time t g')).
Proof.
  unfold beside_audio, stats. intros H. destruct g, g'. cbn in *.
  injection H; intros; subst; reflexivity.
Qed.

Lemma after_encoders_beside_audio (fc : AVFormatContext) (ff : ConnectEnv)
    (a : AudioInitEnv) (g : Session) :
  beside_audio (after_encoders fc (with_audio a ff) g)
  = beside_audio (after_encoders fc ff g).
Proof.
  unfold after_encoders. cbn [with_audio c_audio c_video].
  rewrite (init_audio_encoder_keeps a), (init_audio_encoder_keeps (c_audio ff)).
  reflexivity.
Qed.

Lemma connect_outcome_with_audio (u : string) (ff : ConnectEnv)
    (a : AudioInitEnv) (g : Session) :
  fst (connect_outcome u (with_audio a ff) g) = fst (connect_outcome u ff g) /\
  beside_audio (snd (connect_outcome u (with_audio a ff) g))
  = beside_audio (snd (connect_outcome u ff g)).
Proof.
  pose proof (fun fc => after_encoders_beside_audio fc ff a g) as E.
  unfold connect_outcome.
  cbn [with_audio c_output_ret c_output_ctx c_video c_avio_open2
       c_write_header c_time].
  destruct (if c_output_ret ff <? 0 then None else c_output_ctx ff) as [fc|];
    [|split; reflexivity].
  cbv zeta.
  destruct (negb (result (init_video_encoder (c_video ff)
                            (set_format_ctx (Some fc) g)) =? RTMP_SUCCESS));
    [split; reflexivity|].
  destruct (negb (flag_set (oformat_flags fc) AVFMT_NOFILE)
            && (c_avio_open2 ff <? 0)).
  { split; [reflexivity|]. cbn [snd]. apply beside_audio_unwound, E. }
  destruct (c_write_header ff <? 0).
  { split; [reflexivity|]. cbn [snd]. apply beside_audio_unwound, E. }
  split; [reflexivity|]. cbn [snd]. apply beside_audio_connected, E.
Qed.

(** X6: the audio set-up never decides a connect.  Whatever the audio
    encoder set-up meets (no AAC encoder, a failed allocation, a failed
    open), [rtmp_connect] returns the same code and leaves the same state,
    output context, video objects, statistics, start time and settings as
    with any other course of the audio set-up: only the audio objects and
    the error message can differ. *)
Theorem X6_audio_setup_never_decides_connect :
  forall (url : option string) (ff : ConnectEnv) (a : AudioInitEnv)
         (g : Session),
    result (rtmp_connect url (with_audio a ff) g)
    = result (rtmp_connect url ff g) /\
    beside_audio (after (rtmp_connect url (with_audio a ff) g))
    = beside_audio (after (rtmp_connect url ff g)).
Proof.
  intros url ff a g.
  destruct url as [[|c u]|]; [split; reflexivity| |split; reflexivity].
  destruct (state_eqb (state g) RTMP_STATE_INITIALIZED) eqn:Es.
  - apply state_eqb_eq in Es.
    assert (Hu : String c u <> EmptyString) by discriminate.
    pose proof (rtmp_connect_run (String c u) ff g Hu Es) as R1.
    pose proof (rtmp_connect_run (String c u) (with_audio a ff) g Hu Es) as R2.
    destruct (connect_outcome_with_audio (String c u) ff a g) as [O1 O2].
    rewrite <- R1, <- R2 in O1, O2. cbn [fst snd] in O1, O2.
    split; assumption.
  - apply state_eqb_neq in Es.
    assert (Hu : String c u <> EmptyString) by discriminate.
    rewrite !(rtmp_connect_wrong_state _ _ _ Hu Es). split; reflexivity.
Qed.

Lemma init_audio_encoder_stream (ff : AudioInitEnv) (g : Session) :
  audio_stream (after (init_audio_encoder ff g)) = audio_stream_left ff g.
Proof.
  unfold init_audio_encoder, audio_stream_left.
  destruct ff as [found st cx op pa fr gb sa si]; cbn [a_find_encoder
    a_new_stream a_alloc_context3 a_open2 a_parameters_from_context
    a_frame_alloc a_frame_get_buffer a_swr_alloc a_swr_init].
  destruct found; [|reflexivity].
  destruct st as [st|]; [|reflexivity].
  destruct cx as [cx|]; [|reflexivity].
  destruct (op <? 0); [rewrite !after_bind; reflexivity|].
  destruct (pa <? 0); [rewrite !after_bind; reflexivity|].
  destruct fr as [fr|]; [|rewrite !after_bind; reflexivity].
  destruct (gb <? 0); [rewrite !after_bind; reflexivity|].
  destruct sa as [sa|]; [|rewrite !after_bind; reflexivity].
  destruct (si <? 0); rewrite !after_bind; reflexivity.
Qed.

Lemma after_encoders_audio_stream
    (fc : AVFormatContext) (ff : ConnectEnv) (g : Session) :
  audio_stream (after_encoders fc ff g) = audio_stream_left (c_audio ff) g.
Proof.
  unfold after_encoders. rewrite init_audio_encoder_stream.
  unfold audio_stream_left. destruct (a_find_encoder (c_audio ff));
    [reflexivity|].
  pose proof (init_video_encoder_keeps (c_video ff)
                (set_format_ctx (Some fc) g)) as K.
  exact (f_equal (fun t => snd (fst (fst (snd t)))) K).
Qed.

Lemma rtmp_connect_audio_stream
    (url : option string) (ff : ConnectEnv) (g : Session) :
  result (rtmp_connect url ff g) = RTMP_SUCCESS ->
  audio_stream (after (rtmp_connect url ff g))
  = audio_stream_left (c_audio ff) g.
Proof.
  intros Hok.
  destruct (rtmp_connect_cases url ff g) as [H|H]; cbn zeta in H;
    [|destruct H as (Hbad & _); contradiction].
  destruct H as (_ & Hs & _).
  destruct url as [[|c u]|]; [discriminate Hok | | discriminate Hok].
  assert (Hu : String c u <> EmptyString) by discriminate.
  pose proof (rtmp_connect_run (String c u) ff g Hu Hs) as R.
  pose proof (f_equal fst R) as R1. pose proof (f_equal snd R) as R2.
  cbn [fst snd] in R1, R2. rewrite Hok in R1. rewrite R2. clear R R2.
  revert R1. unfold connect_outcome.
  destruct (if c_output_ret ff <? 0 then None else c_output_ctx ff) as [fc|];
    [|cbn [fst snd]; intros R1; discriminate R1].
  cbv zeta.
  destruct (negb (result (init_video_encoder (c_video ff)
                            (set_format_ctx (Some fc) g)) =? RTMP_SUCCESS))
    eqn:Ev.
  { cbn [fst snd]. intros R1. rewrite <- R1 in Ev.
    rewrite Z.eqb_refl in Ev. discriminate Ev. }
  destruct (negb (flag_set (oformat_flags fc) AVFMT_NOFILE)
            && (c_avio_open2 ff <? 0));
    [cbn [fst snd]; intros R1; discriminate R1|].
  destruct (c_write_header ff <? 0);
    [cbn [fst snd]; intros R1; discriminate R1|].
  intros _. cbn [snd]. apply (after_encoders_audio_stream fc ff g).
Qed.

(** X7: after a successful connect on a session that held no audio codec
    context, audio frame or resampler, the audio pipeline is all there
    (codec context, stream, frame and resampler) or the codec context, the
    frame and the resampler are all NULL: of these three
    [init_audio_encoder] unwinds what it allocated when a later step of it
    fails.  The audio stream is not unwound: whether or not the set-up
    succeeds, the session keeps the stream [avformat_new_stream] answered
    (the previous pointer when there is no AAC encoder), so a set-up that
    fails after the stream was created leaves [audio_stream] set beside a
    NULL codec context. *)
Theorem X7_audio_all_or_none_but_the_stream :
  forall (url : option string) (ff : ConnectEnv) (g : Session),
    result (rtmp_connect url ff g) = RTMP_SUCCESS ->
    audio_absent g ->
    audio_stream (after (rtmp_connect url ff g))
    = audio_stream_left (c_audio ff) g /\
    (audio_complete (after (rtmp_connect url ff g)) \/
     audio_absent (after (rtmp_connect url ff g))).
Proof.
  intros url ff g Hok Habs.
  split; [exact (rtmp_connect_audio_stream url ff g Hok)|].
  destruct (rtmp_connect_cases url ff g) as [H|H]; cbn zeta in H.
  - destruct H as (_ & _ & _ & _ & _ & _ & _ & _ & _ & H).
    destruct (H Habs) as [A|A]; [right | left]; exact A.
  - destruct H as (Hbad & _). contradiction.
Qed.

Lemma X7_audio_all_or_none_but_the_stream_witness :
  result (rtmp_connect (Some "rtmp://host/stream") connect_audio_open_fails
            g_initialized) = RTMP_SUCCESS /\
  audio_absent g_initialized /\
  audio_stream (after (rtmp_connect (Some "rtmp://host/stream")
                         connect_audio_open_fails g_initialized))
  = Some 7%positive /\
  audio_codec_ctx (after (rtmp_connect (Some "rtmp://host/stream")
                            connect_audio_open_fails g_initialized)) = None.
Proof.
  assert (H : result (rtmp_connect (Some "rtmp://host/stream")
                        connect_audio_open_fails g_initialized) = RTMP_SUCCESS)
    by (vm_compute; reflexivity).
  assert (Ha : audio_absent g_initialized)
    by (unfold audio_absent; repeat split; reflexivity).
  destruct (X7_audio_all_or_none_but_the_stream (Some "rtmp://host/stream")
              connect_audio_open_fails g_initialized H Ha) as [Hst _].
  split; [exact H|]. split; [exact Ha|]. split; [exact Hst|].
  vm_compute. reflexivity.
Defined.

(** ** Initialize over a live session *)

Lemma valid_video_params (w h f b : Z) :
  0 < w -> 0 < h -> 0 < f -> 0 < b ->
  (w <=? 0) || (h <=? 0) || (f <=? 0) || (b <=? 0) = false.
Proof.
  intros Hw Hh Hf Hb.
  destruct (Z.leb_spec w 0); [lia|]. destruct (Z.leb_spec h 0); [lia|].
  destruct (Z.leb_spec f 0); [lia|]. destruct (Z.leb_spec b 0); [lia|].
  reflexivity.
Qed.

Lemma armed_view (g : Session) :
  state (armed g) = state g /\ packet (armed g) = packet g /\
  (forall ff, farewell ff (armed g) = farewell ff g) /\
  releases (armed g) = releases g.
Proof.
  unfold armed. destruct (mutex_initialized g =? 0); repeat split.
Qed.

Lemma rtmp_init_simple_idle
    (w h f b k sr ch ab : Z) (ff : InitEnv) (g : Session) :
  0 < w -> 0 < h -> 0 < f -> 0 < b -> state g = RTMP_STATE_IDLE ->
  rtmp_init_simple w h f b k sr ch ab ff g =
    (init_code (i_packet_alloc ff),
     init_session (stored_config w h f b k sr ch ab) (i_packet_alloc ff)
       (armed g),
     [av_packet_alloc (i_packet_alloc ff)]).
Proof.
  intros Hw Hh Hf Hb Hs. unfold rtmp_init_simple.
  rewrite (valid_video_params w h f b Hw Hh Hf Hb).
  unfold armed, init_code, init_session, stored_config, default_to.
  apply state_eqb_eq in Hs.
  destruct (i_packet_alloc ff) as [p|]; destruct (mutex_initialized g =? 0) eqn:Em;
    cbv [bind get modify call ret SET_ERROR is_null];
    rewrite ?Em; cbn [state set_mutex_initialized]; rewrite ?Hs;
    reflexivity.
Qed.

Lemma rtmp_init_simple_live
    (w h f b k sr ch ab : Z) (ff : InitEnv) (g : Session) :
  0 < w -> 0 < h -> 0 < f -> 0 < b -> state g <> RTMP_STATE_IDLE ->
  rtmp_init_simple w h f b k sr ch ab ff g =
    (init_code (i_packet_alloc ff),
     init_session (stored_config w h f b k sr ch ab) (i_packet_alloc ff)
       (cleaned_up (armed g)),
     farewell (i_flush ff) g ++ releases g
     ++ opt_call av_packet_free (packet g)
     ++ [av_packet_alloc (i_packet_alloc ff)]).
Proof.
  intros Hw Hh Hf Hb Hs. unfold rtmp_init_simple.
  rewrite (valid_video_params w h f b Hw Hh Hf Hb).
  destruct (armed_view g) as (_ & Hp & Hf' & Hr).
  rewrite <- Hp, <- (Hf' (i_flush ff)), <- Hr. clear Hp Hf' Hr.
  unfold armed, init_code, init_session, stored_config, default_to.
  apply state_eqb_neq in Hs.
  destruct (i_packet_alloc ff) as [p|]; destruct (mutex_initialized g =? 0) eqn:Em;
    cbv [bind get modify call ret SET_ERROR is_null];
    rewrite ?Em; cbn [state set_mutex_initialized]; rewrite ?Hs; cbn [negb];
    rewrite rtmp_cleanup_run; cbn [app]; norm_app; reflexivity.
Qed.

(** X8: initialize over a live session.  With valid video parameters and a
    session that is not Idle, [rtmp_init_simple] first does what
    [rtmp_cleanup] does (flush, trailer and transport close if there is an
    output context; one release call for every object held; the packet
    buffer freed) and only then allocates the new packet buffer.  After it no
    pipeline object is held, the packet buffer is the new one and the three
    counters are zero.  If the allocation fails the call returns
    [RTMP_ERROR_ALLOC_FAILED] and the session is Idle: the previous session
    is gone either way. *)
Theorem X8_init_over_live_session :
  forall (w h f b k sr ch ab : Z) (ff : InitEnv) (g : Session),
    0 < w -> 0 < h -> 0 < f -> 0 < b -> state g <> RTMP_STATE_IDLE ->
    let r := rtmp_init_simple w h f b k sr ch ab ff g in
    calls r = farewell (i_flush ff) g ++ releases g
              ++ opt_call av_packet_free (packet g)
              ++ [av_packet_alloc (i_packet_alloc ff)] /\
    no_pipeline (after r) /\
    packet (after r) = i_packet_alloc ff /\
    stats (after r) = (0, 0, 0) /\
    (i_packet_alloc ff = None ->
     result r = RTMP_ERROR_ALLOC_FAILED /\ state (after r) = RTMP_STATE_IDLE).
Proof.
  intros w h f b k sr ch ab ff g Hw Hh Hf Hb Hs r. subst r.
  rewrite (rtmp_init_simple_live w h f b k sr ch ab ff g Hw Hh Hf Hb Hs).
  cbn [calls result after fst snd]. split; [reflexivity|].
  unfold init_session, init_code, no_pipeline.
  destruct (i_packet_alloc ff) as [p|]; cbn; repeat split; discriminate.
Qed.

Lemma X8_init_over_live_session_witness :
  state g_streaming <> RTMP_STATE_IDLE /\
  no_pipeline (after (rtmp_init_simple 4 2 30 2000 0 0 0 0 init_ok g_streaming))
  /\
  stats (after (rtmp_init_simple 4 2 30 2000 0 0 0 0 init_ok g_streaming))
    = (0, 0, 0).
Proof.
  assert (Hs : state g_streaming <> RTMP_STATE_IDLE) by discriminate.
  destruct (X8_init_over_live_session 4 2 30 2000 0 0 0 0 init_ok g_streaming
              ltac:(lia) ltac:(lia) ltac:(lia) ltac:(lia) Hs)
    as (_ & H2 & _ & H4 & _).
  split; [exact Hs|]. split; [exact H2 | exact H4].
Defined.

(** ** The state machine *)

Lemma rtmp_init_simple_cases
    (w h f b k sr ch ab : Z) (ff : InitEnv) (g : Session) :
  (exists m, rtmp_init_simple w h f b k sr ch ab ff g
             = (RTMP_ERROR_INVALID_PARAMS, set_error_msg m g, []))
  \/ (state g = RTMP_STATE_IDLE /\
      rtmp_init_simple w h f b k sr ch ab ff g =
        (init_code (i_packet_alloc ff),
         init_session (stored_config w h f b k sr ch ab) (i_packet_alloc ff)
           (armed g),
         [av_packet_alloc (i_packet_alloc ff)]))
  \/ (state g <> RTMP_STATE_IDLE /\
      rtmp_init_simple w h f b k sr ch ab ff g =
        (init_code (i_packet_alloc ff),
         init_session (stored_config w h f b k sr ch ab) (i_packet_alloc ff)
           (cleaned_up (armed g)),
         farewell (i_flush ff) g ++ releases g
         ++ opt_call av_packet_free (packet g)
         ++ [av_packet_alloc (i_packet_alloc ff)])).
Proof.
  destruct ((w <=? 0) || (h <=? 0) || (f <=? 0) || (b <=? 0)) eqn:E.
  - left. unfold rtmp_init_simple. rewrite E. eexists. reflexivity.
  - right.
    apply Bool.orb_false_iff in E; destruct E as [E Hb].
    apply Bool.orb_false_iff in E; destruct E as [E Hf].
    apply Bool.orb_false_iff in E; destruct E as [Hw Hh].
    apply Z.leb_gt in Hw, Hh, Hf, Hb.
    destruct (state_eqb (state g) RTMP_STATE_IDLE) eqn:Es.
    + left. apply state_eqb_eq in Es. split; [exact Es|].
      apply rtmp_init_simple_idle; assumption.
    + right. apply state_eqb_neq in Es. split; [exact Es|].
      apply rtmp_init_simple_live; assumption.
Qed.

Lemma rtmp_init_cases (c : option RTMPConfig) (ff : InitEnv) (g : Session) :
  (exists m, rtmp_init c ff g
             = (RTMP_ERROR_INVALID_PARAMS, set_error_msg m g, []))
  \/ (exists cfg,
        state g = RTMP_STATE_IDLE /\
        rtmp_init c ff g =
          (init_code (i_packet_alloc ff),
           init_session cfg (i_packet_alloc ff) (armed g),
           [av_packet_alloc (i_packet_alloc ff)]))
  \/ (exists cfg,
        state g <> RTMP_STATE_IDLE /\
        rtmp_init c ff g =
          (init_code (i_packet_alloc ff),
           init_session cfg (i_packet_alloc ff) (cleaned_up (armed g)),
           farewell (i_flush ff) g ++ releases g
           ++ opt_call av_packet_free (packet g)
           ++ [av_packet_alloc (i_packet_alloc ff)])).
Proof.
  destruct c as [c|].
  - rewrite rtmp_init_fields.
    destruct (rtmp_init_simple_cases (width c) (height c) (fps c)
                (bitrate_kbps c) (keyframe_interval c) (audio_sample_rate c)
                (audio_channels c) (audio_bitrate_kbps c) ff g)
      as [H|[[Hs H]|[Hs H]]].
    + left. exact H.
    + right; left. eexists. split; [exact Hs | exact H].
    + right; right. eexists. split; [exact Hs | exact H].
  - left. eexists. reflexivity.
Qed.

Lemma init_session_state (c : RTMPConfig) (p : option handle) (g : Session) :
  state (init_session c p g)
  = if is_null p then state g else RTMP_STATE_INITIALIZED.
Proof. unfold init_session. destruct p; reflexivity. Qed.

Lemma armed_state (g : Session) : state (armed g) = state g.
Proof. unfold armed. destruct (mutex_initialized g =? 0); reflexivity. Qed.

Lemma rtmp_init_state (c : option RTMPConfig) (ff : InitEnv) (g : Session) :
  state (after (rtmp_init c ff g)) = state g \/
  state (after (rtmp_init c ff g)) = RTMP_STATE_INITIALIZED \/
  state (after (rtmp_init c ff g)) = RTMP_STATE_IDLE.
Proof.
  destruct (rtmp_init_cases c ff g) as [[m H]|[(cfg & Hs & H)|(cfg & Hs & H)]];
    rewrite H; cbn [after fst snd].
  - left; reflexivity.
  - rewrite init_session_state, armed_state.
    destruct (is_null (i_packet_alloc ff)); [left | right; left]; reflexivity.
  - rewrite init_session_state.
    destruct (is_null (i_packet_alloc ff)); right; [right | left]; reflexivity.
Qed.

Lemma rtmp_start_streaming_run (now : Z) (g : Session) :
  state g = RTMP_STATE_CONNECTED ->
  rtmp_start_streaming now g =
    (RTMP_SUCCESS, set_start_time now (set_state RTMP_STATE_STREAMING g),
     [av_gettime_relative now]).
Proof.
  intros Hs. unfold rtmp_start_streaming.
  apply state_eqb_eq in Hs. unfold bind, get. rewrite Hs. reflexivity.
Qed.

Lemma rtmp_stop_streaming_run (g : Session) :
  state g = RTMP_STATE_STREAMING ->
  rtmp_stop_streaming g = (RTMP_SUCCESS, set_state RTMP_STATE_CONNECTED g, []).
Proof.
  intros Hs. unfold rtmp_stop_streaming.
  apply state_eqb_eq in Hs. unfold bind, get. rewrite Hs. reflexivity.
Qed.

Lemma video_loop_keeps_beside_stats (script : list Received) :
  keeps beside_stats (encode_and_send_video_loop script).
Proof.
  induction script as [|p rest IH]; cbn [encode_and_send_video_loop];
    unfold SET_ERROR; frame.
Qed.

Lemma audio_loop_keeps_beside_stats (script : list Received) :
  keeps (fun g => (beside_stats g, error_msg g, frame_counters g))
    (encode_and_send_audio_loop script).
Proof.
  induction script as [|p rest IH]; cbn [encode_and_send_audio_loop]; frame.
Qed.

Lemma rtmp_send_video_frame_keeps_beside_stats
    (rgba : option (list Byte.byte)) (n pts : Z) (ff : EncodeEnv) :
  keeps beside_stats (rtmp_send_video_frame rgba n pts ff).
Proof.
  pose proof (video_loop_keeps_beside_stats (e_received ff)).
  unfold rtmp_send_video_frame, encode_and_send_video, SET_ERROR. frame.
Qed.

Lemma rtmp_send_audio_keeps_beside_stats
    (pcm : option (list Z)) (n pts : Z) (ff : EncodeEnv) :
  keeps (fun g => (beside_stats g, error_msg g, frame_counters g))
    (rtmp_send_audio pcm n pts ff).
Proof.
  pose proof (audio_loop_keeps_beside_stats (e_received ff)).
  unfold rtmp_send_audio, encode_and_send_audio. frame.
Qed.

Lemma exec_transition (op : Op) (g : Session) :
  transition op (state g) (state (exec op g)).
Proof.
  destruct op as [c ff|w h f b k sr ch ab ff|url ff|now|rgba n pts ff
                 |pcm n pts ff| |ff|ff]; cbn [exec transition].
  - apply rtmp_init_state.
  - apply (rtmp_init_state
             (Some (mkConfig w h f b k sr ch ab)) ff g).
  - destruct (rtmp_connect_cases url ff g) as [H|H]; cbn zeta in H.
    + right. destruct H as (_ & H1 & H2 & _). split; assumption.
    + left. destruct H as (_ & H1 & _). exact H1.
  - destruct (state_eqb (state g) RTMP_STATE_CONNECTED) eqn:Es.
    + apply state_eqb_eq in Es. rewrite (rtmp_start_streaming_run now g Es).
      reflexivity.
    + apply state_eqb_neq in Es.
      rewrite (rtmp_start_streaming_wrong_state now g Es). reflexivity.
  - pose proof (rtmp_send_video_frame_keeps_beside_stats rgba n pts ff g) as K.
    exact (f_equal (fun t => fst (fst (fst t))) K).
  - pose proof (rtmp_send_audio_keeps_beside_stats pcm n pts ff g) as K.
    exact (f_equal (fun t => fst (fst (fst (fst (fst t))))) K).
  - destruct (state_eqb (state g) RTMP_STATE_STREAMING) eqn:Es.
    + apply state_eqb_eq in Es. rewrite (rtmp_stop_streaming_run g Es).
      reflexivity.
    + apply state_eqb_neq in Es.
      rewrite (rtmp_stop_streaming_wrong_state g Es). reflexivity.
  - apply rtmp_disconnect_state.
  - apply rtmp_cleanup_state.
Qed.

(** X9: the transitions of the state machine, one row for each operation,
    whatever the arguments and whatever FFmpeg answers.  Initialize leaves
    the state as it was (invalid parameters), Initialized, or Idle (packet
    allocation failed); connect leaves it as it was or goes from Initialized
    to Connected; start goes from Connected to Streaming and changes no
    other state; stop goes from Streaming to Connected and changes no other
    state; the two send operations never change the state; disconnect
    always ends Initialized and cleanup always ends Idle. *)
Theorem X9_state_transitions :
  forall (op : Op) (g : Session), transition op (state g) (state (exec op g)).
Proof. exact exec_transition. Qed.

(** X10: no operation stores [RTMP_STATE_ERROR]: on every session reached
    from the zero-initialised [g_rtmp] by public operations the state is one
    of Idle, Initialized, Connected and Streaming, and [rtmp_get_state]
    returns a number from 0 to 3, never -1. *)
Theorem X10_error_state_never_entered :
  forall g : Session,
    reachable g ->
    is_error_state (state g) = false /\ 0 <= rtmp_get_state g <= 3.
Proof.
  assert (R : forall g, reachable g -> is_error_state (state g) = false).
  { induction 1 as [|op g Hr IH]; [reflexivity|].
    pose proof (exec_transition op g) as T.
    destruct op; cbn [transition] in T;
      repeat match goal with
             | H : _ \/ _ |- _ => destruct H
             | H : _ /\ _ |- _ => destruct H
             end;
      try (rewrite T; destruct (state g); try discriminate IH; reflexivity);
      match goal with
      | H : state (exec _ _) = _ |- _ => rewrite H; (exact IH || reflexivity)
      end. }
  intros g Hr. split; [exact (R g Hr)|].
  specialize (R g Hr). unfold rtmp_get_state.
  destruct (state g); cbn in *; try discriminate R; lia.
Qed.

Lemma X10_error_state_never_entered_witness :
  reachable g_streaming /\
  is_error_state (state g_streaming) = false /\
  0 <= rtmp_get_state g_streaming <= 3.
Proof.
  split; [exact g_streaming_reachable|].
  exact (X10_error_state_never_entered g_streaming g_streaming_reachable).
Defined.

(** ** Two invariants of the sessions the operations reach *)

Lemma beside_stats_fields (g g' : Session) :
  beside_stats g' = beside_stats g ->
  state g' = state g /\ packet g' = packet g /\ pipeline g' = pipeline g.
Proof.
  intros H. split; [|split].
  - exact (f_equal (fun t => fst (fst (fst t))) H).
  - exact (f_equal (fun t => snd (fst (snd (fst (fst t))))) H).
  - exact (f_equal (fun t => snd (fst t)) H).
Qed.

Lemma idle_clean_of_pipeline (g g' : Session) :
  state g' = state g -> packet g' = packet g -> pipeline g' = pipeline g ->
  idle_clean g -> idle_clean g'.
Proof.
  unfold idle_clean, no_pipeline, pipeline. intros Hs Hp Hl Hg Hi.
  rewrite Hs in Hi. specialize (Hg Hi). rewrite Hp.
  injection Hl as -> -> -> -> -> -> -> -> ->. exact Hg.
Qed.

Lemma video_ready_of_pipeline (g g' : Session) :
  state g' = state g -> pipeline g' = pipeline g ->
  video_ready g -> video_ready g'.
Proof.
  unfold video_ready, pipeline. intros Hs Hl Hg Hi.
  rewrite Hs in Hi. specialize (Hg Hi).
  injection Hl as -> -> _ -> _ -> _ -> _. exact Hg.
Qed.

Lemma cleaned_up_clean (g : Session) :
  no_pipeline (cleaned_up g) /\ packet (cleaned_up g) = None.
Proof. unfold no_pipeline. cbn. repeat split. Qed.

Lemma init_session_pipeline (c : RTMPConfig) (p : option handle) (g : Session) :
  pipeline (init_session c p g) = pipeline g /\
  packet (init_session c p g) = p.
Proof. unfold init_session. destruct p; split; reflexivity. Qed.

Lemma armed_pipeline (g : Session) :
  pipeline (armed g) = pipeline g /\ packet (armed g) = packet g.
Proof. unfold armed. destruct (mutex_initialized g =? 0); split; reflexivity. Qed.

Lemma no_pipeline_of_pipeline (g g' : Session) :
  pipeline g' = pipeline g -> no_pipeline g -> no_pipeline g'.
Proof.
  unfold no_pipeline, pipeline. intros Hl Hg.
  injection Hl as -> -> -> -> -> -> -> -> ->. exact Hg.
Qed.

Lemma rtmp_init_idle_clean (c : option RTMPConfig) (ff : InitEnv) (g : Session) :
  idle_clean g -> idle_clean (after (rtmp_init c ff g)).
Proof.
  intros Hg.
  destruct (rtmp_init_cases c ff g) as [[m H]|[(cfg & Hs & H)|(cfg & Hs & H)]];
    rewrite H; cbn [after fst snd].
  - apply (idle_clean_of_pipeline g); [reflexivity .. | exact Hg].
  - intros Hi. rewrite init_session_state in Hi.
    destruct (init_session_pipeline cfg (i_packet_alloc ff) (armed g))
      as [Hl Hp].
    destruct (armed_pipeline g) as [Hl' _].
    destruct (i_packet_alloc ff) as [p|]; cbn [is_null] in Hi;
      [discriminate Hi|].
    split; [|exact Hp].
    apply (no_pipeline_of_pipeline g); [congruence|]. apply Hg. exact Hs.
  - intros Hi. rewrite init_session_state in Hi.
    destruct (init_session_pipeline cfg (i_packet_alloc ff)
                (cleaned_up (armed g))) as [Hl Hp].
    destruct (i_packet_alloc ff) as [p|]; cbn [is_null] in Hi;
      [discriminate Hi|].
    split; [|exact Hp].
    apply (no_pipeline_of_pipeline (cleaned_up (armed g))); [exact Hl|].
    apply cleaned_up_clean.
Qed.

Lemma rtmp_init_video_ready (c : option RTMPConfig) (ff : InitEnv) (g : Session) :
  video_ready g -> video_ready (after (rtmp_init c ff g)).
Proof.
  intros Hg.
  destruct (rtmp_init_cases c ff g) as [[m H]|[(cfg & Hs & H)|(cfg & Hs & H)]];
    rewrite H; cbn [after fst snd].
  - apply (video_ready_of_pipeline g); [reflexivity .. | exact Hg].
  - intros Hi. rewrite init_session_state, armed_state, Hs in Hi.
    destruct (is_null (i_packet_alloc ff)); destruct Hi; discriminate.
  - intros Hi. rewrite init_session_state in Hi.
    destruct (is_null (i_packet_alloc ff)); destruct Hi; discriminate.
Qed.

Lemma exec_idle_clean (op : Op) (g : Session) :
  idle_clean g -> idle_clean (exec op g).
Proof.
  intros Hg.
  destruct op as [c ff|w h f b k sr ch ab ff|url ff|now|rgba n pts ff
                 |pcm n pts ff| |ff|ff]; cbn [exec].
  - apply rtmp_init_idle_clean; exact Hg.
  - apply (rtmp_init_idle_clean (Some (mkConfig w h f b k sr ch ab)) ff g Hg).
  - destruct (rtmp_connect_cases url ff g) as [H|H]; cbn zeta in H.
    + destruct H as (_ & _ & H2 & _). intros Hi. rewrite H2 in Hi.
      discriminate Hi.
    + destruct H as (_ & H1 & _). intros Hi. rewrite H1 in Hi.
      assert (Hrej : url = None \/ url = Some EmptyString \/
                     state g <> RTMP_STATE_INITIALIZED)
        by (right; right; rewrite Hi; discriminate).
      destruct (rtmp_connect_rejected url ff g Hrej) as (code & m & Hrun & _).
      rewrite Hrun. cbn [after fst snd]. exact (Hg Hi).
  - destruct (state_eqb (state g) RTMP_STATE_CONNECTED) eqn:Es.
    + apply state_eqb_eq in Es. rewrite (rtmp_start_streaming_run now g Es).
      intros Hi. discriminate Hi.
    + apply state_eqb_neq in Es.
      rewrite (rtmp_start_streaming_wrong_state now g Es). exact Hg.
  - destruct (beside_stats_fields _ _
                (rtmp_send_video_frame_keeps_beside_stats rgba n pts ff g))
      as (H1 & H2 & H3).
    apply (idle_clean_of_pipeline g); assumption.
  - pose proof (rtmp_send_audio_keeps_beside_stats pcm n pts ff g) as K.
    destruct (beside_stats_fields _ _ (f_equal (fun t => fst (fst t)) K))
      as (H1 & H2 & H3).
    apply (idle_clean_of_pipeline g); assumption.
  - destruct (state_eqb (state g) RTMP_STATE_STREAMING) eqn:Es.
    + apply state_eqb_eq in Es. rewrite (rtmp_stop_streaming_run g Es).
      intros Hi. discriminate Hi.
    + apply state_eqb_neq in Es.
      rewrite (rtmp_stop_streaming_wrong_state g Es). exact Hg.
  - intros Hi. rewrite rtmp_disconnect_state in Hi. discriminate Hi.
  - rewrite rtmp_cleanup_run. intros _. apply cleaned_up_clean.
Qed.

Lemma exec_video_ready (op : Op) (g : Session) :
  video_ready g -> video_ready (exec op g).
Proof.
  intros Hg.
  destruct op as [c ff|w h f b k sr ch ab ff|url ff|now|rgba n pts ff
                 |pcm n pts ff| |ff|ff]; cbn [exec].
  - apply rtmp_init_video_ready; exact Hg.
  - apply (rtmp_init_video_ready (Some (mkConfig w h f b k sr ch ab)) ff g Hg).
  - destruct (rtmp_connect_cases url ff g) as [H|H]; cbn zeta in H.
    + destruct H as (_ & _ & _ & _ & H4 & H5 & H6 & H7 & H8 & _).
      intros _. repeat (split; [assumption|]). assumption.
    + destruct H as (_ & H1 & _). intros Hi. rewrite H1 in Hi.
      assert (Hrej : url = None \/ url = Some EmptyString \/
                     state g <> RTMP_STATE_INITIALIZED)
        by (right; right; destruct Hi as [Hi|Hi]; rewrite Hi; discriminate).
      destruct (rtmp_connect_rejected url ff g Hrej) as (code & m & Hrun & _).
      rewrite Hrun. cbn [after fst snd]. exact (Hg Hi).
  - destruct (state_eqb (state g) RTMP_STATE_CONNECTED) eqn:Es.
    + apply state_eqb_eq in Es. rewrite (rtmp_start_streaming_run now g Es).
      intros _. apply Hg. left; exact Es.
    + apply state_eqb_neq in Es.
      rewrite (rtmp_start_streaming_wrong_state now g Es). exact Hg.
  - destruct (beside_stats_fields _ _
                (rtmp_send_video_frame_keeps_beside_stats rgba n pts ff g))
      as (H1 & H2 & H3).
    apply (video_ready_of_pipeline g); assumption.
  - pose proof (rtmp_send_audio_keeps_beside_stats pcm n pts ff g) as K.
    destruct (beside_stats_fields _ _ (f_equal (fun t => fst (fst t)) K))
      as (H1 & H2 & H3).
    apply (video_ready_of_pipeline g); assumption.
  - destruct (state_eqb (state g) RTMP_STATE_STREAMING) eqn:Es.
    + apply state_eqb_eq in Es. rewrite (rtmp_stop_streaming_run g Es).
      intros _. apply Hg. right; exact Es.
    + apply state_eqb_neq in Es.
      rewrite (rtmp_stop_streaming_wrong_state g Es). exact Hg.
  - intros Hi. rewrite rtmp_disconnect_state in Hi.
    destruct Hi; discriminate.
  - intros Hi. rewrite rtmp_cleanup_state in Hi. destruct Hi; discriminate.
Qed.

(** X11: an Idle session holds nothing.  On every session reached from the
    zero-initialised [g_rtmp] by public operations, state Idle means that
    none of the nine pipeline pointers and no packet buffer is held; so the
    allocation of the packet buffer in [rtmp_init_simple], which skips the
    cleanup exactly when the state is Idle, never overwrites a live
    pointer. *)
Theorem X11_idle_session_holds_nothing :
  forall g : Session,
    reachable g -> state g = RTMP_STATE_IDLE ->
    no_pipeline g /\ packet g = None.
Proof.
  intros g Hr. change (idle_clean g).
  induction Hr as [|op g Hr IH].
  - intros _. unfold no_pipeline. cbn. repeat split.
  - apply exec_idle_clean; exact IH.
Qed.

Lemma X11_idle_session_holds_nothing_witness :
  reachable (exec (Cleanup flush_none) g_streaming) /\
  state (exec (Cleanup flush_none) g_streaming) = RTMP_STATE_IDLE /\
  no_pipeline (exec (Cleanup flush_none) g_streaming) /\
  packet (exec (Cleanup flush_none) g_streaming) = None.
Proof.
  assert (Hr : reachable (exec (Cleanup flush_none) g_streaming))
    by (apply reachable_step; exact g_streaming_reachable).
  assert (Hs : state (exec (Cleanup flush_none) g_streaming) = RTMP_STATE_IDLE)
    by reflexivity.
  split; [exact Hr|]. split; [exact Hs|].
  exact (X11_idle_session_holds_nothing
           (exec (Cleanup flush_none) g_streaming) Hr Hs).
Defined.

(** X12: in states Connected and Streaming the video pipeline is complete.
    On every session reached by public operations, state Connected or
    Streaming means that the output context, the video codec context, the
    video stream, the video frame and the scaler are all there: the video
    path, which runs only in state Streaming, never meets a NULL among
    them. *)
Theorem X12_video_pipeline_complete_when_connected :
  forall g : Session,
    reachable g ->
    state g = RTMP_STATE_CONNECTED \/ state g = RTMP_STATE_STREAMING ->
    format_ctx g <> None /\ video_codec_ctx g <> None /\
    video_stream g <> None /\ video_frame g <> None /\ sws_ctx g <> None.
Proof.
  intros g Hr. change (video_ready g).
  induction Hr as [|op g Hr IH].
  - intros [Hi|Hi]; discriminate Hi.
  - apply exec_video_ready; exact IH.
Qed.

Lemma X12_video_pipeline_complete_when_connected_witness :
  reachable g_streaming /\
  (state g_streaming = RTMP_STATE_CONNECTED \/
   state g_streaming = RTMP_STATE_STREAMING) /\
  sws_ctx g_streaming <> None.
Proof.
  assert (Hs : state g_streaming = RTMP_STATE_CONNECTED \/
               state g_streaming = RTMP_STATE_STREAMING)
    by (right; reflexivity).
  destruct (X12_video_pipeline_complete_when_connected g_streaming
              g_streaming_reachable Hs) as (_ & _ & _ & _ & H).
  split; [exact g_streaming_reachable|]. split; [exact Hs | exact H].
Defined.

(** ** What the two send operations touch *)

(** X13: [rtmp_send_video_frame] changes nothing of the session but the
    three counters and the error message: the state, the configuration, the
    nine pipeline pointers, the packet buffer, the start time and the mutex
    flag are as before, whatever the arguments and whatever FFmpeg
    answers. *)
Theorem X13_send_video_touches_only_counters_and_message :
  forall (rgba : option (list Byte.byte)) (n pts : Z) (ff : EncodeEnv)
         (g : Session),
    beside_stats (after (rtmp_send_video_frame rgba n pts ff g))
    = beside_stats g.
Proof.
  intros rgba n pts ff g.
  apply rtmp_send_video_frame_keeps_beside_stats.
Qed.

(** X14: [rtmp_send_audio] changes nothing of the session but [bytes_sent].
    In particular a failure of the audio path writes no error message and
    counts no dropped frame, and an audio frame sent is not counted in
    [frames_sent]. *)
Theorem X14_send_audio_touches_only_bytes_sent :
  forall (pcm : option (list Z)) (n pts : Z) (ff : EncodeEnv) (g : Session),
    beside_stats (after (rtmp_send_audio pcm n pts ff g)) = beside_stats g /\
    error_msg (after (rtmp_send_audio pcm n pts ff g)) = error_msg g /\
    frames_sent (after (rtmp_send_audio pcm n pts ff g)) = frames_sent g /\
    dropped_frames (after (rtmp_send_audio pcm n pts ff g)) = dropped_frames g.
Proof.
  intros pcm n pts ff g.
  pose proof (rtmp_send_audio_keeps_beside_stats pcm n pts ff g) as K.
  cbn beta in K. unfold frame_counters in K.
  split; [exact (f_equal (fun t => fst (fst t)) K)|].
  split; [exact (f_equal (fun t => snd (fst t)) K)|].
  split; [exact (f_equal (fun t => fst (snd t)) K)|].
  exact (f_equal (fun t => snd (snd t)) K).
Qed.

Lemma video_loop_message (script : list Received) (g : Session) :
  match result (encode_and_send_video_loop script g) with
  | None =>
      error_msg (after (encode_and_send_video_loop script g)) = error_msg g
  | Some _ =>
      In (msg_fmt (error_msg (after (encode_and_send_video_loop script g))))
         video_send_errors
  end.
Proof.
  revert g. induction script as [|p rest IH]; intros g.
  - reflexivity.
  - cbn [encode_and_send_video_loop]. rewrite run_bind.
    cbn [call result after calls fst snd].
    destruct ((recv_ret p =? AVERROR_EAGAIN) || (recv_ret p =? AVERROR_EOF)).
    { reflexivity. }
    destruct (recv_ret p <? 0).
    { cbn. tauto. }
    rewrite !run_bind. cbn [call result after calls fst snd].
    destruct (write_ret p <? 0).
    { cbn. tauto. }
    rewrite !run_bind. cbn [call get modify result after calls fst snd].
    exact (IH (set_bytes_sent (int64 (bytes_sent g + size_after_write p)) g)).
Qed.

Lemma encode_and_send_video_message (pts : Z) (ff : EncodeEnv) (g : Session) :
  (result (encode_and_send_video pts ff g) = RTMP_SUCCESS ->
   error_msg (after (encode_and_send_video pts ff g)) = error_msg g) /\
  (result (encode_and_send_video pts ff g) <> RTMP_SUCCESS ->
   In (msg_fmt (error_msg (after (encode_and_send_video pts ff g))))
      video_send_errors).
Proof.
  destruct (Z.ltb_spec (e_make_writable ff) 0) as [Hm|Hm].
  { unfold encode_and_send_video. rewrite run_bind.
    cbn [call result after calls fst snd].
    apply Z.ltb_lt in Hm. rewrite Hm. cbn.
    split; [discriminate | tauto]. }
  destruct (Z.ltb_spec (e_send_frame ff) 0) as [Hs|Hs].
  { unfold encode_and_send_video.
    assert (E1 : (e_make_writable ff <? 0) = false) by (apply Z.ltb_ge; exact Hm).
    apply Z.ltb_lt in Hs.
    rewrite run_bind. cbn [call result after calls fst snd]. rewrite E1.
    rewrite run_bind. cbn [get result after calls fst snd].
    rewrite run_bind. cbn [call result after calls fst snd].
    rewrite run_bind. cbn [call result after calls fst snd]. rewrite Hs.
    cbn. split; [discriminate | tauto]. }
  destruct (encode_and_send_video_run pts ff g Hm Hs) as [_ H].
  pose proof (video_loop_message (e_received ff) g) as L.
  destruct (video_loop_counters (e_received ff) g) as (_ & _ & C).
  destruct (result (encode_and_send_video_loop (e_received ff) g)) as [code|].
  - destruct H as [H1 H2]. rewrite H1, H2. split; [|intros _; exact L].
    intros Hc. rewrite Hc in C. clear - C. exfalso.
    destruct C as [C|[C|C]]; [discriminate C | |];
      injection C as C; vm_compute in C; discriminate C.
  - destruct H as [H1 H2]. rewrite H1, H2. split.
    + intros _. exact L.
    + intros Hc. exfalso. apply Hc. reflexivity.
Qed.

(** X15: every failing return of the video path says why, and success says
    nothing.  If [rtmp_send_video_frame] returns anything but
    [RTMP_SUCCESS], the error message it leaves is one of the seven the
    video path writes; if it returns [RTMP_SUCCESS], the error message is
    the one that was there before, so a message of an earlier failure stays
    readable through [rtmp_get_error] after later successes. *)
Theorem X15_video_failure_leaves_a_message :
  forall (rgba : option (list Byte.byte)) (n pts : Z) (ff : EncodeEnv)
         (g : Session),
    (result (rtmp_send_video_frame rgba n pts ff g) = RTMP_SUCCESS ->
     rtmp_get_error (after (rtmp_send_video_frame rgba n pts ff g))
     = rtmp_get_error g) /\
    (result (rtmp_send_video_frame rgba n pts ff g) <> RTMP_SUCCESS ->
     In (msg_fmt
           (rtmp_get_error (after (rtmp_send_video_frame rgba n pts ff g))))
        video_send_errors).
Proof.
  intros rgba n pts ff g. unfold rtmp_get_error, rtmp_send_video_frame.
  destruct rgba as [buf|]; cbn [is_null].
  - rewrite run_bind. cbn [get result after calls fst snd].
    destruct (negb (n =? expected_size (config g))).
    { cbn. split; [discriminate | tauto]. }
    destruct (negb (state_eqb (state g) RTMP_STATE_STREAMING)).
    { cbn. split; [discriminate | tauto]. }
    apply encode_and_send_video_message.
  - cbn. split; [discriminate | tauto].
Qed.

Lemma X15_video_failure_leaves_a_message_witness :
  result (rtmp_send_video_frame (Some rgba_frame) 32 0
            encode_second_write_fails g_streaming) <> RTMP_SUCCESS /\
  In (msg_fmt
        (rtmp_get_error
           (after (rtmp_send_video_frame (Some rgba_frame) 32 0
                     encode_second_write_fails g_streaming))))
     video_send_errors.
Proof.
  assert (H : result (rtmp_send_video_frame (Some rgba_frame) 32 0
                        encode_second_write_fails g_streaming)
              <> RTMP_SUCCESS)
    by (vm_compute; discriminate).
  destruct (X15_video_failure_leaves_a_message (Some rgba_frame) 32 0
              encode_second_write_fails g_streaming) as [_ H2].
  split; [exact H | exact (H2 H)].
Defined.

(** ** Start and stop *)

(** X16: start then stop is a round trip.  On a Connected session
    [rtmp_start_streaming] succeeds with one reading of the clock, and
    [rtmp_stop_streaming] after it succeeds with no call to FFmpeg and gives
    back the session as it was before the start, but for the start time:
    stop sends no end-of-stream and closes nothing. *)
Theorem X16_start_stop_round_trip :
  forall (now : Z) (g : Session),
    state g = RTMP_STATE_CONNECTED ->
    result (rtmp_start_streaming now g) = RTMP_SUCCESS /\
    calls (rtmp_start_streaming now g) = [av_gettime_relative now] /\
    rtmp_stop_streaming (after (rtmp_start_streaming now g))
    = (RTMP_SUCCESS, set_start_time now g, []).
Proof.
  intros now g Hs. rewrite (rtmp_start_streaming_run now g Hs).
  cbn [result after calls fst snd]. split; [reflexivity|].
  split; [reflexivity|].
  rewrite rtmp_stop_streaming_run by reflexivity.
  destruct g. cbn in Hs. subst. reflexivity.
Qed.

Lemma X16_start_stop_round_trip_witness :
  state g_connected = RTMP_STATE_CONNECTED /\
  rtmp_stop_streaming (after (rtmp_start_streaming 7 g_connected))
  = (RTMP_SUCCESS, set_start_time 7 g_connected, []).
Proof.
  assert (Hs : state g_connected = RTMP_STATE_CONNECTED) by reflexivity.
  destruct (X16_start_stop_round_trip 7 g_connected Hs) as (_ & _ & H).
  split; [exact Hs | exact H].
Defined.

(** ** Packets: received, written, unreferenced *)

Lemma count_app (p : Call -> bool) (l1 l2 : list Call) :
  count p (l1 ++ l2) = (count p l1 + count p l2)%nat.
Proof. unfold count. rewrite filter_app, length_app. reflexivity. Qed.

Lemma balanced_nil : balanced [].
Proof. split; reflexivity. Qed.

Lemma balanced_app (l1 l2 : list Call) :
  balanced l1 -> balanced l2 -> balanced (l1 ++ l2).
Proof.
  unfold balanced. intros [H1 H2] [H3 H4]. rewrite !count_app. lia.
Qed.

Lemma balanced_quiet (c : Call) (l : list Call) :
  is_received c = false -> is_write c = false -> is_unref c = false ->
  balanced l -> balanced (c :: l).
Proof.
  unfold balanced, count. intros E1 E2 E3 H. cbn [filter].
  rewrite E1, E2, E3. exact H.
Qed.

Lemma balanced_packet (s : Stream) (r : Received) (l : list Call) :
  0 <= recv_ret r -> balanced l -> balanced (packet_calls s r ++ l).
Proof.
  intros Hr H. apply balanced_app; [|exact H].
  unfold balanced, count, packet_calls. cbn [filter is_received is_write is_unref].
  assert (E : (0 <=? recv_ret r) = true) by (apply Z.leb_le; exact Hr).
  rewrite E. split; reflexivity.
Qed.

Lemma balanced_end (s : Stream) (x : Z) :
  x < 0 -> balanced [avcodec_receive_packet s x].
Proof.
  intros Hx. unfold balanced, count. cbn [filter is_received is_write is_unref].
  assert (E : (0 <=? x) = false) by (apply Z.leb_gt; exact Hx).
  rewrite E. split; reflexivity.
Qed.

Lemma received_end (x : Z) :
  (x =? AVERROR_EAGAIN) || (x =? AVERROR_EOF) = true -> x < 0.
Proof.
  intros H. apply Bool.orb_true_iff in H.
  destruct H as [H|H]; apply Z.eqb_eq in H; subst x; reflexivity.
Qed.

Lemma video_loop_balanced (script : list Received) (g : Session) :
  balanced (calls (encode_and_send_video_loop script g)).
Proof.
  revert g. induction script as [|p rest IH]; intros g.
  - apply balanced_end. reflexivity.
  - cbn [encode_and_send_video_loop]. rewrite run_bind.
    cbn [call result after calls fst snd].
    destruct ((recv_ret p =? AVERROR_EAGAIN) || (recv_ret p =? AVERROR_EOF)) eqn:E.
    { apply balanced_end. apply received_end. exact E. }
    destruct (Z.ltb_spec (recv_ret p) 0) as [Hr|Hr].
    { cbn. apply balanced_end. exact Hr. }
    rewrite !run_bind. cbn [call result after calls fst snd].
    destruct (write_ret p <? 0).
    { cbn. apply (balanced_packet Video p [] Hr balanced_nil). }
    rewrite !run_bind. cbn [call get modify result after calls fst snd app].
    apply (balanced_packet Video p _ Hr). apply IH.
Qed.

Lemma audio_loop_balanced (script : list Received) (g : Session) :
  balanced (calls (encode_and_send_audio_loop script g)).
Proof.
  revert g. induction script as [|p rest IH]; intros g.
  - apply balanced_end. reflexivity.
  - cbn [encode_and_send_audio_loop]. rewrite run_bind.
    cbn [call result after calls fst snd].
    destruct ((recv_ret p =? AVERROR_EAGAIN) || (recv_ret p =? AVERROR_EOF)) eqn:E.
    { apply balanced_end. apply received_end. exact E. }
    destruct (Z.ltb_spec (recv_ret p) 0) as [Hr|Hr].
    { cbn. apply balanced_end. exact Hr. }
    rewrite !run_bind. cbn [call result after calls fst snd].
    destruct (write_ret p <? 0).
    { cbn. apply (balanced_packet Audio p [] Hr balanced_nil). }
    rewrite !run_bind. cbn [call get modify result after calls fst snd app].
    apply (balanced_packet Audio p _ Hr). apply IH.
Qed.

Lemma flushed_balanced (s : Stream) (script : list Received) (l : list Call) :
  balanced l -> balanced (flat_map (packet_calls s) (flushed script) ++ l).
Proof.
  intros H. induction script as [|p rest IH]; [exact H|].
  cbn [flushed]. destruct (Z.geb_spec (recv_ret p) 0) as [Hr|Hr]; [|exact H].
  cbn [flat_map]. rewrite <- app_assoc.
  apply balanced_packet; [lia | exact IH].
Qed.

Ltac quiet :=
  repeat first
    [ apply balanced_nil
    | apply balanced_quiet; [reflexivity | reflexivity | reflexivity |] ].

Lemma releases_balanced (g : Session) (l : list Call) :
  balanced l -> balanced (releases g ++ l).
Proof.
  intros H. unfold releases, opt_call.
  destruct (sws_ctx g), (swr_ctx g), (video_frame g), (audio_frame g),
    (video_codec_ctx g), (audio_codec_ctx g), (format_ctx g);
    cbn [app]; quiet; exact H.
Qed.

Lemma farewell_balanced (ff : FlushEnv) (g : Session) (l : list Call) :
  balanced l -> balanced (farewell ff g ++ l).
Proof.
  intros H. unfold farewell.
  destruct (format_ctx g) as [fc|]; [|exact H].
  assert (T : balanced (([av_write_trailer]
               ++ (if flag_set (oformat_flags fc) AVFMT_NOFILE then []
                   else [avio_closep])) ++ l)).
  { destruct (flag_set (oformat_flags fc) AVFMT_NOFILE); cbn [app]; quiet;
      exact H. }
  destruct (is_null (video_codec_ctx g)); cbn [app].
  - rewrite <- app_assoc in T. exact T.
  - rewrite <- !app_assoc. cbn [app].
    apply balanced_quiet; try reflexivity.
    apply flushed_balanced. cbn [app].
    apply (balanced_app [avcodec_receive_packet Video (flush_end (f_received ff))]).
    + apply balanced_end. apply flush_end_negative.
    + rewrite <- app_assoc in T. exact T.
Qed.

(** X17: every packet the encoder hands out is written to the muxer once
    and unreferenced once.  In the calls of [rtmp_send_video_frame], of
    [rtmp_send_audio], of [rtmp_disconnect] and of [rtmp_cleanup], whatever
    the session, the arguments and the answers of FFmpeg, the number of
    successful [avcodec_receive_packet] equals the number of
    [av_interleaved_write_frame], which equals the number of
    [av_packet_unref]: a packet is unreferenced also when its write fails,
    and nothing is written or unreferenced that was not received. *)
Theorem X17_every_packet_written_and_unreferenced :
  forall (g : Session),
    (forall (rgba : option (list Byte.byte)) (n pts : Z) (ff : EncodeEnv),
       balanced (calls (rtmp_send_video_frame rgba n pts ff g))) /\
    (forall (pcm : option (list Z)) (n pts : Z) (ff : EncodeEnv),
       balanced (calls (rtmp_send_audio pcm n pts ff g))) /\
    (forall ff : FlushEnv, balanced (calls (rtmp_disconnect ff g))) /\
    (forall ff : FlushEnv, balanced (calls (rtmp_cleanup ff g))).
Proof.
  intros g. split; [|split; [|split]].
  - intros rgba n pts ff. unfold rtmp_send_video_frame.
    destruct rgba as [buf|]; cbn [is_null]; [|apply balanced_nil].
    rewrite calls_bind. cbn [get result after calls fst snd app].
    destruct (negb (n =? expected_size (config g))); [apply balanced_nil|].
    destruct (negb (state_eqb (state g) RTMP_STATE_STREAMING));
      [apply balanced_nil|].
    unfold encode_and_send_video.
    rewrite calls_bind. cbn [call result after calls fst snd app].
    destruct (e_make_writable ff <? 0); [cbn; quiet|].
    rewrite calls_bind. cbn [get result after calls fst snd app].
    rewrite calls_bind. cbn [call result after calls fst snd app].
    rewrite calls_bind. cbn [call result after calls fst snd app].
    destruct (e_send_frame ff <? 0); [cbn; quiet|].
    rewrite calls_bind. quiet.
    apply balanced_app; [apply video_loop_balanced|].
    destruct (result (encode_and_send_video_loop (e_received ff) g));
      cbn; apply balanced_nil.
  - intros pcm n pts ff. unfold rtmp_send_audio.
    destruct (is_null pcm || (n <=? 0)); [apply balanced_nil|].
    rewrite calls_bind. cbn [get result after calls fst snd app].
    destruct (negb (state_eqb (state g) RTMP_STATE_STREAMING)
              || is_null (audio_codec_ctx g)); [apply balanced_nil|].
    unfold encode_and_send_audio.
    rewrite calls_bind. cbn [call result after calls fst snd app].
    destruct (e_make_writable ff <? 0); [cbn; quiet|].
    rewrite calls_bind. cbn [call result after calls fst snd app].
    destruct (e_swr_convert ff <? 0); [cbn; quiet|].
    rewrite calls_bind. cbn [call result after calls fst snd app].
    destruct (e_send_frame ff <? 0); [cbn; quiet|].
    rewrite calls_bind. quiet.
    apply balanced_app; [apply audio_loop_balanced|].
    destruct (result (encode_and_send_audio_loop (e_received ff) g));
      cbn; apply balanced_nil.
  - intros ff. rewrite rtmp_disconnect_run. cbn [calls fst snd].
    apply farewell_balanced. rewrite <- (app_nil_r (releases g)).
    apply releases_balanced. apply balanced_nil.
  - intros ff. rewrite rtmp_cleanup_run. cbn [calls fst snd].
    apply farewell_balanced. apply releases_balanced.
    unfold opt_call. destruct (packet g); quiet.
Qed.

(** ** The encoder set-ups release what they allocated *)

Ltac setup_case :=
  rewrite ?result_bind, ?calls_bind; cbn;
  split; intros H; try reflexivity; try discriminate H;
  try (exfalso; apply H; reflexivity).

Lemma init_video_encoder_releases (ff : VideoInitEnv) (g : Session) :
  (result (init_video_encoder ff g) <> RTMP_SUCCESS ->
   flat_map freed (calls (init_video_encoder ff g))
   = rev (flat_map allocated (calls (init_video_encoder ff g)))) /\
  (result (init_video_encoder ff g) = RTMP_SUCCESS ->
   flat_map freed (calls (init_video_encoder ff g)) = []).
Proof.
  unfold init_video_encoder.
  destruct ff as [found st cx op pa fr gb sw]; cbn [v_find_encoder v_new_stream
    v_alloc_context3 v_open2 v_parameters_from_context v_frame_alloc
    v_frame_get_buffer v_sws_getContext].
  destruct found; [|setup_case].
  destruct st as [st|]; [|setup_case].
  destruct cx as [cx|]; [|setup_case].
  destruct (op <? 0); [setup_case|].
  destruct (pa <? 0); [setup_case|].
  destruct fr as [fr|]; [|setup_case].
  destruct (gb <? 0); [setup_case|].
  destruct sw as [sw|]; setup_case.
Qed.

Lemma init_audio_encoder_releases (ff : AudioInitEnv) (g : Session) :
  (result (init_audio_encoder ff g) <> RTMP_SUCCESS ->
   flat_map freed (calls (init_audio_encoder ff g))
   = rev (flat_map allocated (calls (init_audio_encoder ff g)))) /\
  (result (init_audio_encoder ff g) = RTMP_SUCCESS ->
   flat_map freed (calls (init_audio_encoder ff g)) = []).
Proof.
  unfold init_audio_encoder.
  destruct ff as [found st cx op pa fr gb sa si]; cbn [a_find_encoder
    a_new_stream a_alloc_context3 a_open2 a_parameters_from_context
    a_frame_alloc a_frame_get_buffer a_swr_alloc a_swr_init].
  destruct found; [|setup_case].
  destruct st as [st|]; [|setup_case].
  destruct cx as [cx|]; [|setup_case].
  destruct (op <? 0); [setup_case|].
  destruct (pa <? 0); [setup_case|].
  destruct fr as [fr|]; [|setup_case].
  destruct (gb <? 0); [setup_case|].
  destruct sa as [sa|]; [|setup_case].
  destruct (si <? 0); setup_case.
Qed.

(** X18: an encoder set-up that fails releases what it allocated, in the
    reverse order.  In the calls of [init_video_encoder] and of
    [init_audio_encoder], whatever the session and whichever step fails, the
    codec contexts, frames, scaler and resampler released are exactly the
    ones allocated by this very call, each once, last allocated first; a
    set-up that succeeds releases nothing. *)
Theorem X18_encoder_setup_releases_what_it_allocated :
  forall (g : Session),
    (forall ff : VideoInitEnv,
       (result (init_video_encoder ff g) <> RTMP_SUCCESS ->
        flat_map freed (calls (init_video_encoder ff g))
        = rev (flat_map allocated (calls (init_video_encoder ff g)))) /\
       (result (init_video_encoder ff g) = RTMP_SUCCESS ->
        flat_map freed (calls (init_video_encoder ff g)) = [])) /\
    (forall ff : AudioInitEnv,
       (result (init_audio_encoder ff g) <> RTMP_SUCCESS ->
        flat_map freed (calls (init_audio_encoder ff g))
        = rev (flat_map allocated (calls (init_audio_encoder ff g)))) /\
       (result (init_audio_encoder ff g) = RTMP_SUCCESS ->
        flat_map freed (calls (init_audio_encoder ff g)) = [])).
Proof.
  intros g. split; intros ff.
  - apply init_video_encoder_releases.
  - apply init_audio_encoder_releases.
Qed.

Lemma X18_encoder_setup_releases_what_it_allocated_witness :
  result (init_video_encoder video_init_no_scaler g_initialized)
    <> RTMP_SUCCESS /\
  flat_map freed (calls (init_video_encoder video_init_no_scaler g_initialized))
  = [(FrameBuffer Video, 5%positive); (CodecContext Video, 4%positive)].
Proof.
  assert (H : result (init_video_encoder video_init_no_scaler g_initialized)
              <> RTMP_SUCCESS) by (vm_compute; discriminate).
  destruct (X18_encoder_setup_releases_what_it_allocated g_initialized)
    as [Hv _].
  destruct (Hv video_init_no_scaler) as [Hf _].
  split; [exact H|]. rewrite (Hf H). reflexivity.
Defined.

(** ** Frames the encoder refuses, settings, and a session without packet
    buffer *)

Lemma encode_and_send_video_counters (pts : Z) (ff : EncodeEnv) (g : Session) :
  (frames_sent (after (encode_and_send_video pts ff g)) = frames_sent g \/
   result (encode_and_send_video pts ff g) = RTMP_SUCCESS) /\
  (dropped_frames (after (encode_and_send_video pts ff g)) = dropped_frames g \/
   result (encode_and_send_video pts ff g) = RTMP_ERROR_SEND_FAILED).
Proof.
  destruct (Z.ltb_spec (e_make_writable ff) 0) as [Hm|Hm].
  { unfold encode_and_send_video. rewrite run_bind.
    cbn [call result after calls fst snd].
    apply Z.ltb_lt in Hm. rewrite Hm. cbn. split; left; reflexivity. }
  destruct (Z.ltb_spec (e_send_frame ff) 0) as [Hs|Hs].
  { unfold encode_and_send_video.
    assert (E1 : (e_make_writable ff <? 0) = false) by (apply Z.ltb_ge; exact Hm).
    apply Z.ltb_lt in Hs.
    rewrite run_bind. cbn [call result after calls fst snd]. rewrite E1.
    rewrite run_bind. cbn [get result after calls fst snd].
    rewrite run_bind. cbn [call result after calls fst snd].
    rewrite run_bind. cbn [call result after calls fst snd]. rewrite Hs.
    cbn. split; left; reflexivity. }
  destruct (encode_and_send_video_run pts ff g Hm Hs) as [_ H].
  destruct (video_loop_counters (e_received ff) g) as (C1 & C2 & _).
  destruct (result (encode_and_send_video_loop (e_received ff) g)) as [code|].
  - destruct H as [H1 H2]. rewrite H1, H2. split; [left; exact C1|].
    destruct (Z.eq_dec code RTMP_ERROR_SEND_FAILED) as [E|E];
      [right; exact E | left; apply C2; congruence].
  - destruct H as [H1 H2]. rewrite H1, H2. split; [right; reflexivity|].
    left. cbn. apply C2. discriminate.
Qed.

(** X19: a frame that is neither sent nor refused by the muxer is not
    counted.  [frames_sent] moves only when [rtmp_send_video_frame] returns
    [RTMP_SUCCESS], and [dropped_frames] only when it returns
    [RTMP_ERROR_SEND_FAILED]: a frame turned down for its arguments, for
    the state, or by the encoder ([RTMP_ERROR_ENCODE_FAILED]) leaves both
    counters as they were, so the two counters do not add up to the number
    of frames handed in. *)
Theorem X19_uncounted_video_frames :
  forall (rgba : option (list Byte.byte)) (n pts : Z) (ff : EncodeEnv)
         (g : Session),
    (result (rtmp_send_video_frame rgba n pts ff g) <> RTMP_SUCCESS ->
     rtmp_get_frames_sent (after (rtmp_send_video_frame rgba n pts ff g))
     = rtmp_get_frames_sent g) /\
    (result (rtmp_send_video_frame rgba n pts ff g) <> RTMP_ERROR_SEND_FAILED ->
     rtmp_get_dropped_frames (after (rtmp_send_video_frame rgba n pts ff g))
     = rtmp_get_dropped_frames g).
Proof.
  intros rgba n pts ff g.
  unfold rtmp_get_frames_sent, rtmp_get_dropped_frames, rtmp_send_video_frame.
  destruct rgba as [buf|]; cbn [is_null].
  - rewrite run_bind. cbn [get result after calls fst snd].
    destruct (negb (n =? expected_size (config g))).
    { cbn. split; reflexivity. }
    destruct (negb (state_eqb (state g) RTMP_STATE_STREAMING)).
    { cbn. split; reflexivity. }
    destruct (encode_and_send_video_counters pts ff g) as [[H1|H1] [H2|H2]];
      split; intros H; congruence.
  - cbn. split; reflexivity.
Qed.

Lemma X19_uncounted_video_frames_witness :
  result (rtmp_send_video_frame (Some rgba_frame) 32 0 encode_refused
            g_streaming) = RTMP_ERROR_ENCODE_FAILED /\
  rtmp_get_frames_sent
    (after (rtmp_send_video_frame (Some rgba_frame) 32 0 encode_refused
              g_streaming)) = rtmp_get_frames_sent g_streaming /\
  rtmp_get_dropped_frames
    (after (rtmp_send_video_frame (Some rgba_frame) 32 0 encode_refused
              g_streaming)) = rtmp_get_dropped_frames g_streaming.
Proof.
  assert (E : result (rtmp_send_video_frame (Some rgba_frame) 32 0
                        encode_refused g_streaming)
              = RTMP_ERROR_ENCODE_FAILED) by (vm_compute; reflexivity).
  destruct (X19_uncounted_video_frames (Some rgba_frame) 32 0 encode_refused
              g_streaming) as [H1 H2].
  split; [exact E|]. split.
  - apply H1. rewrite E. vm_compute. discriminate.
  - apply H2. rewrite E. vm_compute. discriminate.
Defined.

Lemma exec_settings (op : Op) (g : Session) :
  is_init op = false ->
  config (exec op g) = config g /\
  mutex_initialized (exec op g) = mutex_initialized g /\
  (packet (exec op g) = packet g \/ exists ff, op = Cleanup ff).
Proof.
  intros Hop.
  assert (S : forall g', settings g' = settings g ->
              config g' = config g /\
              mutex_initialized g' = mutex_initialized g /\
              (packet g' = packet g \/ exists ff, op = Cleanup ff)).
  { intros g' H. unfold settings in H.
    split; [exact (f_equal (fun t => fst (fst t)) H)|].
    split; [exact (f_equal snd H)|].
    left. exact (f_equal (fun t => snd (fst t)) H). }
  destruct op as [c ff|w h f b k sr ch ab ff|url ff|now|rgba n pts ff
                 |pcm n pts ff| |ff|ff]; cbn [is_init] in Hop;
    try discriminate Hop; cbn [exec].
  - apply S. exact (f_equal fst (rtmp_connect_keeps_settings url ff g)).
  - apply S. destruct (state_eqb (state g) RTMP_STATE_CONNECTED) eqn:Es.
    + apply state_eqb_eq in Es. rewrite (rtmp_start_streaming_run now g Es).
      reflexivity.
    + apply state_eqb_neq in Es.
      rewrite (rtmp_start_streaming_wrong_state now g Es). reflexivity.
  - apply S.
    exact (f_equal (fun t => snd (fst (fst t)))
             (rtmp_send_video_frame_keeps_beside_stats rgba n pts ff g)).
  - apply S.
    exact (f_equal (fun t => snd (fst (fst (fst (fst t)))))
             (rtmp_send_audio_keeps_beside_stats pcm n pts ff g)).
  - apply S. destruct (state_eqb (state g) RTMP_STATE_STREAMING) eqn:Es.
    + apply state_eqb_eq in Es. rewrite (rtmp_stop_streaming_run g Es).
      reflexivity.
    + apply state_eqb_neq in Es.
      rewrite (rtmp_stop_streaming_wrong_state g Es). reflexivity.
  - apply S. rewrite rtmp_disconnect_run. reflexivity.
  - rewrite rtmp_cleanup_run. cbn [after fst snd].
    split; [reflexivity|]. split; [reflexivity|]. right. exists ff. reflexivity.
Qed.

(** X20: only initialize changes the configuration.  Every operation other
    than [rtmp_init] and [rtmp_init_simple] leaves the configuration and the
    mutex flag as they were, and every one of them but [rtmp_cleanup] leaves
    the packet buffer as it was: the frame size [rtmp_send_video_frame]
    expects is fixed from one initialize to the next, through connect,
    disconnect and cleanup. *)
Theorem X20_only_initialize_changes_the_configuration :
  forall (op : Op) (g : Session),
    is_init op = false ->
    config (exec op g) = config g /\
    expected_size (config (exec op g)) = expected_size (config g) /\
    mutex_initialized (exec op g) = mutex_initialized g /\
    (packet (exec op g) = packet g \/ exists ff, op = Cleanup ff).
Proof.
  intros op g Hop. destruct (exec_settings op g Hop) as (H1 & H2 & H3).
  split; [exact H1|]. split; [rewrite H1; reflexivity|].
  split; [exact H2 | exact H3].
Qed.

Lemma X20_only_initialize_changes_the_configuration_witness :
  is_init (Cleanup flush_none) = false /\
  config (exec (Cleanup flush_none) g_streaming) = config g_streaming.
Proof.
  assert (H : is_init (Cleanup flush_none) = false) by reflexivity.
  destruct (X20_only_initialize_changes_the_configuration
              (Cleanup flush_none) g_streaming H) as (H1 & _).
  split; [exact H | exact H1].
Defined.

(** X21: a disconnect before any initialize opens the way to a Streaming
    session without packet buffer.  From the zero-initialised [g_rtmp],
    [rtmp_disconnect] makes no call and leaves state Initialized with no
    packet buffer (only [rtmp_init_simple] allocates one); a connect that
    succeeds and a start then reach state Streaming with the packet pointer
    still NULL, the pointer the video path hands to
    [avcodec_receive_packet]. *)
Theorem X21_streaming_without_packet_buffer :
  forall (ffd : FlushEnv) (url : option string) (ffc : ConnectEnv) (now : Z),
    result (rtmp_connect url ffc (exec (Disconnect ffd) g_rtmp0))
      = RTMP_SUCCESS ->
    calls (rtmp_disconnect ffd g_rtmp0) = [] /\
    result (rtmp_start_streaming now
              (exec (Connect url ffc) (exec (Disconnect ffd) g_rtmp0)))
      = RTMP_SUCCESS /\
    reachable (exec (StartStreaming now)
                 (exec (Connect url ffc) (exec (Disconnect ffd) g_rtmp0))) /\
    state (exec (StartStreaming now)
             (exec (Connect url ffc) (exec (Disconnect ffd) g_rtmp0)))
      = RTMP_STATE_STREAMING /\
    packet (exec (StartStreaming now)
              (exec (Connect url ffc) (exec (Disconnect ffd) g_rtmp0)))
      = None.
Proof.
  intros ffd url ffc now Hok.
  set (g1 := exec (Disconnect ffd) g_rtmp0) in *.
  assert (Hp1 : packet g1 = None).
  { unfold g1. cbn [exec]. rewrite rtmp_disconnect_run. reflexivity. }
  assert (Hc : state (exec (Connect url ffc) g1) = RTMP_STATE_CONNECTED).
  { cbn [exec]. destruct (rtmp_connect_cases url ffc g1) as [H|H];
      cbn zeta in H.
    - destruct H as (_ & _ & H & _). exact H.
    - destruct H as (H & _). contradiction. }
  assert (Hp2 : packet (exec (Connect url ffc) g1) = None).
  { cbn [exec].
    pose proof (f_equal (fun t => snd (fst (fst t)))
                  (rtmp_connect_keeps_settings url ffc g1)) as K.
    cbn beta in K. unfold settings in K. cbn [fst snd] in K.
    rewrite K. exact Hp1. }
  split; [rewrite rtmp_disconnect_run; reflexivity|].
  split.
  { cbn [exec] in *. rewrite (rtmp_start_streaming_run now _ Hc). reflexivity. }
  split.
  { apply (reachable_step (StartStreaming now)).
    apply (reachable_step (Connect url ffc)).
    apply (reachable_step (Disconnect ffd)). apply reachable_start. }
  cbn [exec] in *. rewrite (rtmp_start_streaming_run now _ Hc).
  split; [reflexivity | exact Hp2].
Qed.

Lemma X21_streaming_without_packet_buffer_witness :
  result (rtmp_connect (Some "rtmp://host/stream") connect_ok
            (exec (Disconnect flush_none) g_rtmp0)) = RTMP_SUCCESS /\
  state (exec (StartStreaming 7)
           (exec (Connect (Some "rtmp://host/stream") connect_ok)
              (exec (Disconnect flush_none) g_rtmp0)))
    = RTMP_STATE_STREAMING /\
  packet (exec (StartStreaming 7)
            (exec (Connect (Some "rtmp://host/stream") connect_ok)
               (exec (Disconnect flush_none) g_rtmp0))) = None.
Proof.
  assert (H : result (rtmp_connect (Some "rtmp://host/stream") connect_ok
                        (exec (Disconnect flush_none) g_rtmp0)) = RTMP_SUCCESS)
    by (vm_compute; reflexivity).
  destruct (X21_streaming_without_packet_buffer flush_none
              (Some "rtmp://host/stream") connect_ok 7 H)
    as (_ & _ & _ & H4 & H5).
  split; [exact H|]. split; [exact H4 | exact H5].
Defined.

(** ** What [bytes_sent] counts *)

Lemma video_loop_bytes_exact (script : list Received) (g : Session) :
  sizes_ok (accepted script) ->
  INT64_MIN <= bytes_sent g ->
  bytes_sent g + total_size (accepted script) <= INT64_MAX ->
  bytes_sent (after (encode_and_send_video_loop script g))
  = bytes_sent g + total_size (accepted script).
Proof.
  revert g. induction script as [|p rest IH]; intros g Hs Hlo Hhi.
  - cbn. lia.
  - cbn [encode_and_send_video_loop]. cbn [accepted] in *.
    rewrite after_bind. cbn [call result after fst snd].
    destruct (Z.ltb_spec (recv_ret p) 0) as [Hr|Hr]; cbn [orb] in *.
    { destruct ((recv_ret p =? AVERROR_EAGAIN) || (recv_ret p =? AVERROR_EOF));
        cbn; lia. }
    destruct (received_tests _ Hr) as [E1 _]. rewrite E1.
    rewrite !after_bind. cbn [call result after fst snd].
    destruct (write_ret p <? 0); [cbn; lia|].
    rewrite !after_bind. cbn [call get modify result after fst snd].
    cbn [total_size fold_right] in *. fold (total_size (accepted rest)) in *.
    inversion Hs as [|q l Hp Hrest]; subst.
    pose proof (total_size_nonneg _ Hrest) as Ht.
    specialize (IH (set_bytes_sent (int64 (bytes_sent g + size_after_write p)) g)).
    cbn [bytes_sent set_bytes_sent] in IH.
    rewrite (add_int64 _ _ (total_size (accepted rest))) in IH by lia.
    rewrite (add_int64 _ _ (total_size (accepted rest))) by lia.
    rewrite IH by (assumption || lia). lia.
Qed.

Lemma audio_loop_bytes_exact (script : list Received) (g : Session) :
  sizes_ok (accepted script) ->
  INT64_MIN <= bytes_sent g ->
  bytes_sent g + total_size (accepted script) <= INT64_MAX ->
  bytes_sent (after (encode_and_send_audio_loop script g))
  = bytes_sent g + total_size (accepted script).
Proof.
  revert g. induction script as [|p rest IH]; intros g Hs Hlo Hhi.
  - cbn. lia.
  - cbn [encode_and_send_audio_loop]. cbn [accepted] in *.
    rewrite after_bind. cbn [call result after fst snd].
    destruct (Z.ltb_spec (recv_ret p) 0) as [Hr|Hr]; cbn [orb] in *.
    { destruct ((recv_ret p =? AVERROR_EAGAIN) || (recv_ret p =? AVERROR_EOF));
        cbn; lia. }
    destruct (received_tests _ Hr) as [E1 _]. rewrite E1.
    rewrite !after_bind. cbn [call result after fst snd].
    destruct (write_ret p <? 0); [cbn; lia|].
    rewrite !after_bind. cbn [call get modify result after fst snd].
    cbn [total_size fold_right] in *. fold (total_size (accepted rest)) in *.
    inversion Hs as [|q l Hp Hrest]; subst.
    pose proof (total_size_nonneg _ Hrest) as Ht.
    specialize (IH (set_bytes_sent (int64 (bytes_sent g + size_after_write p)) g)).
    cbn [bytes_sent set_bytes_sent] in IH.
    rewrite (add_int64 _ _ (total_size (accepted rest))) in IH by lia.
    rewrite (add_int64 _ _ (total_size (accepted rest))) by lia.
    rewrite IH by (assumption || lia). lia.
Qed.

(** X22: what [bytes_sent] counts.  Once the frame is handed to the encoder,
    [encode_and_send_video] and [encode_and_send_audio] add to [bytes_sent]
    the [size] field of each packet as it reads after
    [av_interleaved_write_frame] has returned, for the packets written
    before the first one the encoder does not hand out or the muxer does not
    take, and nothing else: not the size the packet had when it was handed
    to the muxer.  ([bytes_sent] is an [int64_t]: stated for sizes that are
    not negative and a total within its range.) *)
Theorem X22_bytes_sent_counts_sizes_read_after_the_write :
  forall (n pts : Z) (ff : EncodeEnv) (g : Session),
    0 <= e_make_writable ff -> 0 <= e_send_frame ff ->
    sizes_ok (accepted (e_received ff)) ->
    INT64_MIN <= bytes_sent g ->
    bytes_sent g + total_size (accepted (e_received ff)) <= INT64_MAX ->
    rtmp_get_bytes_sent (after (encode_and_send_video pts ff g))
    = rtmp_get_bytes_sent g + total_size (accepted (e_received ff)) /\
    (0 <= e_swr_convert ff ->
     rtmp_get_bytes_sent (after (encode_and_send_audio n pts ff g))
     = rtmp_get_bytes_sent g + total_size (accepted (e_received ff))).
Proof.
  intros n pts ff g Hm Hs Hz Hlo Hhi. unfold rtmp_get_bytes_sent.
  assert (E1 : (e_make_writable ff <? 0) = false) by (apply Z.ltb_ge; exact Hm).
  assert (E2 : (e_send_frame ff <? 0) = false) by (apply Z.ltb_ge; exact Hs).
  split.
  - destruct (encode_and_send_video_run pts ff g Hm Hs) as [_ H].
    pose proof (video_loop_bytes_exact (e_received ff) g Hz Hlo Hhi) as B.
    destruct (result (encode_and_send_video_loop (e_received ff) g));
      destruct H as [_ H]; rewrite H; exact B.
  - intros Hc.
    assert (E3 : (e_swr_convert ff <? 0) = false) by (apply Z.ltb_ge; exact Hc).
    pose proof (audio_loop_bytes_exact (e_received ff) g Hz Hlo Hhi) as B.
    unfold encode_and_send_audio.
    rewrite after_bind. cbn [call result after fst snd]. rewrite E1.
    rewrite after_bind. cbn [call result after fst snd]. rewrite E3.
    rewrite after_bind. cbn [call result after fst snd]. rewrite E2.
    rewrite after_bind.
    destruct (result (encode_and_send_audio_loop (e_received ff) g));
      exact B.
Qed.

Lemma X22_bytes_sent_counts_sizes_read_after_the_write_witness :
  (0 <= e_make_writable encode_second_write_fails /\
   0 <= e_send_frame encode_second_write_fails /\
   e_received encode_second_write_fails
   = [mkReceived 0 4096 0 0; mkReceived 0 512 (-32) 0; mkReceived 0 512 0 0])
  /\
  rtmp_get_bytes_sent
    (after (encode_and_send_video 0 encode_second_write_fails g_streaming))
  = rtmp_get_bytes_sent g_streaming + 0
  /\
  rtmp_get_bytes_sent
    (after (encode_and_send_video 0 encode_two_packets g_streaming))
  = rtmp_get_bytes_sent g_streaming + 4608.
Proof.
  assert (Hz : forall l, Forall (fun r => 0 <= size_after_write r) l ->
                         sizes_ok l) by (intros l H; exact H).
  assert (H1 : sizes_ok (accepted (e_received encode_second_write_fails))).
  { apply Hz. cbn. apply Forall_cons; [cbn; lia | apply Forall_nil]. }
  assert (H2 : sizes_ok (accepted (e_received encode_two_packets))).
  { apply Hz. cbn. apply Forall_cons; [cbn; lia|].
    apply Forall_cons; [cbn; lia | apply Forall_nil]. }
  destruct (X22_bytes_sent_counts_sizes_read_after_the_write 1 0
              encode_second_write_fails g_streaming
              ltac:(cbn; lia) ltac:(cbn; lia) H1
              ltac:(vm_compute; discriminate) ltac:(vm_compute; discriminate))
    as [A _].
  destruct (X22_bytes_sent_counts_sizes_read_after_the_write 1 0
              encode_two_packets g_streaming
              ltac:(cbn; lia) ltac:(cbn; lia) H2
              ltac:(vm_compute; discriminate) ltac:(vm_compute; discriminate))
    as [B _].
  split; [split; [cbn; lia | split; [cbn; lia | reflexivity]]|].
  split; [exact A | exact B].
Defined.

(** ** The stub *)

Lemma wrap_small (bits z : Z) :
  0 < bits -> - 2 ^ (bits - 1) <= z < 2 ^ (bits - 1) -> wrap bits z = z.
Proof.
  intros Hb Hz. unfold wrap.
  assert (E : 2 ^ bits = 2 * 2 ^ (bits - 1)).
  { replace bits with (Z.succ (bits - 1)) at 1 by lia.
    rewrite Z.pow_succ_r by lia. reflexivity. }
  rewrite Z.mod_small by lia. lia.
Qed.

Lemma stub_message_fits :
  substring 0 255 Stub.stub_message = Stub.stub_message.
Proof. reflexivity. Qed.

(** X23: the stub never fails, never streams and never drops.  Every
    operation of the stub that returns a result returns [RTMP_SUCCESS],
    in every state and for every argument; and on every state reached from
    the initial one [rtmp_get_state] is 0, 1 or 2 (never 3, Streaming:
    [rtmp_start_streaming] leaves the state alone; never -1),
    [rtmp_get_dropped_frames] is 0, and [rtmp_get_error] is empty or the
    one message [rtmp_init_simple] stores. *)
Theorem X23_stub_never_fails_never_streams :
  forall (long_bits : Z),
    (forall (op : Stub.Op) (s : Stub.State) (c : Z),
       Stub.returned long_bits op s = Some c -> c = RTMP_SUCCESS) /\
    (forall s : Stub.State,
       Stub.reachable long_bits s ->
       0 <= Stub.rtmp_get_state s <= 2 /\
       Stub.rtmp_get_dropped_frames s = 0 /\
       (Stub.rtmp_get_error s = EmptyString \/
        Stub.rtmp_get_error s = Stub.stub_message)).
Proof.
  intros long_bits. split.
  - intros op s c H. destruct op; cbn in H; congruence.
  - intros s Hr. induction Hr as [|op s Hr IH].
    + cbn. repeat split; try lia. left; reflexivity.
    + destruct IH as (I1 & I2 & I3).
      unfold Stub.rtmp_get_state, Stub.rtmp_get_dropped_frames,
        Stub.rtmp_get_error in *.
      destruct op; cbn [Stub.exec Stub.next Stub.rtmp_init_simple
        Stub.rtmp_connect Stub.rtmp_start_streaming Stub.rtmp_send_video_frame
        Stub.rtmp_send_audio Stub.rtmp_stop_streaming Stub.rtmp_disconnect
        Stub.rtmp_cleanup Stub.set_g_state Stub.set_error Stub.g_state
        Stub.g_error Stub.g_dropped_frames fst snd];
        (split; [lia|]); (split; [exact I2|]);
        try exact I3.
      right. exact stub_message_fits.
Qed.

Lemma X23_stub_never_fails_never_streams_witness :
  Stub.returned 64 Stub.StartStreaming
    (Stub.exec 64 (Stub.Connect "rtmp://host/stream") Stub.initial)
  = Some RTMP_SUCCESS /\
  Stub.rtmp_get_state
    (Stub.exec 64 Stub.StartStreaming
       (Stub.exec 64 (Stub.Connect "rtmp://host/stream") Stub.initial)) <= 2.
Proof.
  destruct (X23_stub_never_fails_never_streams 64) as [_ H].
  split; [reflexivity|].
  apply (H (Stub.exec 64 Stub.StartStreaming
              (Stub.exec 64 (Stub.Connect "rtmp://host/stream") Stub.initial))).
  apply Stub.reachable_exec. apply Stub.reachable_exec.
  apply Stub.reachable_initial.
Defined.

(** X24: the stub counts every frame, in every state.  Video frames sent to
    the stub one after the other are all counted, whatever the state (also
    before any init or connect) and whatever their sizes: [frames_sent]
    grows by their number and [bytes_sent] by the sum of the [data_size]
    arguments, and the state is not changed.  The counters are a C [int]
    and a C [long]: stated for sizes that are not negative and totals within
    the range of the types. *)
Theorem X24_stub_counts_every_frame :
  forall (long_bits : Z) (sizes : list Z) (s : Stub.State),
    0 < long_bits ->
    Forall (fun n => 0 <= n) sizes ->
    0 <= Stub.g_frames_sent s ->
    Stub.g_frames_sent s + Z.of_nat (List.length sizes) <= INT_MAX ->
    0 <= Stub.g_bytes_sent s ->
    Stub.g_bytes_sent s + Stub.sum_sizes sizes < 2 ^ (long_bits - 1) ->
    Stub.rtmp_get_frames_sent (Stub.send_frames long_bits sizes s)
    = Stub.g_frames_sent s + Z.of_nat (List.length sizes) /\
    Stub.rtmp_get_bytes_sent (Stub.send_frames long_bits sizes s)
    = Stub.g_bytes_sent s + Stub.sum_sizes sizes /\
    Stub.rtmp_get_state (Stub.send_frames long_bits sizes s)
    = Stub.rtmp_get_state s.
Proof.
  intros long_bits sizes s Hb Hs. revert s.
  induction Hs as [|n rest Hn Hrest IH]; intros s Hf Hfm Hy Hym.
  - unfold Stub.rtmp_get_frames_sent, Stub.rtmp_get_bytes_sent,
      Stub.rtmp_get_state, Stub.sum_sizes.
    cbn [Stub.send_frames List.length fold_right Z.of_nat].
    repeat split; lia.
  - cbn [Stub.send_frames]. cbn [List.length Stub.sum_sizes fold_right] in *.
    fold (Stub.sum_sizes rest) in *.
    assert (Hsum : 0 <= Stub.sum_sizes rest).
    { clear - Hrest. induction Hrest as [|m l Hm Hl IHl]; cbn; [lia|].
      fold (Stub.sum_sizes l). lia. }
    assert (Hp : 0 < 2 ^ (long_bits - 1)) by (apply Z.pow_pos_nonneg; lia).
    assert (E1 : int32 (Stub.g_frames_sent s + 1) = Stub.g_frames_sent s + 1).
    { apply int32_small. unfold int_range, INT_MIN, INT_MAX in *. lia. }
    assert (E2 : wrap long_bits (Stub.g_bytes_sent s + n)
                 = Stub.g_bytes_sent s + n).
    { apply wrap_small; lia. }
    specialize (IH (Stub.next
                      (Stub.rtmp_send_video_frame long_bits None n 0 s))).
    cbn [Stub.rtmp_send_video_frame Stub.next Stub.g_frames_sent
         Stub.g_bytes_sent fst snd] in IH.
    rewrite E1, E2 in IH.
    destruct IH as (I1 & I2 & I3); try lia.
    unfold Stub.rtmp_get_frames_sent, Stub.rtmp_get_bytes_sent,
      Stub.rtmp_get_state in *.
    cbn [Stub.rtmp_send_video_frame Stub.next fst snd].
    rewrite E1, E2, I1, I2, I3. cbn [Stub.g_state]. repeat split; lia.
Qed.

Lemma X24_stub_counts_every_frame_witness :
  Stub.rtmp_get_state Stub.initial = 0 /\
  Stub.rtmp_get_frames_sent (Stub.send_frames 64 [32; 32; 32] Stub.initial)
  = 3 /\
  Stub.rtmp_get_bytes_sent (Stub.send_frames 64 [32; 32; 32] Stub.initial)
  = 96.
Proof.
  assert (Hs : Forall (fun n => 0 <= n) [32; 32; 32])
    by (repeat constructor; lia).
  destruct (X24_stub_counts_every_frame 64 [32; 32; 32] Stub.initial
              ltac:(lia) Hs ltac:(simpl; lia) ltac:(vm_compute; discriminate)
              ltac:(simpl; lia) ltac:(vm_compute; reflexivity))
    as (H1 & H2 & _).
  split; [reflexivity|]. split; [exact H1 | exact H2].
Defined.

(** X25: where the stub and the bridge part.  After [rtmp_disconnect] the
    stub reports state 0 (Idle) and the bridge state 1 (Initialized), in
    every state and whatever FFmpeg answers; and [rtmp_start_streaming]
    on a connected session leaves the stub in state 2 (Connected) where the
    bridge goes to state 3 (Streaming).  A client that waits for state 3
    never sees it with the stub. *)
Theorem X25_stub_and_bridge_states_differ :
  forall (s : Stub.State) (g : Session) (ff : FlushEnv) (now : Z),
    Stub.rtmp_get_state (Stub.next (Stub.rtmp_disconnect s)) = 0 /\
    rtmp_get_state (after (rtmp_disconnect ff g)) = 1 /\
    (Stub.rtmp_get_state s = 2 ->
     Stub.rtmp_get_state (Stub.next (Stub.rtmp_start_streaming s)) = 2) /\
    (rtmp_get_state g = 2 ->
     rtmp_get_state (after (rtmp_start_streaming now g)) = 3).
Proof.
  intros s g ff now. split; [reflexivity|]. split.
  - unfold rtmp_get_state. rewrite rtmp_disconnect_state. reflexivity.
  - split; [intros H; exact H|].
    unfold rtmp_get_state. intros H.
    assert (Hs : state g = RTMP_STATE_CONNECTED)
      by (destruct (state g); cbn in H; try discriminate H; reflexivity).
    rewrite (rtmp_start_streaming_run now g Hs). reflexivity.
Qed.

Lemma X25_stub_and_bridge_states_differ_witness :
  rtmp_get_state g_connected = 2 /\
  rtmp_get_state (after (rtmp_start_streaming 7 g_connected)) = 3 /\
  Stub.rtmp_get_state
    (Stub.next (Stub.rtmp_start_streaming
                  (Stub.exec 64 (Stub.Connect "rtmp://host/stream")
                     Stub.initial))) = 2.
Proof.
  destruct (X25_stub_and_bridge_states_differ
              (Stub.exec 64 (Stub.Connect "rtmp://host/stream") Stub.initial)
              g_connected flush_none 7) as (_ & _ & H3 & H4).
  split; [reflexivity|]. split; [exact (H4 eq_refl) | exact (H3 eq_refl)].
Defined.
